(** * GoPro 360 remote: the Bluetooth service and the HTTP camera client

    A shallow embedding of
    - [src/config/GoProConfig.ts] (constants, [getGoProUrl]),
    - [src/types/GoProTypes.ts] (the records the services exchange),
    - [src/services/GoProBluetoothService.ts] (class [GoProBluetoothService]),
    - the HTTP client (class [GoProService]),
    - the handlers of the component [GoProApp] that call the two services,
    followed by the properties of these services and handlers.

    Conventions.
    - A JavaScript string is a [string] of bytes; [toLowerCase] lowers the
      letters A to Z and leaves every other byte alone.
    - An [async] method is a function from the state of the object to a
      completion (a returned value or a thrown error) and a new state. The
      native side (BLE stack, camera) is an environment record that gives
      the outcome of each transport call.
    - A field that TypeScript declares optional, or nullable, is an [option]. *)

From Stdlib Require Import ZArith NArith Ascii.
From stdpp Require Import base strings pretty gmap list.

Local Open Scope Z_scope.

(** ** JavaScript strings *)

Module JsString.

Definition lowerChar (c : ascii) : ascii :=
  let n := N_of_ascii c in
  if ((65 <=? n) && (n <=? 90))%N then ascii_of_N (n + 32) else c.

Fixpoint toLowerCase (s : string) : string :=
  match s with
  | EmptyString => EmptyString
  | String c s' => String (lowerChar c) (toLowerCase s')
  end.

(** [s.startsWith(p)] *)
Fixpoint startsWith (s p : string) {struct p} : bool :=
  match p, s with
  | EmptyString, _ => true
  | String _ _, EmptyString => false
  | String a p', String b s' => if decide (a = b) then startsWith s' p' else false
  end.

(** [s.includes(p)]: [p] occurs in [s] at some position. *)
Fixpoint includes (s p : string) : bool :=
  startsWith s p ||
  match s with
  | EmptyString => false
  | String _ s' => includes s' p
  end.

(** A string is truthy when it is not empty. *)
Definition truthy (s : string) : bool :=
  match s with EmptyString => false | String _ _ => true end.

(** [a || b] where [a] may be [null] or [undefined]. *)
Definition orElse (a : option string) (b : string) : string :=
  match a with
  | Some s => if truthy s then s else b
  | None => b
  end.

(** The mathematical reading of "contains": a prefix, the pattern, a suffix. *)
Definition Contains (s p : string) : Prop :=
  exists pre post : string, s = pre +:+ p +:+ post.

(** Case-insensitive containment and equality, as the spec words them. *)
Definition ContainsIgnoreCase (s p : string) : Prop :=
  Contains (toLowerCase s) (toLowerCase p).

Definition EqualsIgnoreCase (s p : string) : Prop :=
  toLowerCase s = toLowerCase p.

End JsString.

(** ** [GoProConfig.ts] *)

Module GOPRO_CONFIG.

Definition BASE_URL : string := "http://10.5.5.9:8080".
Definition API_TIMEOUT : N := 5000%N.

Inductive Endpoint := INFO | STATUS | SHUTTER | MODE | MEDIA_LIST.

Definition ENDPOINTS (e : Endpoint) : string :=
  match e with
  | INFO => "/gp/gpControl/info"
  | STATUS => "/gp/gpControl/status"
  | SHUTTER => "/gp/gpControl/command/shutter"
  | MODE => "/gp/gpControl/command/mode"
  | MEDIA_LIST => "/gp/gpMediaList"
  end.

Module SHUTTER_COMMANDS.
Definition START : string := "1".
Definition STOP : string := "0".
End SHUTTER_COMMANDS.

Module BLE_SERVICES.
Definition WIFI_SERVICE : string := "fea6".
Definition COMMAND_SERVICE : string := "fea7".
Definition RESPONSE_SERVICE : string := "fea8".
Definition SETTINGS_SERVICE : string := "fea9".
Definition QUERY_SERVICE : string := "feaa".
(** [Object.values(GOPRO_CONFIG.BLE_SERVICES)] *)
Definition values : list string :=
  [WIFI_SERVICE; COMMAND_SERVICE; RESPONSE_SERVICE; SETTINGS_SERVICE; QUERY_SERVICE].
End BLE_SERVICES.

Module BLE_CHARACTERISTICS.
Definition WIFI_SSID : string := "fea6-0001".
Definition WIFI_PASSWORD : string := "fea6-0002".
End BLE_CHARACTERISTICS.

End GOPRO_CONFIG.

Definition getGoProUrl (endpoint : string) : string :=
  GOPRO_CONFIG.BASE_URL +:+ endpoint.

Definition GOPRO_DEVICE_PATTERNS : list string :=
  ["gopro"; "hero"; "gopro hero"; "gopro max"; "gopro fusion"].

(** ** [GoProTypes.ts] *)

Inductive ConnectionStatus :=
| disconnected
| bluetooth_pairing
| bluetooth_connected
| wifi_connecting
| wifi_connected.

Inductive GoProErrorType :=
| bluetooth_not_supported
| bluetooth_permission_denied
| device_not_found
| connection_failed
| api_timeout
| network_error
| invalid_response
| camera_not_responding
| wifi_connection_failed
| unknown.

Record GoProError := {
  type : GoProErrorType;
  message : string;
  details : option string;
  timestamp : Z;
}.

(** [{ success: true; data: T } | { success: false; error: GoProError }] *)
Inductive Result (T : Type) :=
| Success (data : T)
| Failure (error : GoProError).
Arguments Success {T} data.
Arguments Failure {T} error.

Definition success {T} (r : Result T) : bool :=
  match r with Success _ => true | Failure _ => false end.

Record GoProCameraInfo := {
  model_name : string;
  firmware_version : string;
  serial_number : string;
  camera_type : string;
}.

Record GoProCameraStatus := {
  status : Z;
  battery_level : option Z;
  recording : option bool;
  mode : option string;
}.

Record GoProMediaFile := {
  media_id : string;
  media_name : string;
  media_size : Z;
  media_date : string;
  media_type : string;
}.

Record GoProMediaList := {
  media : list GoProMediaFile;
  total_count : Z;
}.

(** ** The [react-native-ble-plx] objects, as far as the service reads them *)

Inductive State :=
| Unknown | Resetting | Unsupported | Unauthorized | PoweredOff | PoweredOn.

Record Device := {
  id : string;
  name : option string;
  localName : option string;
  rssi : option Z;
}.

Record Service := {
  service_uuid : string;
}.

Record Characteristic := {
  uuid : string;
  value : option string;
}.

Record GoProBluetoothDevice := {
  device : Device;
  gp_name : string;
  gp_rssi : Z;
  isGoPro : bool;
  services : option (list Service);
  characteristics : option (list Characteristic);
}.

(** A thrown JavaScript error: its [name] and its [message]. *)
Record JsError := {
  err_name : string;
  err_message : string;
}.

#[global] Instance State_eq_dec : EqDecision State.
Proof. solve_decision. Defined.
#[global] Instance ConnectionStatus_eq_dec : EqDecision ConnectionStatus.
Proof. solve_decision. Defined.
#[global] Instance GoProErrorType_eq_dec : EqDecision GoProErrorType.
Proof. solve_decision. Defined.

(** ** [isGoProDevice] *)

Definition some {A} (f : A -> bool) (l : list A) : bool := existsb f l.

Definition isGoProDevice (d : Device) : bool :=
  let name := JsString.orElse (JsString.toLowerCase <$> name d) EmptyString in
  let localName := JsString.orElse (JsString.toLowerCase <$> localName d) EmptyString in
  some (fun pattern =>
          JsString.includes name pattern || JsString.includes localName pattern)
       GOPRO_DEVICE_PATTERNS.

(** ** Asynchronous methods: state, completion, [try]/[catch] *)

Inductive Completion (A : Type) :=
| Returned (a : A)
| Thrown (e : JsError).
Arguments Returned {A} a.
Arguments Thrown {A} e.

(** An [async] method over an object state [S]. *)
Definition Async (S A : Type) : Type := S -> Completion A * S.

Section AsyncOps.
Context {S : Type}.

Definition ret {A} (a : A) : Async S A := fun s => (Returned a, s).

Definition bind {A B} (m : Async S A) (k : A -> Async S B) : Async S B :=
  fun s =>
    match m s with
    | (Returned a, s') => k a s'
    | (Thrown e, s') => (Thrown e, s')
    end.

(** [try { body } catch (error) { handler }] *)
Definition tryCatch {A} (body : Async S A) (handler : JsError -> Async S A) : Async S A :=
  fun s =>
    match body s with
    | (Returned a, s') => (Returned a, s')
    | (Thrown e, s') => handler e s'
    end.

(** [await p] for a promise of the native side whose outcome is [c]. *)
Definition await {A} (c : Completion A) : Async S A := fun s => (c, s).

Definition gets {A} (f : S -> A) : Async S A := fun s => (Returned (f s), s).

Definition modify (f : S -> S) : Async S unit := fun s => (Returned tt, f s).
End AsyncOps.

Notation "'let*' x ':=' m 'in' k" := (bind m (fun x => k))
  (at level 10, x name, m at level 100, k at level 200).

(** ** [GoProBluetoothService] *)

(** The private fields of the class, then what the class has handed to the
    native side: the running device scan of [bleManager] with its UUID
    filter, and the delays of the pending [setTimeout] callbacks (each calls
    [stopScanning]). *)
Record GoProBluetoothService := {
  isScanning : bool;
  discoveredDevices : gmap string GoProBluetoothDevice;
  connectedDevice : option GoProBluetoothDevice;
  connectionStatus : ConnectionStatus;
  deviceScan : option (list string);
  timers : list N;
}.

Definition set_isScanning (b : bool) (w : GoProBluetoothService) : GoProBluetoothService :=
  {| isScanning := b; discoveredDevices := discoveredDevices w;
     connectedDevice := connectedDevice w; connectionStatus := connectionStatus w;
     deviceScan := deviceScan w; timers := timers w |}.

Definition set_discoveredDevices (m : gmap string GoProBluetoothDevice)
    (w : GoProBluetoothService) : GoProBluetoothService :=
  {| isScanning := isScanning w; discoveredDevices := m;
     connectedDevice := connectedDevice w; connectionStatus := connectionStatus w;
     deviceScan := deviceScan w; timers := timers w |}.

Definition set_connectedDevice (d : option GoProBluetoothDevice)
    (w : GoProBluetoothService) : GoProBluetoothService :=
  {| isScanning := isScanning w; discoveredDevices := discoveredDevices w;
     connectedDevice := d; connectionStatus := connectionStatus w;
     deviceScan := deviceScan w; timers := timers w |}.

Definition set_connectionStatus (c : ConnectionStatus)
    (w : GoProBluetoothService) : GoProBluetoothService :=
  {| isScanning := isScanning w; discoveredDevices := discoveredDevices w;
     connectedDevice := connectedDevice w; connectionStatus := c;
     deviceScan := deviceScan w; timers := timers w |}.

Definition set_deviceScan (f : option (list string))
    (w : GoProBluetoothService) : GoProBluetoothService :=
  {| isScanning := isScanning w; discoveredDevices := discoveredDevices w;
     connectedDevice := connectedDevice w; connectionStatus := connectionStatus w;
     deviceScan := f; timers := timers w |}.

(** [setTimeout(callback, ms)] *)
Definition setTimeout (ms : N) (w : GoProBluetoothService) : GoProBluetoothService :=
  {| isScanning := isScanning w; discoveredDevices := discoveredDevices w;
     connectedDevice := connectedDevice w; connectionStatus := connectionStatus w;
     deviceScan := deviceScan w; timers := timers w ++ [ms] |}.

(** The state of a freshly constructed service. *)
Definition newBluetoothService : GoProBluetoothService :=
  {| isScanning := false; discoveredDevices := ∅; connectedDevice := None;
     connectionStatus := disconnected; deviceScan := None; timers := [] |}.

(** The native side: the clock, and the outcome of each call into
    [react-native-ble-plx] and into [Buffer]. *)
Record BleEnv := {
  now : Z;
  manager_state : Completion State;
  manager_startDeviceScan : list string -> Completion unit;
  device_connect : Device -> Completion Device;
  (** [device.discoverAllServicesAndCharacteristics()] resolves to the device *)
  device_discoverAllServicesAndCharacteristics : Device -> Completion Device;
  service_characteristics : Service -> Completion (list Characteristic);
  device_cancelConnection : Device -> Completion Device;
  characteristic_read : Characteristic -> Completion Characteristic;
  characteristic_writeWithResponse : Characteristic -> list N -> Completion Characteristic;
  (** [Buffer.from(v, 'base64').toString()] *)
  base64ToString : string -> string;
}.

(** What [discoverServices] returns under the type [Service[]]: the empty
    array of its [catch], or the property [services] of the device that the
    discovery resolved to. In [react-native-ble-plx] that property is the
    method [services()] of the class [Device], a function and not an array. *)
Inductive ServicesValue :=
| ServiceArray (l : list Service)
| ServicesMethod (d : Device).

(** The [TypeError] of a [for ... of] over a value that is not iterable. The
    wording of the message depends on the JavaScript engine. *)
Definition notIterable : JsError :=
  {| err_name := "TypeError"; err_message := "services is not iterable" |}.

(** [Array.prototype.find] *)
Fixpoint find {A} (f : A -> bool) (l : list A) : option A :=
  match l with
  | [] => None
  | x :: l' => if f x then Some x else find f l'
  end.

Section BluetoothMethods.
Variable env : BleEnv.

Definition createError (ty : GoProErrorType) (msg : string) (det : option string)
  : GoProError :=
  {| type := ty; message := msg; details := det; timestamp := now env |}.

(** The callback of [bleManager.onStateChange]. *)
Definition onStateChange (state : State) (w : GoProBluetoothService) : GoProBluetoothService :=
  if decide (state = PoweredOff)
  then set_connectedDevice None (set_connectionStatus disconnected w)
  else w.

Definition discoverServices (d : Device) : Async GoProBluetoothService ServicesValue :=
  tryCatch
    (let* discovered := await (device_discoverAllServicesAndCharacteristics env d) in
     ret (ServicesMethod discovered))
    (fun _ => ret (ServiceArray [])).

(** The head of [for (const service of services)]: the loop asks the value
    for its iterator, which an array has and a function has not. *)
Definition iterate (v : ServicesValue) : Async GoProBluetoothService (list Service) :=
  match v with
  | ServiceArray l => ret l
  | ServicesMethod _ => await (Thrown notIterable)
  end.

Definition discoverCharacteristics (s : Service)
  : Async GoProBluetoothService (list Characteristic) :=
  tryCatch
    (let* found := await (service_characteristics env s) in
     ret found)
    (fun _ => ret []).

Definition checkBluetoothSupport : Async GoProBluetoothService (Result bool) :=
  tryCatch
    (let* state := await (manager_state env) in
     if decide (state = Unsupported) then
       ret (Failure (createError bluetooth_not_supported
                       "Bluetooth is not supported on this device" None))
     else if decide (state = PoweredOff) then
       ret (Failure (createError bluetooth_permission_denied
                       "Bluetooth is turned off. Please enable Bluetooth in Settings." None))
     else if decide (state = Unauthorized) then
       ret (Failure (createError bluetooth_permission_denied
                       "Bluetooth permission denied. Please allow Bluetooth access in Settings." None))
     else ret (Success (bool_decide (state = PoweredOn))))
    (fun error =>
       ret (Failure (createError unknown "Failed to check Bluetooth support"
                       (Some (err_message error))))).

(** The callback handed to [bleManager.startDeviceScan]. *)
Definition onDeviceScanned (error : option JsError) (scanned : option Device)
    (w : GoProBluetoothService) : GoProBluetoothService :=
  match error with
  | Some _ => w
  | None =>
    match scanned with
    | Some d =>
      if isGoProDevice d then
        let goproDevice :=
          {| device := d;
             gp_name := JsString.orElse (name d)
                          (JsString.orElse (localName d) "Unknown GoPro");
             gp_rssi := match rssi d with Some r => r | None => 0 end;
             isGoPro := true;
             services := None;
             characteristics := None |} in
        set_discoveredDevices (<[id d := goproDevice]> (discoveredDevices w)) w
      else w
    | None => w
    end
  end.

Definition startScanning : Async GoProBluetoothService (Result unit) :=
  tryCatch
    (let* supportCheck := checkBluetoothSupport in
     match supportCheck with
     | Failure e => ret (Failure e)
     | Success _ =>
       let* scanning := gets isScanning in
       if scanning then ret (Success tt)
       else
         let* _ := modify (set_isScanning true) in
         let* _ := modify (set_discoveredDevices ∅) in
         let goproServiceUUIDs := GOPRO_CONFIG.BLE_SERVICES.values in
         let* _ := await (manager_startDeviceScan env goproServiceUUIDs) in
         let* _ := modify (set_deviceScan (Some goproServiceUUIDs)) in
         let* _ := modify (setTimeout 10000) in
         ret (Success tt)
     end)
    (fun error =>
       let* _ := modify (set_isScanning false) in
       ret (Failure (createError unknown "Failed to start scanning"
                       (Some (err_message error))))).

Definition stopScanning (w : GoProBluetoothService) : GoProBluetoothService :=
  if isScanning w then set_isScanning false (set_deviceScan None w) else w.

Definition getDiscoveredDevices (w : GoProBluetoothService) : list GoProBluetoothDevice :=
  (map_to_list (discoveredDevices w)).*2.

(** The [for ... of] loop of [connectToDevice]; [acc] is [allCharacteristics]. *)
Fixpoint collectCharacteristics (svcs : list Service) (acc : list Characteristic)
  : Async GoProBluetoothService (list Characteristic) :=
  match svcs with
  | [] => ret acc
  | service :: rest =>
    let* found := discoverCharacteristics service in
    collectCharacteristics rest (acc ++ found)
  end.

Definition connectToDevice (deviceId : string)
  : Async GoProBluetoothService (Result GoProBluetoothDevice) :=
  tryCatch
    (let* entry := gets (fun w => discoveredDevices w !! deviceId) in
     match entry with
     | None =>
       ret (Failure (createError device_not_found
                       "Device not found in discovered devices" None))
     | Some goproDevice =>
       let* _ := modify (set_connectionStatus bluetooth_pairing) in
       let* connected := await (device_connect env (device goproDevice)) in
       let* discovered := discoverServices connected in
       let* svcs := iterate discovered in
       let* allCharacteristics := collectCharacteristics svcs [] in
       let updatedDevice :=
         {| device := connected;
            gp_name := gp_name goproDevice;
            gp_rssi := gp_rssi goproDevice;
            isGoPro := isGoPro goproDevice;
            services := Some svcs;
            characteristics := Some allCharacteristics |} in
       let* _ := modify (set_connectedDevice (Some updatedDevice)) in
       let* _ := modify (set_connectionStatus bluetooth_connected) in
       ret (Success updatedDevice)
     end)
    (fun error =>
       let* _ := modify (set_connectionStatus disconnected) in
       ret (Failure (createError connection_failed "Failed to connect to GoPro device"
                       (Some (err_message error))))).

Definition disconnect : Async GoProBluetoothService (Result unit) :=
  tryCatch
    (let* current := gets connectedDevice in
     let* _ :=
       match current with
       | Some g =>
         let* _ := await (device_cancelConnection env (device g)) in
         let* _ := modify (set_connectedDevice None) in
         modify (set_connectionStatus disconnected)
       | None => ret tt
       end in
     ret (Success tt))
    (fun error =>
       ret (Failure (createError unknown "Failed to disconnect"
                       (Some (err_message error))))).

(** [list?.find(x => x.uuid.toLowerCase().includes(pattern))] *)
Definition findByUuid {A} (uuidOf : A -> string) (pattern : string)
    (l : option (list A)) : option A :=
  match l with
  | Some l => find (fun x => JsString.includes (JsString.toLowerCase (uuidOf x)) pattern) l
  | None => None
  end.

Definition enableWiFi : Async GoProBluetoothService (Result unit) :=
  tryCatch
    (let* current := gets connectedDevice in
     match current with
     | None =>
       ret (Failure (createError connection_failed "No GoPro device connected" None))
     | Some g =>
       match findByUuid service_uuid GOPRO_CONFIG.BLE_SERVICES.WIFI_SERVICE (services g) with
       | None =>
         ret (Failure (createError connection_failed
                         "WiFi service not found on GoPro device" None))
       | Some _ =>
         match findByUuid uuid GOPRO_CONFIG.BLE_CHARACTERISTICS.WIFI_SSID
                 (characteristics g) with
         | None =>
           ret (Failure (createError connection_failed
                           "WiFi characteristic not found on GoPro device" None))
         | Some wifiCharacteristic =>
           let wifiEnableCommand := [1%N] in
           let* _ := await (characteristic_writeWithResponse env wifiCharacteristic
                              wifiEnableCommand) in
           ret (Success tt)
         end
       end
     end)
    (fun error =>
       ret (Failure (createError connection_failed "Failed to enable WiFi on GoPro"
                       (Some (err_message error))))).

(** [c.value ? Buffer.from(c.value, 'base64').toString() : ''] *)
Definition decodeValue (c : Characteristic) : string :=
  match value c with
  | Some v => if JsString.truthy v then base64ToString env v else EmptyString
  | None => EmptyString
  end.

Definition getWiFiCredentials : Async GoProBluetoothService (Result (string * string)) :=
  tryCatch
    (let* current := gets connectedDevice in
     match current with
     | None =>
       ret (Failure (createError connection_failed "No GoPro device connected" None))
     | Some g =>
       let ssidCharacteristic :=
         findByUuid uuid GOPRO_CONFIG.BLE_CHARACTERISTICS.WIFI_SSID (characteristics g) in
       let passwordCharacteristic :=
         findByUuid uuid GOPRO_CONFIG.BLE_CHARACTERISTICS.WIFI_PASSWORD (characteristics g) in
       match ssidCharacteristic, passwordCharacteristic with
       | Some ssidC, Some passwordC =>
         let* ssidValue := await (characteristic_read env ssidC) in
         let* passwordValue := await (characteristic_read env passwordC) in
         let ssid := decodeValue ssidValue in
         let password := decodeValue passwordValue in
         ret (Success (ssid, password))
       | _, _ =>
         ret (Failure (createError connection_failed
                         "WiFi credentials characteristics not found" None))
       end
     end)
    (fun error =>
       ret (Failure (createError connection_failed "Failed to get WiFi credentials"
                       (Some (err_message error))))).

Definition getConnectionStatus (w : GoProBluetoothService) : ConnectionStatus :=
  connectionStatus w.

Definition getConnectedDevice (w : GoProBluetoothService) : option GoProBluetoothDevice :=
  connectedDevice w.

Definition isCurrentlyScanning (w : GoProBluetoothService) : bool := isScanning w.

Definition isConnected (w : GoProBluetoothService) : bool :=
  bool_decide (connectionStatus w = bluetooth_connected) &&
  match connectedDevice w with Some _ => true | None => false end.

End BluetoothMethods.

(** ** [GoProService], the HTTP camera client *)

(** The fields of [RequestInit] that the client sets. *)
Record RequestInit := {
  method : option string;
  body : option string;
}.

Definition defaultInit : RequestInit := {| method := None; body := None |}.

(** A [Response] whose body, once parsed, is meant to be a [T]: [json] is the
    outcome of [response.json()]. *)
Record Response (T : Type) := {
  ok : bool;
  http_status : Z;
  statusText : string;
  json : Completion T;
}.
Arguments ok {T} _.
Arguments http_status {T} _.
Arguments statusText {T} _.
Arguments json {T} _.

(** What one [fetch] does when nobody aborts it: after [latency] milliseconds
    it settles as [settles] says (a response, or a rejection), or it never
    settles ([latency = None]). *)
Record Fetch (T : Type) := {
  latency : option N;
  settles : Completion (Response T);
}.
Arguments latency {T} _.
Arguments settles {T} _.

(** The request outlives the timer of [ms] milliseconds. *)
Definition exceedsTimeout {T} (f : Fetch T) (ms : N) : Prop :=
  match latency f with
  | Some t => (ms < t)%N
  | None => True
  end.

#[global] Instance exceedsTimeout_dec {T} (f : Fetch T) ms : Decision (exceedsTimeout f ms).
Proof. unfold exceedsTimeout. destruct (latency f); apply _. Defined.

(** The error that an aborted [fetch] rejects with. *)
Definition AbortError : JsError :=
  {| err_name := "AbortError"; err_message := "Aborted" |}.

(** [await fetch(url, { signal: controller.signal, ... })] while
    [setTimeout(() => controller.abort(), ms)] is pending: the fetch settles
    by itself when it does so within [ms], otherwise the timer fires first
    and the fetch rejects with [AbortError]. *)
Definition awaitFetch {T} (ms : N) (f : Fetch T) : Completion (Response T) :=
  match latency f with
  | Some t => if (t <=? ms)%N then settles f else Thrown AbortError
  | None => Thrown AbortError
  end.

(** The type of the parsed body that each endpoint is read at. *)
Definition Payload (e : GOPRO_CONFIG.Endpoint) : Type :=
  match e with
  | GOPRO_CONFIG.INFO => GoProCameraInfo
  | GOPRO_CONFIG.STATUS => GoProCameraStatus
  | GOPRO_CONFIG.MEDIA_LIST => GoProMediaList
  | GOPRO_CONFIG.SHUTTER | GOPRO_CONFIG.MODE => unit
  end.

(** The camera and the network: the clock, and what [fetch] does for each
    endpoint and request. *)
Record HttpEnv := {
  http_now : Z;
  fetch : forall e : GOPRO_CONFIG.Endpoint, string -> RequestInit -> Fetch (Payload e);
}.

(** The private fields of the class. *)
Record GoProService := {
  baseUrl : string;
  timeout : N;
}.

Definition newGoProService : GoProService :=
  {| baseUrl := GOPRO_CONFIG.BASE_URL; timeout := GOPRO_CONFIG.API_TIMEOUT |}.

Definition updateBaseUrl (newUrl : string) (s : GoProService) : GoProService :=
  {| baseUrl := newUrl; timeout := timeout s |}.

Definition updateTimeout (newTimeout : N) (s : GoProService) : GoProService :=
  {| baseUrl := baseUrl s; timeout := newTimeout |}.

(** The type filter of [getMediaFiles]. *)
Inductive MediaType := video | photo | all.

Record MediaFilter := {
  filter_type : option MediaType;
  filter_format : option string;
}.

#[global] Instance MediaType_eq_dec : EqDecision MediaType.
Proof. solve_decision. Defined.

Section HttpMethods.
Variable env : HttpEnv.

Definition httpError (ty : GoProErrorType) (msg : string) (det : option string)
  : GoProError :=
  {| type := ty; message := msg; details := det; timestamp := http_now env |}.

Definition makeRequest (e : GOPRO_CONFIG.Endpoint) (options : RequestInit)
  : Async GoProService (Result (Payload e)) :=
  tryCatch
    (let url := getGoProUrl (GOPRO_CONFIG.ENDPOINTS e) in
     let* ms := gets timeout in
     let* response := await (awaitFetch ms (fetch env e url options)) in
     if negb (ok response) then
       ret (Failure (httpError invalid_response
                       ("HTTP " +:+ pretty (http_status response) +:+ ": "
                          +:+ statusText response)
                       (Some ("Failed to fetch " +:+ GOPRO_CONFIG.ENDPOINTS e))))
     else
       let* data := await (json response) in
       ret (Success data))
    (fun error =>
       if decide (err_name error = "AbortError") then
         let* ms := gets timeout in
         ret (Failure (httpError api_timeout "Request timed out"
                         (Some ("Timeout after " +:+ pretty ms +:+ "ms"))))
       else
         ret (Failure (httpError network_error "Network request failed"
                         (Some (err_message error))))).

Definition getCameraInfo : Async GoProService (Result GoProCameraInfo) :=
  makeRequest GOPRO_CONFIG.INFO defaultInit.

Definition getCameraStatus : Async GoProService (Result GoProCameraStatus) :=
  makeRequest GOPRO_CONFIG.STATUS defaultInit.

Definition post (b : string) : RequestInit :=
  {| method := Some "POST"; body := Some b |}.

Definition startRecording : Async GoProService (Result unit) :=
  let* result := makeRequest GOPRO_CONFIG.SHUTTER (post GOPRO_CONFIG.SHUTTER_COMMANDS.START) in
  match result with
  | Success _ => ret (Success tt)
  | Failure error => ret (Failure error)
  end.

Definition stopRecording : Async GoProService (Result unit) :=
  let* result := makeRequest GOPRO_CONFIG.SHUTTER (post GOPRO_CONFIG.SHUTTER_COMMANDS.STOP) in
  match result with
  | Success _ => ret (Success tt)
  | Failure error => ret (Failure error)
  end.

Definition setCameraMode (m : string) : Async GoProService (Result unit) :=
  let* result := makeRequest GOPRO_CONFIG.MODE (post m) in
  match result with
  | Success _ => ret (Success tt)
  | Failure error => ret (Failure error)
  end.

Definition getMediaList : Async GoProService (Result (list GoProMediaFile)) :=
  let* result := makeRequest GOPRO_CONFIG.MEDIA_LIST defaultInit in
  match result with
  | Success data => ret (Success (media data))
  | Failure error => ret (Failure error)
  end.

(** The callback of the first [filter] of [getMediaFiles]. *)
Definition typeCallback (t : MediaType) (file : GoProMediaFile) : bool :=
  if decide (t = video) then
    bool_decide (JsString.toLowerCase (media_type file) = "video")
  else if decide (t = photo) then
    bool_decide (JsString.toLowerCase (media_type file) = "photo")
  else true.

(** The callback of the second [filter] of [getMediaFiles]. *)
Definition formatCallback (format : string) (file : GoProMediaFile) : bool :=
  JsString.includes (JsString.toLowerCase (media_name file)) (JsString.toLowerCase format).

Definition getMediaFiles (flt : option MediaFilter)
  : Async GoProService (Result (list GoProMediaFile)) :=
  let* result := getMediaList in
  match result with
  | Failure error => ret (Failure error)
  | Success data =>
    let filteredFiles := data in
    let filteredFiles :=
      match flt ≫= filter_type with
      | Some t =>
        if decide (t = all) then filteredFiles
        else List.filter (typeCallback t) filteredFiles
      | None => filteredFiles
      end in
    let filteredFiles :=
      match flt ≫= filter_format with
      | Some format =>
        if JsString.truthy format
        then List.filter (formatCallback format) filteredFiles
        else filteredFiles
      | None => filteredFiles
      end in
    ret (Success filteredFiles)
  end.

Definition get360MediaFiles : Async GoProService (Result (list GoProMediaFile)) :=
  getMediaFiles (Some {| filter_type := None; filter_format := Some ".360" |}).

Definition getVideoFiles : Async GoProService (Result (list GoProMediaFile)) :=
  getMediaFiles (Some {| filter_type := Some video; filter_format := None |}).

Definition getPhotoFiles : Async GoProService (Result (list GoProMediaFile)) :=
  getMediaFiles (Some {| filter_type := Some photo; filter_format := None |}).

Definition pingCamera : Async GoProService (Result bool) :=
  tryCatch
    (let* response :=
       await (awaitFetch 3000
                (fetch env GOPRO_CONFIG.INFO
                   (getGoProUrl (GOPRO_CONFIG.ENDPOINTS GOPRO_CONFIG.INFO))
                   {| method := Some "HEAD"; body := None |})) in
     ret (Success (ok response)))
    (fun error =>
       ret (Failure (httpError network_error "Cannot reach GoPro camera"
                       (Some (err_message error))))).

Definition getBatteryLevel : Async GoProService (Result Z) :=
  let* result := getCameraStatus in
  match result with
  | Failure error => ret (Failure error)
  | Success data =>
    match battery_level data with
    | None =>
      ret (Failure (httpError invalid_response "Battery level not available"
                      (Some "Camera status response missing battery information")))
    | Some batteryLevel => ret (Success batteryLevel)
    end
  end.

Definition isRecording : Async GoProService (Result bool) :=
  let* result := getCameraStatus in
  match result with
  | Failure error => ret (Failure error)
  | Success data =>
    ret (Success (match recording data with Some true => true | _ => false end))
  end.

Definition getCurrentMode : Async GoProService (Result string) :=
  let* result := getCameraStatus in
  match result with
  | Failure error => ret (Failure error)
  | Success data =>
    match mode data with
    | Some m =>
      if JsString.truthy m then ret (Success m)
      else
        ret (Failure (httpError invalid_response "Camera mode not available"
                        (Some "Camera status response missing mode information")))
    | None =>
      ret (Failure (httpError invalid_response "Camera mode not available"
                      (Some "Camera status response missing mode information")))
    end
  end.

End HttpMethods.

(** ** The service over time *)

(** What can happen to the service: the callbacks that the native side
    invokes, and the calls of the public methods. *)
Inductive Action :=
| StateChanged (state : State)
| DeviceScanned (error : option JsError) (scanned : option Device)
| TimerFired
| StartScanning
| StopScanning
| ConnectToDevice (deviceId : string)
| Disconnect
| EnableWiFi
| GetWiFiCredentials.

(** The oldest pending timer fires: its callback calls [stopScanning]. *)
Definition timerFired (w : GoProBluetoothService) : GoProBluetoothService :=
  match timers w with
  | [] => w
  | _ :: rest =>
    stopScanning
      {| isScanning := isScanning w; discoveredDevices := discoveredDevices w;
         connectedDevice := connectedDevice w; connectionStatus := connectionStatus w;
         deviceScan := deviceScan w; timers := rest |}
  end.

(** One action, with the native side as it is at that moment. *)
Definition step (env : BleEnv) (a : Action) (w : GoProBluetoothService)
  : GoProBluetoothService :=
  match a with
  | StateChanged state => onStateChange state w
  | DeviceScanned error scanned => onDeviceScanned error scanned w
  | TimerFired => timerFired w
  | StartScanning => snd (startScanning env w)
  | StopScanning => stopScanning w
  | ConnectToDevice deviceId => snd (connectToDevice env deviceId w)
  | Disconnect => snd (disconnect env w)
  | EnableWiFi => snd (enableWiFi env w)
  | GetWiFiCredentials => snd (getWiFiCredentials env w)
  end.

Definition steps (trace : list (BleEnv * Action)) (w : GoProBluetoothService)
  : GoProBluetoothService :=
  fold_left (fun w ea => step ea.1 ea.2 w) trace w.

Definition isConnect (a : Action) : bool :=
  match a with ConnectToDevice _ => true | _ => false end.

(** [destroy]: the scan is stopped, the promise of [disconnect] is dropped.
    What [bleManager.destroy()] does to the native side is not part of the
    state of the service. *)
Definition destroy (env : BleEnv) (w : GoProBluetoothService) : GoProBluetoothService :=
  let w := stopScanning w in
  match connectedDevice w with
  | Some _ => snd (disconnect env w)
  | None => w
  end.

(** ** The component [GoProApp]: the handlers that call the two services *)

Module GoProApp.

(** The values of the [useState] hooks. *)
Record UseState := {
  connectionStatus : ConnectionStatus;
  cameraInfo : option GoProCameraInfo;
  cameraStatus : option GoProCameraStatus;
  mediaFiles : list GoProMediaFile;
  isRecording : bool;
  errorMessage : option string;
  isLoading : bool;
  bluetoothDevices : list GoProBluetoothDevice;
  connectedBluetoothDevice : option GoProBluetoothDevice;
}.

Definition initialState : UseState :=
  {| connectionStatus := disconnected; cameraInfo := None; cameraStatus := None;
     mediaFiles := []; isRecording := false; errorMessage := None; isLoading := false;
     bluetoothDevices := []; connectedBluetoothDevice := None |}.

Definition setConnectionStatus (v : ConnectionStatus) (u : UseState) : UseState :=
  {| connectionStatus := v; cameraInfo := cameraInfo u; cameraStatus := cameraStatus u;
     mediaFiles := mediaFiles u; isRecording := isRecording u;
     errorMessage := errorMessage u; isLoading := isLoading u;
     bluetoothDevices := bluetoothDevices u;
     connectedBluetoothDevice := connectedBluetoothDevice u |}.

Definition setCameraInfo (v : option GoProCameraInfo) (u : UseState) : UseState :=
  {| connectionStatus := connectionStatus u; cameraInfo := v; cameraStatus := cameraStatus u;
     mediaFiles := mediaFiles u; isRecording := isRecording u;
     errorMessage := errorMessage u; isLoading := isLoading u;
     bluetoothDevices := bluetoothDevices u;
     connectedBluetoothDevice := connectedBluetoothDevice u |}.

Definition setCameraStatus (v : option GoProCameraStatus) (u : UseState) : UseState :=
  {| connectionStatus := connectionStatus u; cameraInfo := cameraInfo u; cameraStatus := v;
     mediaFiles := mediaFiles u; isRecording := isRecording u;
     errorMessage := errorMessage u; isLoading := isLoading u;
     bluetoothDevices := bluetoothDevices u;
     connectedBluetoothDevice := connectedBluetoothDevice u |}.

Definition setMediaFiles (v : list GoProMediaFile) (u : UseState) : UseState :=
  {| connectionStatus := connectionStatus u; cameraInfo := cameraInfo u;
     cameraStatus := cameraStatus u; mediaFiles := v; isRecording := isRecording u;
     errorMessage := errorMessage u; isLoading := isLoading u;
     bluetoothDevices := bluetoothDevices u;
     connectedBluetoothDevice := connectedBluetoothDevice u |}.

Definition setIsRecording (v : bool) (u : UseState) : UseState :=
  {| connectionStatus := connectionStatus u; cameraInfo := cameraInfo u;
     cameraStatus := cameraStatus u; mediaFiles := mediaFiles u; isRecording := v;
     errorMessage := errorMessage u; isLoading := isLoading u;
     bluetoothDevices := bluetoothDevices u;
     connectedBluetoothDevice := connectedBluetoothDevice u |}.

Definition setErrorMessage (v : option string) (u : UseState) : UseState :=
  {| connectionStatus := connectionStatus u; cameraInfo := cameraInfo u;
     cameraStatus := cameraStatus u; mediaFiles := mediaFiles u;
     isRecording := isRecording u; errorMessage := v; isLoading := isLoading u;
     bluetoothDevices := bluetoothDevices u;
     connectedBluetoothDevice := connectedBluetoothDevice u |}.

Definition setIsLoading (v : bool) (u : UseState) : UseState :=
  {| connectionStatus := connectionStatus u; cameraInfo := cameraInfo u;
     cameraStatus := cameraStatus u; mediaFiles := mediaFiles u;
     isRecording := isRecording u; errorMessage := errorMessage u; isLoading := v;
     bluetoothDevices := bluetoothDevices u;
     connectedBluetoothDevice := connectedBluetoothDevice u |}.

Definition setBluetoothDevices (v : list GoProBluetoothDevice) (u : UseState) : UseState :=
  {| connectionStatus := connectionStatus u; cameraInfo := cameraInfo u;
     cameraStatus := cameraStatus u; mediaFiles := mediaFiles u;
     isRecording := isRecording u; errorMessage := errorMessage u;
     isLoading := isLoading u; bluetoothDevices := v;
     connectedBluetoothDevice := connectedBluetoothDevice u |}.

Definition setConnectedBluetoothDevice (v : option GoProBluetoothDevice) (u : UseState)
  : UseState :=
  {| connectionStatus := connectionStatus u; cameraInfo := cameraInfo u;
     cameraStatus := cameraStatus u; mediaFiles := mediaFiles u;
     isRecording := isRecording u; errorMessage := errorMessage u;
     isLoading := isLoading u; bluetoothDevices := bluetoothDevices u;
     connectedBluetoothDevice := v |}.

(** The component with the two singletons that its handlers call. *)
Record App := {
  hooks : UseState;
  goProBluetoothService : GoProBluetoothService;
  goProService : GoProService;
}.

(** A call of a state setter. *)
Definition set (f : UseState -> UseState) : Async App unit :=
  modify (fun a => {| hooks := f (hooks a);
                      goProBluetoothService := goProBluetoothService a;
                      goProService := goProService a |}).

(** [await goProBluetoothService.m()] *)
Definition bluetooth {A} (m : Async GoProBluetoothService A) : Async App A :=
  fun a =>
    let (c, w) := m (goProBluetoothService a) in
    (c, {| hooks := hooks a; goProBluetoothService := w; goProService := goProService a |}).

(** [await goProService.m()] *)
Definition camera {A} (m : Async GoProService A) : Async App A :=
  fun a =>
    let (c, s) := m (goProService a) in
    (c, {| hooks := hooks a; goProBluetoothService := goProBluetoothService a;
           goProService := s |}).

(** [try { body } finally { last }], around a [try]/[catch] or not. *)
Definition finally {S A} (body : Async S A) (last : Async S unit) : Async S A :=
  fun s =>
    let (c, s') := body s in
    match last s' with
    | (Returned _, s'') => (c, s'')
    | (Thrown e, s'') => (Thrown e, s'')
    end.

Section Handlers.
Variable ble : BleEnv.
Variable http : HttpEnv.

Definition initializeBluetooth : Async App unit :=
  tryCatch
    (let* supportCheck := bluetooth (checkBluetoothSupport ble) in
     match supportCheck with
     | Failure e => set (setErrorMessage (Some (message e)))
     | Success _ => ret tt
     end)
    (fun error =>
       set (setErrorMessage
              (Some ("Bluetooth initialization failed: " +:+ err_message error)))).

Definition updateCameraStatus : Async App unit :=
  tryCatch
    (let* result := camera (getCameraStatus http) in
     match result with
     | Success data =>
       let* _ := set (setCameraStatus (Some data)) in
       set (setIsRecording (match recording data with Some true => true | _ => false end))
     | Failure _ => ret tt
     end)
    (fun _ => ret tt).

Definition updateMediaFiles : Async App unit :=
  tryCatch
    (let* result := camera (getMediaList http) in
     match result with
     | Success data => set (setMediaFiles data)
     | Failure _ => ret tt
     end)
    (fun _ => ret tt).

Definition connectToGoProWiFi : Async App unit :=
  finally
    (tryCatch
       (let* _ := set (setIsLoading true) in
        let* _ := set (setErrorMessage None) in
        let* pingResult := camera (pingCamera http) in
        match pingResult with
        | Success true =>
          let* infoResult := camera (getCameraInfo http) in
          match infoResult with
          | Success data =>
            let* _ := set (setCameraInfo (Some data)) in
            let* _ := set (setConnectionStatus wifi_connected) in
            let* _ := updateCameraStatus in
            updateMediaFiles
          | Failure e =>
            let* _ := set (setErrorMessage (Some (message e))) in
            set (setConnectionStatus disconnected)
          end
        | _ =>
          let* _ := set (setErrorMessage
                           (Some "Cannot reach GoPro camera. Please connect to GoPro WiFi network.")) in
          set (setConnectionStatus disconnected)
        end)
       (fun error =>
          let* _ := set (setErrorMessage
                           (Some ("WiFi connection failed: " +:+ err_message error))) in
          set (setConnectionStatus disconnected)))
    (set (setIsLoading false)).

Definition enableGoProWiFi : Async App unit :=
  tryCatch
    (let* result := bluetooth (enableWiFi ble) in
     match result with
     | Success _ =>
       let* credentials := bluetooth (getWiFiCredentials ble) in
       match credentials with
       | Success _ =>
         let* _ := set (setConnectionStatus wifi_connecting) in
         connectToGoProWiFi
       | Failure _ => ret tt
       end
     | Failure _ => ret tt
     end)
    (fun error =>
       set (setErrorMessage (Some ("WiFi enable failed: " +:+ err_message error)))).

Definition connectToBluetoothDevice (picked : GoProBluetoothDevice) : Async App unit :=
  finally
    (tryCatch
       (let* _ := set (setIsLoading true) in
        let* _ := set (setErrorMessage None) in
        let* result := bluetooth (connectToDevice ble (id (device picked))) in
        match result with
        | Success data =>
          let* _ := set (setConnectedBluetoothDevice (Some data)) in
          let* _ := set (setConnectionStatus bluetooth_connected) in
          enableGoProWiFi
        | Failure e => set (setErrorMessage (Some (message e)))
        end)
       (fun error =>
          set (setErrorMessage (Some ("Connection failed: " +:+ err_message error)))))
    (set (setIsLoading false)).

Definition disconnectFromGoPro : Async App unit :=
  tryCatch
    (let* _ := bluetooth (disconnect ble) in
     let* _ := set (setConnectionStatus disconnected) in
     let* _ := set (setConnectedBluetoothDevice None) in
     let* _ := set (setCameraInfo None) in
     let* _ := set (setCameraStatus None) in
     let* _ := set (setMediaFiles []) in
     let* _ := set (setIsRecording false) in
     let* _ := set (setErrorMessage None) in
     set (setBluetoothDevices []))
    (fun _ => ret tt).

Definition startRecording : Async App unit :=
  finally
    (tryCatch
       (let* _ := set (setIsLoading true) in
        let* _ := set (setErrorMessage None) in
        let* result := camera (startRecording http) in
        match result with
        | Success _ =>
          let* _ := set (setIsRecording true) in
          updateCameraStatus
        | Failure e => set (setErrorMessage (Some (message e)))
        end)
       (fun error =>
          set (setErrorMessage (Some ("Start recording failed: " +:+ err_message error)))))
    (set (setIsLoading false)).

Definition stopRecording : Async App unit :=
  finally
    (tryCatch
       (let* _ := set (setIsLoading true) in
        let* _ := set (setErrorMessage None) in
        let* result := camera (stopRecording http) in
        match result with
        | Success _ =>
          let* _ := set (setIsRecording false) in
          let* _ := updateCameraStatus in
          updateMediaFiles
        | Failure e => set (setErrorMessage (Some (message e)))
        end)
       (fun error =>
          set (setErrorMessage (Some ("Stop recording failed: " +:+ err_message error)))))
    (set (setIsLoading false)).

Definition setCameraMode (m : string) : Async App unit :=
  finally
    (tryCatch
       (let* _ := set (setIsLoading true) in
        let* _ := set (setErrorMessage None) in
        let* result := camera (setCameraMode http m) in
        match result with
        | Success _ => updateCameraStatus
        | Failure e => set (setErrorMessage (Some (message e)))
        end)
       (fun error =>
          set (setErrorMessage (Some ("Mode change failed: " +:+ err_message error)))))
    (set (setIsLoading false)).

End Handlers.

End GoProApp.

(** ** [connectToDevice], cut at the points where it waits

    While [connectToDevice] waits for the transport, callbacks of the native
    side can run. The method is cut here at its two waits: for
    [device.connect()], and for the discovery of services. After the
    discovery no further wait happens: either the value is not iterable and
    the loop throws, or it is the empty array and the loop body never runs. *)

Inductive Suspended :=
| AwaitingConnect (goproDevice : GoProBluetoothDevice)
| AwaitingDiscovery (goproDevice : GoProBluetoothDevice) (connected : Device).

Inductive Progress :=
| Waiting (at_ : Suspended)
| Settled (result : Result GoProBluetoothDevice).

(** The [catch] of [connectToDevice]. *)
Definition connectCaught (env : BleEnv) (error : JsError) (w : GoProBluetoothService)
  : Result GoProBluetoothDevice * GoProBluetoothService :=
  (Failure (createError env connection_failed "Failed to connect to GoPro device"
              (Some (err_message error))),
   set_connectionStatus disconnected w).

(** From the call to the first wait. *)
Definition connectBegin (env : BleEnv) (deviceId : string) (w : GoProBluetoothService)
  : Progress * GoProBluetoothService :=
  match discoveredDevices w !! deviceId with
  | None =>
    (Settled (Failure (createError env device_not_found
                         "Device not found in discovered devices" None)), w)
  | Some goproDevice =>
    (Waiting (AwaitingConnect goproDevice), set_connectionStatus bluetooth_pairing w)
  end.

(** From the end of the discovery to the end of the method. *)
Definition afterDiscovery (env : BleEnv) (goproDevice : GoProBluetoothDevice)
    (connected : Device) (w : GoProBluetoothService)
  : Result GoProBluetoothDevice * GoProBluetoothService :=
  match device_discoverAllServicesAndCharacteristics env connected with
  | Returned _ => connectCaught env notIterable w
  | Thrown _ =>
    let updatedDevice :=
      {| device := connected;
         gp_name := gp_name goproDevice;
         gp_rssi := gp_rssi goproDevice;
         isGoPro := isGoPro goproDevice;
         services := Some [];
         characteristics := Some [] |} in
    (Success updatedDevice,
     set_connectionStatus bluetooth_connected
       (set_connectedDevice (Some updatedDevice) w))
  end.

(** From one wait to the next, or to the end, with the native side as it is
    when the method resumes. *)
Definition connectResume (env : BleEnv) (at_ : Suspended) (w : GoProBluetoothService)
  : Progress * GoProBluetoothService :=
  match at_ with
  | AwaitingConnect goproDevice =>
    match device_connect env (device goproDevice) with
    | Returned connected => (Waiting (AwaitingDiscovery goproDevice connected), w)
    | Thrown error => (Settled (fst (connectCaught env error w)),
                       snd (connectCaught env error w))
    end
  | AwaitingDiscovery goproDevice connected =>
    (Settled (fst (afterDiscovery env goproDevice connected w)),
     snd (afterDiscovery env goproDevice connected w))
  end.

(** The method run from a wait to its end with nothing in between. *)
Definition connectFinish (env : BleEnv) (at_ : Suspended) (w : GoProBluetoothService)
  : Result GoProBluetoothDevice * GoProBluetoothService :=
  match at_ with
  | AwaitingConnect goproDevice =>
    match device_connect env (device goproDevice) with
    | Returned connected => afterDiscovery env goproDevice connected w
    | Thrown error => connectCaught env error w
    end
  | AwaitingDiscovery goproDevice connected =>
    afterDiscovery env goproDevice connected w
  end.

(** [disconnect] waits once, for [cancelConnection()], with the device it
    read before the wait; this is how it goes on. *)
Definition disconnectResume (env : BleEnv) (g : GoProBluetoothDevice)
    (w : GoProBluetoothService) : Result unit * GoProBluetoothService :=
  match device_cancelConnection env (device g) with
  | Returned _ =>
    (Success tt, set_connectionStatus disconnected (set_connectedDevice None w))
  | Thrown error =>
    (Failure (createError env unknown "Failed to disconnect" (Some (err_message error))),
     w)
  end.

(** ** The service over time, with calls in flight

    The other asynchronous methods need no cut: [checkBluetoothSupport],
    [enableWiFi] and [getWiFiCredentials] never write the state, and
    [startScanning] neither reads nor writes it before its only wait, so that
    a call in flight is a call made when it goes on. *)

Inductive InFlight :=
| Connecting (at_ : Suspended)
| Disconnecting (goproDevice : GoProBluetoothDevice).

Record Running := {
  current : GoProBluetoothService;
  waiting : list InFlight;
}.

Inductive Event :=
(** a callback, or a method that runs to its end with nothing in between *)
| Runs (a : Action)
(** [connectToDevice] is called and runs to its first wait *)
| CallsConnectToDevice (deviceId : string)
(** [disconnect] is called and runs to its wait *)
| CallsDisconnect
(** the [n]-th call in flight goes on, to its next wait or to its end *)
| GoesOn (n : nat).

Definition occur (env : BleEnv) (e : Event) (r : Running) : Running :=
  match e with
  | Runs a => {| current := step env a (current r); waiting := waiting r |}
  | CallsConnectToDevice deviceId =>
    match connectBegin env deviceId (current r) with
    | (Waiting at_, w) => {| current := w; waiting := waiting r ++ [Connecting at_] |}
    | (Settled _, w) => {| current := w; waiting := waiting r |}
    end
  | CallsDisconnect =>
    match connectedDevice (current r) with
    | Some g => {| current := current r; waiting := waiting r ++ [Disconnecting g] |}
    | None => r
    end
  | GoesOn n =>
    match waiting r !! n with
    | Some (Connecting at_) =>
      match connectResume env at_ (current r) with
      | (Waiting next, w) =>
        {| current := w; waiting := <[n := Connecting next]> (waiting r) |}
      | (Settled _, w) => {| current := w; waiting := delete n (waiting r) |}
      end
    | Some (Disconnecting g) =>
      {| current := snd (disconnectResume env g (current r));
         waiting := delete n (waiting r) |}
    | None => r
    end
  end.

Definition occurs (trace : list (BleEnv * Event)) (r : Running) : Running :=
  fold_left (fun r ee => occur ee.1 ee.2 r) trace r.

Definition isConnecting (c : InFlight) : bool :=
  match c with Connecting _ => true | Disconnecting _ => false end.

Definition callsConnect (e : Event) : bool :=
  match e with
  | Runs a => isConnect a
  | CallsConnectToDevice _ => true
  | CallsDisconnect | GoesOn _ => false
  end.

(** * What the specification says, in its own words *)

(** A result that failed with an error of kind [k]. *)
Definition failsWith {T} (r : Result T) (k : GoProErrorType) : Prop :=
  exists e, r = Failure e /\ type e = k.

(** The name, or the local name, [n] of a device contains [pattern], letter
    case ignored. An absent name contains nothing. *)
Definition nameContains (n : option string) (pattern : string) : Prop :=
  exists s, n = Some s /\ JsString.ContainsIgnoreCase s pattern.

(** The name or the local name of [d] contains one of the known patterns. *)
Definition MatchesGoProPattern (d : Device) : Prop :=
  exists pattern, In pattern GOPRO_DEVICE_PATTERNS /\
    (nameContains (name d) pattern \/ nameContains (localName d) pattern).

(** The word that a type filter stands for. *)
Definition typeWord (t : MediaType) : string :=
  match t with video => "video" | photo => "photo" | all => "all" end.

(** The entries that the filter keeps: with a type filter [video] or [photo]
    the type of the entry is that word, letter case ignored; with a format
    filter the name of the entry contains the format, letter case ignored. *)
Definition KeptBy (flt : option MediaFilter) (file : GoProMediaFile) : Prop :=
  (forall t, flt ≫= filter_type = Some t -> t = video \/ t = photo ->
     JsString.EqualsIgnoreCase (media_type file) (typeWord t)) /\
  (forall format, flt ≫= filter_format = Some format ->
     JsString.ContainsIgnoreCase (media_name file) format).

(** The two callbacks of the source, in one. *)
Definition keeps (flt : option MediaFilter) (file : GoProMediaFile) : bool :=
  match flt ≫= filter_type with
  | Some t => if decide (t = all) then true else typeCallback t file
  | None => true
  end &&
  match flt ≫= filter_format with
  | Some format => formatCallback format file
  | None => true
  end.

(** The characteristics that the loop of [connectToDevice] collects over an
    array of services: a service whose enumeration throws counts for none. *)
Definition enumeratedCharacteristics (env : BleEnv) (svcs : list Service)
  : list Characteristic :=
  flat_map (fun s => match service_characteristics env s with
                     | Returned l => l
                     | Thrown _ => []
                     end) svcs.

(** The Connected Device that [connectToDevice] builds from the directory
    entry [g] and the connected transport device [d] when the discovery of
    services was rejected: no service, no characteristic. *)
Definition connectedFrom (g : GoProBluetoothDevice) (d : Device) : GoProBluetoothDevice :=
  {| device := d;
     gp_name := gp_name g;
     gp_rssi := gp_rssi g;
     isGoPro := isGoPro g;
     services := Some [];
     characteristics := Some [] |}.

(** The text that a characteristic carries on the wire: its value, when it
    has one that is not empty, decoded from base64; the empty text
    otherwise. *)
Definition wireText (env : BleEnv) (read : Characteristic) : string :=
  match value read with
  | Some (String c v) => base64ToString env (String c v)
  | Some EmptyString => EmptyString
  | None => EmptyString
  end.

(** The Bluetooth support check lets a scan go on: the adapter answers, and
    its state is none of [Unsupported], [PoweredOff], [Unauthorized]. *)
Definition supportCheckPasses (env : BleEnv) : Prop :=
  exists st, manager_state env = Returned st /\
    st <> Unsupported /\ st <> PoweredOff /\ st <> Unauthorized.

(** The characteristic set of [g] has a characteristic for [pattern]. *)
Definition hasCharacteristic (g : GoProBluetoothDevice) (pattern : string) : Prop :=
  exists cs c, characteristics g = Some cs /\ In c cs /\
    JsString.Contains (JsString.toLowerCase (uuid c)) pattern.

(** Whether a call resolved to a successful result ([None]: it threw). *)
Definition success_of {S T} (run : Completion (Result T) * S) : option bool :=
  match fst run with
  | Returned r => Some (success r)
  | Thrown _ => None
  end.

(** The service set of [g] has a service for [pattern]. *)
Definition hasService (g : GoProBluetoothDevice) (pattern : string) : Prop :=
  exists ss x, services g = Some ss /\ In x ss /\
    JsString.Contains (JsString.toLowerCase (service_uuid x)) pattern.

(** The directory entry that the scan callback makes of a device. *)
Definition scanEntry (d : Device) : GoProBluetoothDevice :=
  {| device := d;
     gp_name := JsString.orElse (name d) (JsString.orElse (localName d) "Unknown GoPro");
     gp_rssi := match rssi d with Some r => r | None => 0 end;
     isGoPro := true;
     services := None;
     characteristics := None |}.

(** Every entry of the directory sits under the identifier of its device, is
    a recognised camera, and carries no enumeration yet. *)
Definition DirectoryOk (w : GoProBluetoothService) : Prop :=
  forall k g, discoveredDevices w !! k = Some g ->
    g = scanEntry (device g) /\ id (device g) = k /\ isGoProDevice (device g) = true.

(** The flag of the class and the scan of the native side agree. *)
Definition ScanFlagOk (w : GoProBluetoothService) : Prop :=
  isScanning w = true <-> deviceScan w <> None.

(** Between two actions the status is [disconnected] or
    [bluetooth_connected], and a connected status comes with a device. *)
Definition StatusOk (w : GoProBluetoothService) : Prop :=
  (connectionStatus w = disconnected \/ connectionStatus w = bluetooth_connected) /\
  (connectionStatus w = bluetooth_connected -> connectedDevice w <> None).

(** ** What the handlers of the component leave in its hooks *)

(** What [updateCameraStatus] leaves in the hooks. *)
Definition afterStatusUpdate (http : HttpEnv) (s : GoProService) (u : GoProApp.UseState)
  : GoProApp.UseState :=
  match fst (getCameraStatus http s) with
  | Returned (Success data) =>
    GoProApp.setIsRecording (default false (recording data))
      (GoProApp.setCameraStatus (Some data) u)
  | _ => u
  end.

(** What [updateMediaFiles] leaves in the hooks. *)
Definition afterMediaUpdate (http : HttpEnv) (s : GoProService) (u : GoProApp.UseState)
  : GoProApp.UseState :=
  match fst (getMediaList http s) with
  | Returned (Success data) => GoProApp.setMediaFiles data u
  | _ => u
  end.

(** What [connectToGoProWiFi] leaves in the hooks. *)
Definition afterWiFiConnect (http : HttpEnv) (s : GoProService) (u : GoProApp.UseState)
  : GoProApp.UseState :=
  let u0 := GoProApp.setErrorMessage None (GoProApp.setIsLoading true u) in
  let unreachable :=
    GoProApp.setConnectionStatus disconnected
      (GoProApp.setErrorMessage
         (Some "Cannot reach GoPro camera. Please connect to GoPro WiFi network.") u0) in
  let thrown (error : JsError) :=
    GoProApp.setConnectionStatus disconnected
      (GoProApp.setErrorMessage
         (Some ("WiFi connection failed: " +:+ err_message error)) u0) in
  GoProApp.setIsLoading false
    match fst (pingCamera http s) with
    | Returned (Success true) =>
      match fst (getCameraInfo http s) with
      | Returned (Success data) =>
        afterMediaUpdate http s
          (afterStatusUpdate http s
             (GoProApp.setConnectionStatus wifi_connected
                (GoProApp.setCameraInfo (Some data) u0)))
      | Returned (Failure e) =>
        GoProApp.setConnectionStatus disconnected
          (GoProApp.setErrorMessage (Some (message e)) u0)
      | Thrown error => thrown error
      end
    | Returned _ => unreachable
    | Thrown error => thrown error
    end.

(** The hooks after the reset of [disconnectFromGoPro]. *)
Definition afterReset (u : GoProApp.UseState) : GoProApp.UseState :=
  {| GoProApp.connectionStatus := disconnected;
     GoProApp.cameraInfo := None;
     GoProApp.cameraStatus := None;
     GoProApp.mediaFiles := [];
     GoProApp.isRecording := false;
     GoProApp.errorMessage := None;
     GoProApp.isLoading := GoProApp.isLoading u;
     GoProApp.bluetoothDevices := [];
     GoProApp.connectedBluetoothDevice := None |}.

(** What [enableGoProWiFi] leaves in the hooks. *)
Definition afterEnableWiFi (ble : BleEnv) (http : HttpEnv) (w : GoProBluetoothService)
    (s : GoProService) (u : GoProApp.UseState) : GoProApp.UseState :=
  match fst (enableWiFi ble w) with
  | Returned (Success _) =>
    match fst (getWiFiCredentials ble w) with
    | Returned (Success _) =>
      afterWiFiConnect http s (GoProApp.setConnectionStatus wifi_connecting u)
    | Returned (Failure _) => u
    | Thrown error =>
      GoProApp.setErrorMessage (Some ("WiFi enable failed: " +:+ err_message error)) u
    end
  | Returned (Failure _) => u
  | Thrown error =>
    GoProApp.setErrorMessage (Some ("WiFi enable failed: " +:+ err_message error)) u
  end.

(** What [connectToBluetoothDevice] leaves in the hooks. *)
Definition afterBluetoothConnect (ble : BleEnv) (http : HttpEnv) (deviceId : string)
    (w : GoProBluetoothService) (s : GoProService) (u : GoProApp.UseState)
  : GoProApp.UseState :=
  let u0 := GoProApp.setErrorMessage None (GoProApp.setIsLoading true u) in
  GoProApp.setIsLoading false
    match fst (connectToDevice ble deviceId w) with
    | Returned (Success data) =>
      afterEnableWiFi ble http (snd (connectToDevice ble deviceId w)) s
        (GoProApp.setConnectionStatus bluetooth_connected
           (GoProApp.setConnectedBluetoothDevice (Some data) u0))
    | Returned (Failure e) => GoProApp.setErrorMessage (Some (message e)) u0
    | Thrown error =>
      GoProApp.setErrorMessage (Some ("Connection failed: " +:+ err_message error)) u0
    end.

(** What the handlers [startRecording] and [stopRecording] leave in the
    hooks. *)
Definition afterStartRecording (http : HttpEnv) (s : GoProService) (u : GoProApp.UseState)
  : GoProApp.UseState :=
  let u0 := GoProApp.setErrorMessage None (GoProApp.setIsLoading true u) in
  GoProApp.setIsLoading false
    match fst (startRecording http s) with
    | Returned (Success _) => afterStatusUpdate http s (GoProApp.setIsRecording true u0)
    | Returned (Failure e) => GoProApp.setErrorMessage (Some (message e)) u0
    | Thrown error =>
      GoProApp.setErrorMessage
        (Some ("Start recording failed: " +:+ err_message error)) u0
    end.

Definition afterStopRecording (http : HttpEnv) (s : GoProService) (u : GoProApp.UseState)
  : GoProApp.UseState :=
  let u0 := GoProApp.setErrorMessage None (GoProApp.setIsLoading true u) in
  GoProApp.setIsLoading false
    match fst (stopRecording http s) with
    | Returned (Success _) =>
      afterMediaUpdate http s
        (afterStatusUpdate http s (GoProApp.setIsRecording false u0))
    | Returned (Failure e) => GoProApp.setErrorMessage (Some (message e)) u0
    | Thrown error =>
      GoProApp.setErrorMessage
        (Some ("Stop recording failed: " +:+ err_message error)) u0
    end.

Arguments afterStatusUpdate : simpl never.
Arguments afterMediaUpdate : simpl never.
Arguments afterWiFiConnect : simpl never.
Arguments afterEnableWiFi : simpl never.

(** * Sample devices, cameras and environments *)

(** A decoder for the samples: base64 of ASCII text, the way
    [Buffer.from(v, 'base64').toString()] reads it (characters outside the
    alphabet are skipped, the padding ends the input). The properties below
    hold for every decoder; this one only instantiates them. *)
Module Base64.

Definition sextet (c : ascii) : option N :=
  let n := N_of_ascii c in
  if ((65 <=? n) && (n <=? 90))%N then Some (n - 65)%N
  else if ((97 <=? n) && (n <=? 122))%N then Some (n - 71)%N
  else if ((48 <=? n) && (n <=? 57))%N then Some (n + 4)%N
  else if ((n =? 43) || (n =? 45))%N then Some 62%N
  else if ((n =? 47) || (n =? 95))%N then Some 63%N
  else None.

Fixpoint sextets (s : string) : list N :=
  match s with
  | EmptyString => []
  | String c s' =>
    if decide (c = "="%char) then []
    else match sextet c with
         | Some v => v :: sextets s'
         | None => sextets s'
         end
  end.

Fixpoint bytes (l : list N) : list N :=
  match l with
  | a :: b :: c :: d :: rest =>
    (a * 4 + b / 16)%N :: ((b mod 16) * 16 + c / 4)%N :: ((c mod 4) * 64 + d)%N
      :: bytes rest
  | [a; b; c] => [(a * 4 + b / 16)%N; ((b mod 16) * 16 + c / 4)%N]
  | [a; b] => [(a * 4 + b / 16)%N]
  | _ => []
  end.

Definition decode (s : string) : string :=
  fold_right (fun b acc => String (ascii_of_N b) acc) EmptyString (bytes (sextets s)).

End Base64.

Module Sample.

Definition hero11 : Device :=
  {| id := "D1"; name := Some "GoPro Hero11"; localName := None; rssi := Some (-60) |}.

Definition speaker : Device :=
  {| id := "D2"; name := Some "JBL Flip"; localName := Some "Speaker"; rssi := None |}.

Definition nameless : Device :=
  {| id := "D3"; name := None; localName := None; rssi := None |}.

(** The directory entry that the scan callback makes of [hero11]. *)
Definition hero11Entry : GoProBluetoothDevice :=
  {| device := hero11; gp_name := "GoPro Hero11"; gp_rssi := -60; isGoPro := true;
     services := None; characteristics := None |}.

Definition wifiService : Service :=
  {| service_uuid := "0000FEA6-0000-1000-8000-00805F9B34FB" |}.

Definition ssidCharacteristic : Characteristic :=
  {| uuid := "FEA6-0001"; value := None |}.

Definition passwordCharacteristic : Characteristic :=
  {| uuid := "FEA6-0002"; value := None |}.

Definition busy : JsError :=
  {| err_name := "BleError"; err_message := "Operation was rejected" |}.

(** A camera in range, every transport call succeeds. *)
Definition healthy : BleEnv :=
  {| now := 1700000000000;
     manager_state := Returned PoweredOn;
     manager_startDeviceScan := fun _ => Returned tt;
     device_connect := fun d => Returned d;
     device_discoverAllServicesAndCharacteristics := fun d => Returned d;
     service_characteristics := fun _ => Returned [ssidCharacteristic; passwordCharacteristic];
     device_cancelConnection := fun d => Returned d;
     characteristic_read := fun c =>
       Returned {| uuid := uuid c;
                   value := if decide (uuid c = "FEA6-0001")
                            then Some "R1AxMjM0NQ==" else Some "cGFzczEyMzQ=" |};
     characteristic_writeWithResponse := fun c _ => Returned c;
     base64ToString := Base64.decode |}.

(** The transport connect succeeds, the discovery of services is rejected. *)
Definition discoveryFails : BleEnv :=
  {| now := now healthy;
     manager_state := manager_state healthy;
     manager_startDeviceScan := manager_startDeviceScan healthy;
     device_connect := device_connect healthy;
     device_discoverAllServicesAndCharacteristics := fun _ => Thrown busy;
     service_characteristics := service_characteristics healthy;
     device_cancelConnection := device_cancelConnection healthy;
     characteristic_read := characteristic_read healthy;
     characteristic_writeWithResponse := characteristic_writeWithResponse healthy;
     base64ToString := base64ToString healthy |}.

(** The transport connect is rejected. *)
Definition connectFails : BleEnv :=
  {| now := now healthy;
     manager_state := manager_state healthy;
     manager_startDeviceScan := manager_startDeviceScan healthy;
     device_connect := fun _ => Thrown busy;
     device_discoverAllServicesAndCharacteristics :=
       device_discoverAllServicesAndCharacteristics healthy;
     service_characteristics := service_characteristics healthy;
     device_cancelConnection := device_cancelConnection healthy;
     characteristic_read := characteristic_read healthy;
     characteristic_writeWithResponse := characteristic_writeWithResponse healthy;
     base64ToString := base64ToString healthy |}.

(** The transport refuses to cancel the connection. *)
Definition cancelFails : BleEnv :=
  {| now := now healthy;
     manager_state := manager_state healthy;
     manager_startDeviceScan := manager_startDeviceScan healthy;
     device_connect := device_connect healthy;
     device_discoverAllServicesAndCharacteristics :=
       device_discoverAllServicesAndCharacteristics healthy;
     service_characteristics := service_characteristics healthy;
     device_cancelConnection := fun _ => Thrown busy;
     characteristic_read := characteristic_read healthy;
     characteristic_writeWithResponse := characteristic_writeWithResponse healthy;
     base64ToString := base64ToString healthy |}.

(** The reads of characteristics are rejected. *)
Definition readFails : BleEnv :=
  {| now := now healthy;
     manager_state := manager_state healthy;
     manager_startDeviceScan := manager_startDeviceScan healthy;
     device_connect := device_connect healthy;
     device_discoverAllServicesAndCharacteristics :=
       device_discoverAllServicesAndCharacteristics healthy;
     service_characteristics := service_characteristics healthy;
     device_cancelConnection := device_cancelConnection healthy;
     characteristic_read := fun _ => Thrown busy;
     characteristic_writeWithResponse := characteristic_writeWithResponse healthy;
     base64ToString := base64ToString healthy |}.

(** The user switched Bluetooth off. *)
Definition poweredOff : BleEnv :=
  {| now := now healthy;
     manager_state := Returned PoweredOff;
     manager_startDeviceScan := manager_startDeviceScan healthy;
     device_connect := device_connect healthy;
     device_discoverAllServicesAndCharacteristics :=
       device_discoverAllServicesAndCharacteristics healthy;
     service_characteristics := service_characteristics healthy;
     device_cancelConnection := device_cancelConnection healthy;
     characteristic_read := characteristic_read healthy;
     characteristic_writeWithResponse := characteristic_writeWithResponse healthy;
     base64ToString := base64ToString healthy |}.

(** A scan is running and has found [hero11]. *)
Definition scanning : GoProBluetoothService :=
  {| isScanning := true;
     discoveredDevices := {[ "D1" := hero11Entry ]};
     connectedDevice := None;
     connectionStatus := disconnected;
     deviceScan := Some GOPRO_CONFIG.BLE_SERVICES.values;
     timers := [10000%N] |}.

(** The scan is over, [hero11] is in the directory. *)
Definition discovered : GoProBluetoothService :=
  {| isScanning := false;
     discoveredDevices := {[ "D1" := hero11Entry ]};
     connectedDevice := None;
     connectionStatus := disconnected;
     deviceScan := None;
     timers := [] |}.

(** A connect is in flight: the status says so, no device is stored yet. *)
Definition pairing : GoProBluetoothService :=
  set_connectionStatus bluetooth_pairing discovered.

(** The Connected Device that a successful [connectToDevice] stores for
    [hero11]. *)
Definition connectedHero11 : GoProBluetoothDevice := connectedFrom hero11Entry hero11.

(** [hero11] is connected. *)
Definition connected : GoProBluetoothService :=
  set_connectionStatus bluetooth_connected
    (set_connectedDevice (Some connectedHero11) discovered).

(** A Connected Device with the WiFi service and its two characteristics
    enumerated, as the type [GoProBluetoothDevice] provides for. *)
Definition enumeratedHero11 : GoProBluetoothDevice :=
  {| device := hero11; gp_name := "GoPro Hero11"; gp_rssi := -60; isGoPro := true;
     services := Some [wifiService];
     characteristics := Some [ssidCharacteristic; passwordCharacteristic] |}.

Definition enumerated : GoProBluetoothService :=
  set_connectionStatus bluetooth_connected
    (set_connectedDevice (Some enumeratedHero11) discovered).

End Sample.

Module Camera.

(** A response 200 with the parsed body [payload], after [t] milliseconds. *)
Definition respond {T} (t : N) (payload : T) : Fetch T :=
  {| latency := Some t;
     settles := Returned {| ok := true; http_status := 200; statusText := "OK";
                            json := Returned payload |} |}.

Definition info : GoProCameraInfo :=
  {| model_name := "GoPro MAX"; firmware_version := "H19.03.02.00.00";
     serial_number := "C3341325012345"; camera_type := "MAX" |}.

(** A camera that answers every request after [t] milliseconds, with the
    status [st] and the media [files]. *)
Definition serve (st : GoProCameraStatus) (files : list GoProMediaFile) (t : N) : HttpEnv :=
  {| http_now := 1700000000000;
     fetch := fun e _ _ =>
       match e return Fetch (Payload e) with
       | GOPRO_CONFIG.INFO => respond t info
       | GOPRO_CONFIG.STATUS => respond t st
       | GOPRO_CONFIG.MEDIA_LIST =>
         respond t {| media := files; total_count := Z.of_nat (length files) |}
       | GOPRO_CONFIG.SHUTTER | GOPRO_CONFIG.MODE => respond t tt
       end |}.

Definition file (n : string) (t : string) : GoProMediaFile :=
  {| media_id := n; media_name := n; media_size := 1024;
     media_date := "2024-01-01"; media_type := t |}.

(** Two videos among three photos. *)
Definition files : list GoProMediaFile :=
  [file "A.360" "video"; file "P1.JPG" "photo"; file "P2.JPG" "Photo";
   file "B.MP4" "VIDEO"; file "C.360" "photo"].

Definition fullStatus : GoProCameraStatus :=
  {| status := 0; battery_level := Some 87; recording := Some true; mode := Some "0" |}.

(** A status payload without any of the optional fields. *)
Definition bareStatus : GoProCameraStatus :=
  {| status := 0; battery_level := None; recording := None; mode := None |}.

(** A status payload whose mode is present and empty. *)
Definition emptyModeStatus : GoProCameraStatus :=
  {| status := 0; battery_level := Some 0; recording := Some false;
     mode := Some EmptyString |}.

Definition onlyVideos : option MediaFilter :=
  Some {| filter_type := Some video; filter_format := None |}.

Definition only360 : option MediaFilter :=
  Some {| filter_type := None; filter_format := Some ".360" |}.

(** The request of [pingCamera]. *)
Definition probe : RequestInit := {| method := Some "HEAD"; body := None |}.

Definition infoUrl : string := getGoProUrl (GOPRO_CONFIG.ENDPOINTS GOPRO_CONFIG.INFO).

End Camera.

Module MoreSamples.

(** The native side refuses to start a device scan. *)
Definition scanRefused : BleEnv :=
  {| now := now Sample.healthy;
     manager_state := manager_state Sample.healthy;
     manager_startDeviceScan := fun _ => Thrown Sample.busy;
     device_connect := device_connect Sample.healthy;
     device_discoverAllServicesAndCharacteristics :=
       device_discoverAllServicesAndCharacteristics Sample.healthy;
     service_characteristics := service_characteristics Sample.healthy;
     device_cancelConnection := device_cancelConnection Sample.healthy;
     characteristic_read := characteristic_read Sample.healthy;
     characteristic_writeWithResponse := characteristic_writeWithResponse Sample.healthy;
     base64ToString := base64ToString Sample.healthy |}.

(** The component right after its first render, with [hero11] discovered. *)
Definition fresh : GoProApp.App :=
  {| GoProApp.hooks := GoProApp.initialState;
     GoProApp.goProBluetoothService := Sample.discovered;
     GoProApp.goProService := newGoProService |}.

End MoreSamples.

(** * Properties *)

(** ** Strings *)

Module JsStringFacts.
Import JsString.

Lemma app_cons a (s t : string) : String a s +:+ t = String a (s +:+ t).
Proof. reflexivity. Qed.

Lemma app_empty_l (t : string) : EmptyString +:+ t = t.
Proof. reflexivity. Qed.

Lemma append_assoc (a b c : string) : (a +:+ b) +:+ c = a +:+ b +:+ c.
Proof.
  induction a as [|x a IH]; [reflexivity|].
  rewrite !app_cons. now f_equal.
Qed.

Lemma startsWith_iff (s p : string) :
  startsWith s p = true <-> exists post, s = p +:+ post.
Proof.
  revert s. induction p as [|a p IH]; intros s.
  - split; [intros _; exists s; reflexivity | reflexivity].
  - destruct s as [|b s]; simpl.
    + split; [discriminate | intros [post H]; rewrite app_cons in H; discriminate].
    + destruct (decide (a = b)) as [->|Hne].
      * rewrite IH. split; intros [post H]; exists post.
        -- rewrite app_cons. now f_equal.
        -- rewrite app_cons in H. now inversion H.
      * split; [discriminate|]. intros [post H]. rewrite app_cons in H.
        inversion H. congruence.
Qed.

Lemma includes_iff (s p : string) : includes s p = true <-> Contains s p.
Proof.
  unfold Contains. induction s as [|b s IH].
  - simpl. rewrite orb_false_r, startsWith_iff. split.
    + intros [post H]. exists EmptyString, post. exact H.
    + intros [[|c pre] [post H]].
      * exists post. exact H.
      * rewrite app_cons in H. discriminate.
  - cbn [includes]. rewrite orb_true_iff, IH, startsWith_iff. split.
    + intros [[post H]|[pre [post H]]].
      * exists EmptyString, post. exact H.
      * exists (String b pre), post. rewrite app_cons. now f_equal.
    + intros [[|c pre] [post H]].
      * left. exists post. exact H.
      * right. exists pre, post. rewrite app_cons in H. now inversion H.
Qed.

Lemma includes_empty_pattern (s : string) : includes s EmptyString = true.
Proof. destruct s; reflexivity. Qed.

Lemma includes_empty_inv (p : string) :
  includes EmptyString p = true -> p = EmptyString.
Proof. destruct p; [reflexivity | discriminate]. Qed.

Lemma lowerChar_idem c : lowerChar (lowerChar c) = lowerChar c.
Proof. destruct c as [[] [] [] [] [] [] [] []]; reflexivity. Qed.

Lemma toLowerCase_idem s : toLowerCase (toLowerCase s) = toLowerCase s.
Proof. induction s as [|c s IH]; simpl; [reflexivity|]. now rewrite lowerChar_idem, IH. Qed.

Lemma toLowerCase_empty_inv s : toLowerCase s = EmptyString -> s = EmptyString.
Proof. destruct s; [reflexivity | discriminate]. Qed.

Lemma truthy_toLowerCase s : truthy (toLowerCase s) = truthy s.
Proof. destruct s; reflexivity. Qed.

(** [x?.toLowerCase() || ''] is the lowered string, or the empty one. *)
Lemma orElse_lower (n : option string) :
  orElse (toLowerCase <$> n) EmptyString = default EmptyString (toLowerCase <$> n).
Proof. destruct n as [[|c s]|]; reflexivity. Qed.

End JsStringFacts.

(** ** [isGoProDevice] *)

Section Classification.
Import JsString JsStringFacts.

Lemma known_patterns_lower pattern :
  In pattern GOPRO_DEVICE_PATTERNS -> toLowerCase pattern = pattern.
Proof. simpl. intuition (subst; reflexivity). Qed.

Lemma known_patterns_nonempty pattern :
  In pattern GOPRO_DEVICE_PATTERNS -> pattern <> EmptyString.
Proof. simpl. intuition (subst; discriminate). Qed.

(** One name against one known pattern. *)
Lemma includes_name_iff (n : option string) pattern :
  In pattern GOPRO_DEVICE_PATTERNS ->
  includes (orElse (toLowerCase <$> n) EmptyString) pattern = true <->
  nameContains n pattern.
Proof.
  intros Hin. rewrite orElse_lower. unfold nameContains, ContainsIgnoreCase.
  rewrite (known_patterns_lower _ Hin). destruct n as [s|]; simpl.
  - rewrite includes_iff. split.
    + intros H. exists s. split; [reflexivity | exact H].
    + intros [s' [Heq H]]. inversion Heq. subst. exact H.
  - split.
    + intros H. apply includes_empty_inv in H.
      destruct (known_patterns_nonempty _ Hin H).
    + intros [s' [Heq _]]. discriminate.
Qed.

Lemma isGoProDevice_iff d : isGoProDevice d = true <-> MatchesGoProPattern d.
Proof.
  unfold isGoProDevice, some, MatchesGoProPattern.
  rewrite existsb_exists. split.
  - intros [pattern [Hin H]]. exists pattern. split; [exact Hin|].
    apply orb_true_iff in H. destruct H as [H|H];
      [left | right]; apply (includes_name_iff _ _ Hin); exact H.
  - intros [pattern [Hin H]]. exists pattern. split; [exact Hin|].
    apply orb_true_iff. destruct H as [H|H];
      [left | right]; apply (includes_name_iff _ _ Hin); exact H.
Qed.

(** Every known pattern contains "gopro" or "hero", so the classification
    only looks for these two words. *)
Lemma isGoProDevice_two_words d :
  isGoProDevice d =
  let n := orElse (toLowerCase <$> name d) EmptyString in
  let l := orElse (toLowerCase <$> localName d) EmptyString in
  includes n "gopro" || includes l "gopro" || includes n "hero" || includes l "hero".
Proof.
  unfold isGoProDevice, some, GOPRO_DEVICE_PATTERNS. cbn [existsb].
  set (n := orElse _ _). set (l := orElse _ _). cbv zeta.
  assert (Hsub : forall s p q, Contains p q -> includes s p = true -> includes s q = true).
  { intros s p q [a [b Hp]] H. apply includes_iff in H. apply includes_iff.
    destruct H as [pre [post H]]. subst.
    exists (pre +:+ a), (b +:+ post).
    rewrite !append_assoc. reflexivity. }
  assert (Hg : forall s p, Contains p "gopro" -> includes s p = true -> includes s "gopro" = true)
    by (intros; eapply Hsub; eauto).
  assert (H1 := Hg n "gopro hero" ltac:(exists EmptyString, " hero"; reflexivity)).
  assert (H2 := Hg n "gopro max" ltac:(exists EmptyString, " max"; reflexivity)).
  assert (H3 := Hg n "gopro fusion" ltac:(exists EmptyString, " fusion"; reflexivity)).
  assert (H4 := Hg l "gopro hero" ltac:(exists EmptyString, " hero"; reflexivity)).
  assert (H5 := Hg l "gopro max" ltac:(exists EmptyString, " max"; reflexivity)).
  assert (H6 := Hg l "gopro fusion" ltac:(exists EmptyString, " fusion"; reflexivity)).
  destruct (includes n "gopro"), (includes l "gopro"),
    (includes n "hero"), (includes l "hero"); simpl; try reflexivity;
    destruct (includes n "gopro hero"); try (now discriminate H1);
    destruct (includes l "gopro hero"); try (now discriminate H4);
    destruct (includes n "gopro max"); try (now discriminate H2);
    destruct (includes l "gopro max"); try (now discriminate H5);
    destruct (includes n "gopro fusion"); try (now discriminate H3);
    destruct (includes l "gopro fusion"); try (now discriminate H6);
    reflexivity.
Qed.

End Classification.

Example isGoProDevice_hero11 :
  isGoProDevice {| id := "D1"; name := Some "GoPro Hero11"; localName := None; rssi := None |} = true.
Proof. reflexivity. Qed.

Example isGoProDevice_other :
  isGoProDevice {| id := "D2"; name := Some "JBL Flip"; localName := Some "Speaker"; rssi := None |} = false.
Proof. reflexivity. Qed.

(** C9. For every BLE device, [isGoProDevice] is true when the name or the
    local name of the device contains one of the known GoPro patterns, letter
    case ignored, and false when neither name contains any of them, which
    includes the device whose two names are absent. *)
Theorem isGoProDevice_classifies (d : Device) :
  (MatchesGoProPattern d -> isGoProDevice d = true) /\
  (~ MatchesGoProPattern d -> isGoProDevice d = false) /\
  (name d = None -> localName d = None -> isGoProDevice d = false).
Proof.
  split; [|split].
  - apply isGoProDevice_iff.
  - intros Hn. destruct (isGoProDevice d) eqn:E; [|reflexivity].
    destruct Hn. apply isGoProDevice_iff. exact E.
  - unfold isGoProDevice. intros -> ->. reflexivity.
Qed.

(** ** [getMediaFiles] *)

Section MediaFiltering.
Import JsString JsStringFacts.

Lemma typeCallback_iff t file :
  t <> all ->
  typeCallback t file = true <-> EqualsIgnoreCase (media_type file) (typeWord t).
Proof.
  intros Hall. unfold typeCallback, EqualsIgnoreCase.
  destruct t; simpl; [| |congruence]; apply bool_decide_eq_true.
Qed.

Lemma formatCallback_iff format file :
  formatCallback format file = true <-> ContainsIgnoreCase (media_name file) format.
Proof. apply includes_iff. Qed.

Lemma formatCallback_empty file : formatCallback EmptyString file = true.
Proof. apply includes_empty_pattern. Qed.

(** Two passes of [Array.prototype.filter] keep what one pass with both
    callbacks keeps. *)
Lemma filter_twice {A} (f g : A -> bool) (l : list A) :
  List.filter g (List.filter f l) = List.filter (fun x => f x && g x) l.
Proof.
  induction l as [|x l IH]; [reflexivity|]. simpl.
  destruct (f x); simpl; [destruct (g x)|]; now rewrite IH.
Qed.

Lemma filter_true {A} (f : A -> bool) (l : list A) :
  (forall x, f x = true) -> List.filter f l = l.
Proof.
  intros Hf. induction l as [|x l IH]; [reflexivity|].
  simpl. now rewrite Hf, IH.
Qed.

Lemma keeps_iff flt file : keeps flt file = true <-> KeptBy flt file.
Proof.
  unfold keeps, KeptBy. rewrite andb_true_iff.
  destruct (flt ≫= filter_type) as [t|], (flt ≫= filter_format) as [format|].
  - destruct (decide (t = all)) as [->|Hall].
    + rewrite formatCallback_iff. split.
      * intros [_ H]. split; [intros t [= <-] [|]; discriminate|].
        intros f [= <-]. exact H.
      * intros [_ H]. split; [reflexivity | now apply H].
    + rewrite (typeCallback_iff _ _ Hall), formatCallback_iff. split.
      * intros [H1 H2]. split; [intros t' [= <-] _; exact H1 | intros f [= <-]; exact H2].
      * intros [H1 H2]. split; [|now apply H2]. apply H1; [reflexivity|].
        destruct t; [left | right | congruence]; reflexivity.
  - destruct (decide (t = all)) as [->|Hall].
    + split; [|now split]. intros _.
      split; [intros t [= <-] [|]; discriminate | intros f; discriminate].
    + rewrite (typeCallback_iff _ _ Hall). split.
      * intros [H1 _]. split; [intros t' [= <-] _; exact H1 | intros f; discriminate].
      * intros [H1 _]. split; [|reflexivity]. apply H1; [reflexivity|].
        destruct t; [left | right | congruence]; reflexivity.
  - rewrite formatCallback_iff. split.
    + intros [_ H]. split; [intros t; discriminate | intros f [= <-]; exact H].
    + intros [_ H]. split; [reflexivity | now apply H].
  - split; [|now split]. intros _. split; [intros t | intros f]; discriminate.
Qed.

#[global] Instance KeptBy_dec flt file : Decision (KeptBy flt file).
Proof.
  destruct (keeps flt file) eqn:E.
  - left. apply keeps_iff. exact E.
  - right. intros H. apply keeps_iff in H. congruence.
Defined.

Lemma filter_KeptBy flt (l : list GoProMediaFile) :
  filter (KeptBy flt) l = List.filter (keeps flt) l.
Proof.
  induction l as [|x l IH]; [reflexivity|].
  rewrite filter_cons, IH. simpl.
  destruct (decide (KeptBy flt x)) as [H|H].
  - apply keeps_iff in H. now rewrite H.
  - destruct (keeps flt x) eqn:E; [|reflexivity].
    destruct H. now apply keeps_iff.
Qed.

(** The body of [getMediaFiles] after the media list arrived. *)
Lemma getMediaFiles_body env flt s files s' :
  getMediaList env s = (Returned (Success files), s') ->
  getMediaFiles env flt s = (Returned (Success (List.filter (keeps flt) files)), s').
Proof.
  intros H. unfold getMediaFiles, bind. rewrite H. unfold ret. do 2 f_equal. f_equal.
  unfold keeps.
  destruct (flt ≫= filter_type) as [t|], (flt ≫= filter_format) as [format|].
  - destruct (decide (t = all)); destruct format as [|c format]; simpl.
    + symmetry. apply filter_true. intros file. apply formatCallback_empty.
    + reflexivity.
    + apply List.filter_ext. intros file.
      now rewrite formatCallback_empty, andb_true_r.
    + apply filter_twice.
  - destruct (decide (t = all)); simpl.
    + symmetry. now apply filter_true.
    + apply List.filter_ext. intros file. now rewrite andb_true_r.
  - destruct format as [|c format]; simpl.
    + symmetry. apply filter_true. intros file. apply formatCallback_empty.
    + reflexivity.
  - symmetry. now apply filter_true.
Qed.

Lemma getMediaFiles_failure env flt s e s' :
  getMediaList env s = (Returned (Failure e), s') ->
  getMediaFiles env flt s = (Returned (Failure e), s').
Proof. intros H. unfold getMediaFiles, bind. now rewrite H. Qed.

End MediaFiltering.

(** C4. For every media list and every filter, [getMediaFiles] filters the
    result of [getMediaList] in memory: with a type filter [video] or [photo]
    it keeps exactly the entries whose type is that word, letter case
    ignored; with a format filter it keeps exactly the entries whose name
    contains the format, letter case ignored; each filter is optional, the
    two combine as a conjunction, and the entries kept stay in their
    original order. *)
Theorem getMediaFiles_filters (env : HttpEnv) (flt : option MediaFilter)
    (s s' : GoProService) (files : list GoProMediaFile) :
  getMediaList env s = (Returned (Success files), s') ->
  getMediaFiles env flt s = (Returned (Success (filter (KeptBy flt) files)), s') /\
  filter (KeptBy flt) files `sublist_of` files /\
  (forall file, file ∈ filter (KeptBy flt) files <-> KeptBy flt file /\ file ∈ files).
Proof.
  intros H. split; [|split].
  - rewrite filter_KeptBy. now apply getMediaFiles_body.
  - apply sublist_filter.
  - intros file. apply list_elem_of_filter.
Qed.

(** ** [GoProBluetoothService]: connection *)

Example base64_ssid : Base64.decode "R1AxMjM0NQ==" = "GP12345".
Proof. reflexivity. Qed.

Example base64_password : Base64.decode "cGFzczEyMzQ=" = "pass1234".
Proof. reflexivity. Qed.

(** Unfolds the plumbing of an [async] method. *)
Ltac async := unfold tryCatch, bind, gets, modify, await, ret.

Lemma set_connectionStatus_twice a b w :
  set_connectionStatus a (set_connectionStatus b w) = set_connectionStatus a w.
Proof. reflexivity. Qed.

Lemma discoverServices_run env d w :
  discoverServices env d w
  = (Returned match device_discoverAllServicesAndCharacteristics env d with
              | Returned discovered => ServicesMethod discovered
              | Thrown _ => ServiceArray []
              end, w).
Proof.
  unfold discoverServices, tryCatch, bind, await, ret.
  destruct (device_discoverAllServicesAndCharacteristics env d); reflexivity.
Qed.

Lemma collectCharacteristics_run env svcs acc w :
  collectCharacteristics env svcs acc w
  = (Returned (acc ++ enumeratedCharacteristics env svcs), w).
Proof.
  revert acc. induction svcs as [|s svcs IH]; intros acc; simpl.
  - unfold ret. now rewrite app_nil_r.
  - unfold bind at 1. unfold discoverCharacteristics, tryCatch, bind, await, ret.
    destruct (service_characteristics env s) as [found|e];
      rewrite IH; [now rewrite <- app_assoc | now rewrite app_nil_r].
Qed.

Lemma connectToDevice_unknown env deviceId w :
  discoveredDevices w !! deviceId = None ->
  connectToDevice env deviceId w
  = (Returned (Failure (createError env device_not_found
                          "Device not found in discovered devices" None)), w).
Proof.
  intros H. unfold connectToDevice, tryCatch, bind, gets. now rewrite H.
Qed.

Lemma connectToDevice_rejected env deviceId w g e :
  discoveredDevices w !! deviceId = Some g ->
  device_connect env (device g) = Thrown e ->
  connectToDevice env deviceId w
  = (Returned (Failure (createError env connection_failed
                          "Failed to connect to GoPro device" (Some (err_message e)))),
     set_connectionStatus disconnected w).
Proof.
  intros H He. unfold connectToDevice, tryCatch, bind, gets, modify, await.
  rewrite H. cbn [connectedDevice set_connectionStatus device]. now rewrite He.
Qed.

(** After a transport connect that succeeded, the discovery decides: rejected,
    it is swallowed and the method succeeds with empty lists; resolved, the
    loop over [services.services] throws and the method fails. *)
Lemma connectToDevice_connected env deviceId w g d :
  discoveredDevices w !! deviceId = Some g ->
  device_connect env (device g) = Returned d ->
  connectToDevice env deviceId w
  = match device_discoverAllServicesAndCharacteristics env d with
    | Thrown _ =>
      (Returned (Success (connectedFrom g d)),
       set_connectionStatus bluetooth_connected
         (set_connectedDevice (Some (connectedFrom g d)) w))
    | Returned _ =>
      (Returned (Failure (createError env connection_failed
                            "Failed to connect to GoPro device"
                            (Some (err_message notIterable)))),
       set_connectionStatus disconnected w)
    end.
Proof.
  intros H Hd. unfold connectToDevice, tryCatch. unfold bind at 1. unfold gets.
  rewrite H. unfold bind at 1. unfold modify at 1. unfold bind at 1. unfold await at 1.
  rewrite Hd. unfold bind at 1. rewrite discoverServices_run.
  destruct (device_discoverAllServicesAndCharacteristics env d) as [d'|e].
  - reflexivity.
  - unfold bind at 1. unfold iterate, ret at 1.
    unfold bind at 1. rewrite collectCharacteristics_run. reflexivity.
Qed.

Lemma connectToDevice_swallowed env deviceId w g d e :
  discoveredDevices w !! deviceId = Some g ->
  device_connect env (device g) = Returned d ->
  device_discoverAllServicesAndCharacteristics env d = Thrown e ->
  connectToDevice env deviceId w
  = (Returned (Success (connectedFrom g d)),
     set_connectionStatus bluetooth_connected
       (set_connectedDevice (Some (connectedFrom g d)) w)).
Proof. intros H Hd He. now rewrite (connectToDevice_connected _ _ _ _ _ H Hd), He. Qed.


(** The outcomes of [connectToDevice], all of them. *)
Lemma connectToDevice_cases env deviceId w :
  (exists err, connectToDevice env deviceId w = (Returned (Failure err), w) /\
               type err = device_not_found) \/
  (exists err, connectToDevice env deviceId w
               = (Returned (Failure err), set_connectionStatus disconnected w) /\
               type err = connection_failed) \/
  (exists data, connectToDevice env deviceId w
                = (Returned (Success data),
                   set_connectionStatus bluetooth_connected
                     (set_connectedDevice (Some data) w)) /\
                services data = Some [] /\ characteristics data = Some []).
Proof.
  destruct (discoveredDevices w !! deviceId) as [g|] eqn:H.
  - destruct (device_connect env (device g)) as [d|e] eqn:Hd.
    + rewrite (connectToDevice_connected _ _ _ _ _ H Hd).
      destruct (device_discoverAllServicesAndCharacteristics env d).
      * right. left. eexists. split; reflexivity.
      * right. right. eexists. repeat split.
    + right. left. rewrite (connectToDevice_rejected _ _ _ _ _ H Hd).
      eexists. split; reflexivity.
  - left. rewrite (connectToDevice_unknown _ _ _ H). eexists. split; reflexivity.
Qed.

(** C1, as the code has it by design. [connectToDevice] fails with
    [device_not_found], and changes nothing, when the identifier is not in
    the directory. Otherwise it performs the transport connect; when that
    is rejected it fails with [connection_failed], wraps the message of the
    transport error, and sets the status to [disconnected]. A rejected
    enumeration of services is not a failure: it is swallowed, counts as an
    empty list, and the method succeeds. Whenever the method succeeds, the
    Connected Device it returns is stored and the status is
    [bluetooth_connected]; whenever it fails, the kind is [device_not_found]
    or [connection_failed] and no device is stored. *)
Theorem connectToDevice_outcomes (env : BleEnv) (deviceId : string)
    (w : GoProBluetoothService) :
  let run := connectToDevice env deviceId w in
  (discoveredDevices w !! deviceId = None ->
   run = (Returned (Failure (createError env device_not_found
                               "Device not found in discovered devices" None)), w)) /\
  (forall g e,
     discoveredDevices w !! deviceId = Some g ->
     device_connect env (device g) = Thrown e ->
     exists err,
       run = (Returned (Failure err), set_connectionStatus disconnected w) /\
       type err = connection_failed /\ details err = Some (err_message e)) /\
  (forall g d e,
     discoveredDevices w !! deviceId = Some g ->
     device_connect env (device g) = Returned d ->
     device_discoverAllServicesAndCharacteristics env d = Thrown e ->
     fst run = Returned (Success (connectedFrom g d))) /\
  (forall data,
     fst run = Returned (Success data) ->
     connectedDevice (snd run) = Some data /\
     connectionStatus (snd run) = bluetooth_connected /\
     discoveredDevices (snd run) = discoveredDevices w) /\
  (forall err,
     fst run = Returned (Failure err) ->
     (type err = device_not_found \/ type err = connection_failed) /\
     connectedDevice (snd run) = connectedDevice w) /\
  (exists r, fst run = Returned r).
Proof.
  cbv zeta. split; [|split; [|split; [|split; [|split]]]].
  - apply connectToDevice_unknown.
  - intros g e H He. eexists. split; [exact (connectToDevice_rejected _ _ _ g e H He)|].
    split; reflexivity.
  - intros g d e H Hd He. now rewrite (connectToDevice_swallowed _ _ _ _ _ _ H Hd He).
  - intros data Hr.
    destruct (connectToDevice_cases env deviceId w)
      as [[err [E _]]|[[err [E _]]|[data' [E _]]]]; rewrite E in *; simpl in Hr.
    + discriminate.
    + discriminate.
    + injection Hr as ->. repeat split.
  - intros err Hr.
    destruct (connectToDevice_cases env deviceId w)
      as [[err' [E T]]|[[err' [E T]]|[data' [E _]]]]; rewrite E in *; simpl in Hr.
    + injection Hr as ->. split; [now left | reflexivity].
    + injection Hr as ->. split; [now right | reflexivity].
    + discriminate.
  - destruct (connectToDevice_cases env deviceId w)
      as [[err [E _]]|[[err [E _]]|[data [E _]]]]; rewrite E; eexists; reflexivity.
Qed.

(** C1 as written fails: the enumeration of services is rejected, and
    [connectToDevice] succeeds all the same, with a Connected Device that has
    no service and no characteristic. *)
Lemma connectToDevice_swallows_discovery_failure :
  let run := connectToDevice Sample.discoveryFails "D1" Sample.discovered in
  device_discoverAllServicesAndCharacteristics Sample.discoveryFails Sample.hero11
    = Thrown Sample.busy /\
  ~ (exists r, fst run = Returned r /\ failsWith r connection_failed) /\
  fst run = Returned (Success {| device := Sample.hero11;
                                 gp_name := "GoPro Hero11"; gp_rssi := -60;
                                 isGoPro := true;
                                 services := Some []; characteristics := Some [] |}) /\
  connectionStatus (snd run) = bluetooth_connected.
Proof.
  assert (E : connectToDevice Sample.discoveryFails "D1" Sample.discovered
              = (Returned (Success (connectedFrom Sample.hero11Entry Sample.hero11)),
                 set_connectionStatus bluetooth_connected
                   (set_connectedDevice
                      (Some (connectedFrom Sample.hero11Entry Sample.hero11))
                      Sample.discovered))).
  { apply (connectToDevice_swallowed Sample.discoveryFails "D1" Sample.discovered
             Sample.hero11Entry Sample.hero11 Sample.busy); reflexivity. }
  cbv zeta. rewrite E. split; [reflexivity|]. split; [|split; reflexivity].
  intros [r [Hr [e [He _]]]]. simpl in Hr. congruence.
Qed.

Lemma connectToDevice_outcomes_witness :
  (exists err,
     connectToDevice Sample.connectFails "D1" Sample.discovered
     = (Returned (Failure err), set_connectionStatus disconnected Sample.discovered) /\
     type err = connection_failed /\ details err = Some "Operation was rejected") /\
  fst (connectToDevice Sample.discoveryFails "D1" Sample.discovered)
  = Returned (Success Sample.connectedHero11) /\
  connectedDevice (snd (connectToDevice Sample.discoveryFails "D1" Sample.discovered))
  = Some Sample.connectedHero11 /\
  connectToDevice Sample.healthy "D9" Sample.discovered
  = (Returned (Failure (createError Sample.healthy device_not_found
                          "Device not found in discovered devices" None)),
     Sample.discovered).
Proof.
  assert (S : fst (connectToDevice Sample.discoveryFails "D1" Sample.discovered)
              = Returned (Success Sample.connectedHero11)).
  { apply (proj1 (proj2 (proj2 (connectToDevice_outcomes Sample.discoveryFails "D1"
                                  Sample.discovered)))
             Sample.hero11Entry Sample.hero11 Sample.busy); reflexivity. }
  split; [|split; [|split]].
  - apply (proj1 (proj2 (connectToDevice_outcomes Sample.connectFails "D1" Sample.discovered))
             Sample.hero11Entry Sample.busy); reflexivity.
  - exact S.
  - exact (proj1 (proj1 (proj2 (proj2 (proj2 (connectToDevice_outcomes
                                               Sample.discoveryFails "D1"
                                               Sample.discovered))))
                    Sample.connectedHero11 S)).
  - apply (proj1 (connectToDevice_outcomes Sample.healthy "D9" Sample.discovered)).
    reflexivity.
Defined.

(** ** [connectToDevice] and its two waits *)

(** Resuming step by step, with nothing in between, is finishing. *)
Lemma connectResume_finish env at_ w :
  match connectResume env at_ w with
  | (Settled r, w') => connectFinish env at_ w = (r, w')
  | (Waiting at', w') => connectFinish env at_ w = connectFinish env at' w'
  end.
Proof.
  destruct at_ as [g|g d]; unfold connectResume, connectFinish.
  - destruct (device_connect env (device g)) as [d|e]; [reflexivity|].
    apply surjective_pairing.
  - apply surjective_pairing.
Qed.

(** The method in one piece is the method begun and finished with nothing in
    between. *)
Lemma connectToDevice_in_steps env deviceId w :
  connectToDevice env deviceId w
  = match connectBegin env deviceId w with
    | (Settled r, w') => (Returned r, w')
    | (Waiting at_, w') =>
      (Returned (fst (connectFinish env at_ w')), snd (connectFinish env at_ w'))
    end.
Proof.
  unfold connectBegin. destruct (discoveredDevices w !! deviceId) as [g|] eqn:H.
  - unfold connectFinish, afterDiscovery, connectCaught.
    destruct (device_connect env (device g)) as [d|e] eqn:Hd.
    + rewrite (connectToDevice_connected _ _ _ _ _ H Hd).
      destruct (device_discoverAllServicesAndCharacteristics env d); reflexivity.
    + now rewrite (connectToDevice_rejected _ _ _ _ _ H Hd).
  - now rewrite (connectToDevice_unknown _ _ _ H).
Qed.

(** ** [GoProBluetoothService]: disconnection and power-off *)

Lemma disconnect_idle env w :
  connectedDevice w = None -> disconnect env w = (Returned (Success tt), w).
Proof.
  intros H. unfold disconnect, tryCatch, bind, gets. now rewrite H.
Qed.

Lemma disconnect_cancelled env w g d :
  connectedDevice w = Some g ->
  device_cancelConnection env (device g) = Returned d ->
  disconnect env w
  = (Returned (Success tt),
     set_connectionStatus disconnected (set_connectedDevice None w)).
Proof.
  intros H Hd. unfold disconnect, tryCatch, bind, gets, await, modify.
  rewrite H, Hd. reflexivity.
Qed.

Lemma disconnect_rejected env w g e :
  connectedDevice w = Some g ->
  device_cancelConnection env (device g) = Thrown e ->
  disconnect env w
  = (Returned (Failure (createError env unknown "Failed to disconnect"
                          (Some (err_message e)))), w).
Proof.
  intros H He. unfold disconnect, tryCatch, bind, gets, await, modify.
  rewrite H, He. reflexivity.
Qed.

(** C3, as the code has it. [disconnect] succeeds when there is no Connected
    Device, and then changes nothing, and when the transport cancels the
    connection, and then the Connected Device is cleared and the status is
    [disconnected]. A transport error is not swallowed: [disconnect] then
    fails with kind [unknown], wraps the message of the transport error, and
    leaves the Connected Device and the status as they were. *)
Theorem disconnect_outcomes (env : BleEnv) (w : GoProBluetoothService) :
  (connectedDevice w = None -> disconnect env w = (Returned (Success tt), w)) /\
  (forall g d,
     connectedDevice w = Some g ->
     device_cancelConnection env (device g) = Returned d ->
     let run := disconnect env w in
     fst run = Returned (Success tt) /\
     connectedDevice (snd run) = None /\
     connectionStatus (snd run) = disconnected /\
     discoveredDevices (snd run) = discoveredDevices w) /\
  (forall g e,
     connectedDevice w = Some g ->
     device_cancelConnection env (device g) = Thrown e ->
     exists err,
       disconnect env w = (Returned (Failure err), w) /\
       type err = unknown /\ details err = Some (err_message e)).
Proof.
  split; [|split].
  - apply disconnect_idle.
  - intros g d H Hd run. subst run. rewrite (disconnect_cancelled _ _ _ _ H Hd).
    repeat split.
  - intros g e H He. eexists. split; [exact (disconnect_rejected _ _ g e H He)|].
    split; reflexivity.
Qed.

(** C3 as written fails: the transport refuses to cancel the connection, and
    [disconnect] returns a failed result; the device stays connected. *)
Lemma disconnect_surfaces_transport_error :
  let run := disconnect Sample.cancelFails Sample.connected in
  fst run = Returned (Failure {| type := unknown;
                                 message := "Failed to disconnect";
                                 details := Some "Operation was rejected";
                                 timestamp := 1700000000000 |}) /\
  fst run <> Returned (Success tt) /\
  connectedDevice (snd run) = connectedDevice Sample.connected /\
  connectedDevice (snd run) <> None /\
  connectionStatus (snd run) = bluetooth_connected.
Proof. cbv zeta. repeat split; try reflexivity; discriminate. Qed.

Lemma disconnect_outcomes_witness :
  (exists err,
     disconnect Sample.cancelFails Sample.connected
     = (Returned (Failure err), Sample.connected) /\
     type err = unknown /\ details err = Some "Operation was rejected") /\
  connectedDevice (snd (disconnect Sample.healthy Sample.connected)) = None /\
  disconnect Sample.healthy Sample.discovered = (Returned (Success tt), Sample.discovered).
Proof.
  split; [|split].
  - apply (proj2 (proj2 (disconnect_outcomes Sample.cancelFails Sample.connected))
             Sample.connectedHero11 Sample.busy);
      reflexivity.
  - apply (proj1 (proj2 (disconnect_outcomes Sample.healthy Sample.connected))
             Sample.connectedHero11 Sample.hero11);
      reflexivity.
  - apply (proj1 (disconnect_outcomes Sample.healthy Sample.discovered)). reflexivity.
Defined.

(** C10. Without a Connected Device, [disconnect] returns success and leaves
    the state of the service as it was: the status keeps its value, it is
    not reset to [disconnected], and the directory of discovered devices is
    untouched. *)
Theorem disconnect_without_device (env : BleEnv) (w : GoProBluetoothService) :
  connectedDevice w = None ->
  let run := disconnect env w in
  fst run = Returned (Success tt) /\
  snd run = w /\
  connectionStatus (snd run) = connectionStatus w /\
  discoveredDevices (snd run) = discoveredDevices w.
Proof.
  intros H run. subst run. rewrite (disconnect_idle _ _ H). repeat split.
Qed.

Lemma disconnect_without_device_witness :
  connectedDevice Sample.pairing = None /\
  fst (disconnect Sample.cancelFails Sample.pairing) = Returned (Success tt) /\
  connectionStatus (snd (disconnect Sample.cancelFails Sample.pairing)) = bluetooth_pairing /\
  discoveredDevices (snd (disconnect Sample.cancelFails Sample.pairing))
    !! "D1" = Some Sample.hero11Entry.
Proof.
  destruct (disconnect_without_device Sample.cancelFails Sample.pairing eq_refl)
    as [Hr [Hs _]].
  split; [reflexivity|]. split; [exact Hr|]. rewrite Hs. split; reflexivity.
Defined.

Lemma enableWiFi_state env w : snd (enableWiFi env w) = w.
Proof.
  unfold enableWiFi. async. destruct (connectedDevice w) as [g|]; [|reflexivity].
  destruct (findByUuid service_uuid _ _); [|reflexivity].
  destruct (findByUuid uuid _ _) as [c|]; [|reflexivity].
  destruct (characteristic_writeWithResponse env c _); reflexivity.
Qed.

Lemma getWiFiCredentials_state env w : snd (getWiFiCredentials env w) = w.
Proof.
  unfold getWiFiCredentials. async. destruct (connectedDevice w) as [g|]; [|reflexivity].
  cbv zeta. destruct (findByUuid uuid _ _) as [c1|]; [|reflexivity].
  destruct (findByUuid uuid _ _) as [c2|]; [|reflexivity].
  destruct (characteristic_read env c1); [|reflexivity].
  destruct (characteristic_read env c2); reflexivity.
Qed.

Lemma startScanning_connectedDevice env w :
  connectedDevice (snd (startScanning env w)) = connectedDevice w.
Proof.
  unfold startScanning, checkBluetoothSupport. async.
  destruct (manager_state env) as [[]|e]; simpl; try reflexivity;
    destruct (isScanning w); try reflexivity;
    destruct (manager_startDeviceScan env _); reflexivity.
Qed.

(** Only [connectToDevice] stores a Connected Device. *)
Lemma step_keeps_disconnected env a w :
  isConnect a = false ->
  connectedDevice w = None ->
  connectedDevice (step env a w) = None.
Proof.
  intros Ha H. destruct a; simpl in *; try discriminate.
  - unfold onStateChange. destruct (decide _); [reflexivity | exact H].
  - unfold onDeviceScanned. destruct error; [exact H|].
    destruct scanned as [d|]; [|exact H]. destruct (isGoProDevice d); exact H.
  - unfold timerFired. destruct (timers w); [exact H|].
    unfold stopScanning. simpl. destruct (isScanning w); exact H.
  - now rewrite startScanning_connectedDevice.
  - unfold stopScanning. destruct (isScanning w); exact H.
  - now rewrite (disconnect_idle _ _ H).
  - now rewrite enableWiFi_state.
  - now rewrite getWiFiCredentials_state.
Qed.

Lemma steps_keep_disconnected trace w :
  forallb (fun ea => negb (isConnect ea.2)) trace = true ->
  connectedDevice w = None ->
  connectedDevice (steps trace w) = None.
Proof.
  revert w. induction trace as [|[env a] trace IH]; intros w Ht H; [exact H|].
  simpl in Ht. apply andb_true_iff in Ht. destruct Ht as [Ha Ht].
  apply IH; [exact Ht|]. apply step_keeps_disconnected; [|exact H].
  now apply negb_true_iff in Ha.
Qed.

Lemma startScanning_connectionStatus env w :
  connectionStatus (snd (startScanning env w)) = connectionStatus w.
Proof.
  unfold startScanning, checkBluetoothSupport. async.
  destruct (manager_state env) as [[]|e]; simpl; try reflexivity;
    destruct (isScanning w); try reflexivity;
    destruct (manager_startDeviceScan env _); reflexivity.
Qed.

Lemma step_keeps_status env a w :
  isConnect a = false ->
  connectionStatus w = disconnected ->
  connectionStatus (step env a w) = disconnected.
Proof.
  intros Ha H. destruct a; simpl in *; try discriminate.
  - unfold onStateChange. destruct (decide _); [reflexivity | exact H].
  - unfold onDeviceScanned. destruct error; [exact H|].
    destruct scanned as [d|]; [|exact H]. destruct (isGoProDevice d); exact H.
  - unfold timerFired. destruct (timers w); [exact H|].
    unfold stopScanning. simpl. destruct (isScanning w); exact H.
  - now rewrite startScanning_connectionStatus.
  - unfold stopScanning. destruct (isScanning w); exact H.
  - unfold disconnect. async. destruct (connectedDevice w) as [g|]; [|exact H].
    destruct (device_cancelConnection env (device g)); [reflexivity | exact H].
  - now rewrite enableWiFi_state.
  - now rewrite getWiFiCredentials_state.
Qed.

(** The method in one piece is the method cut at its wait. *)
Lemma disconnect_in_steps env w :
  disconnect env w
  = match connectedDevice w with
    | Some g => (Returned (fst (disconnectResume env g w)), snd (disconnectResume env g w))
    | None => (Returned (Success tt), w)
    end.
Proof.
  unfold disconnect, disconnectResume. async.
  destruct (connectedDevice w) as [g|]; [|reflexivity].
  destruct (device_cancelConnection env (device g)); reflexivity.
Qed.

(** Events that are all of the first kind are the actions of [steps]. *)
Lemma occurs_runs trace r :
  occurs (map (fun ea => (ea.1, Runs ea.2)) trace) r
  = {| current := steps trace (current r); waiting := waiting r |}.
Proof.
  revert r. induction trace as [|[env a] trace IH]; intros r; [now destruct r|].
  simpl. unfold occurs in IH. rewrite IH. reflexivity.
Qed.

(** A call of [connectToDevice] that nothing interrupts is the method in one
    piece. *)
Lemma occurs_connect_uninterrupted env deviceId w :
  occurs [(env, CallsConnectToDevice deviceId); (env, GoesOn 0%nat); (env, GoesOn 0%nat)]
    {| current := w; waiting := [] |}
  = {| current := snd (connectToDevice env deviceId w); waiting := [] |}.
Proof.
  rewrite connectToDevice_in_steps. unfold occurs. simpl. unfold connectBegin.
  destruct (discoveredDevices w !! deviceId) as [g|]; simpl; [|reflexivity].
  destruct (device_connect env (device g)) as [d|e]; reflexivity.
Qed.

(** Without a call of [connectToDevice], in flight or new, no device is
    stored and the status stays [disconnected]. *)
Lemma occur_keeps_disconnected env e r :
  callsConnect e = false ->
  Forall (fun c => isConnecting c = false) (waiting r) ->
  connectedDevice (current r) = None ->
  connectionStatus (current r) = disconnected ->
  Forall (fun c => isConnecting c = false) (waiting (occur env e r)) /\
  connectedDevice (current (occur env e r)) = None /\
  connectionStatus (current (occur env e r)) = disconnected.
Proof.
  intros He Hq Hd Hs. destruct e as [a|deviceId| |n]; simpl in *; try discriminate.
  - split; [exact Hq|]. split.
    + now apply step_keeps_disconnected.
    + now apply step_keeps_status.
  - rewrite Hd. now split.
  - destruct (waiting r !! n) as [[at_|g]|] eqn:Hn; [| |now split].
    + apply (proj1 (Forall_lookup _ _) Hq) in Hn. discriminate.
    + simpl. split; [now apply Forall_delete|].
      unfold disconnectResume.
      destruct (device_cancelConnection env (device g)); simpl; now split.
Qed.

Lemma occurs_keep_disconnected trace r :
  forallb (fun ee => negb (callsConnect ee.2)) trace = true ->
  Forall (fun c => isConnecting c = false) (waiting r) ->
  connectedDevice (current r) = None ->
  connectionStatus (current r) = disconnected ->
  connectedDevice (current (occurs trace r)) = None /\
  connectionStatus (current (occurs trace r)) = disconnected.
Proof.
  revert r. induction trace as [|[env e] trace IH]; intros r Ht Hq Hd Hs; [now split|].
  simpl in Ht. apply andb_true_iff in Ht. destruct Ht as [He Ht].
  apply negb_true_iff in He.
  destruct (occur_keeps_disconnected env e r He Hq Hd Hs) as [Hq' [Hd' Hs']].
  now apply (IH (occur env e r)).
Qed.

(** A [connectToDevice] that goes on to its end stores its device when it
    succeeds, whatever the state was. *)
Lemma connectFinish_stores env at_ w data :
  fst (connectFinish env at_ w) = Success data ->
  connectedDevice (snd (connectFinish env at_ w)) = Some data /\
  connectionStatus (snd (connectFinish env at_ w)) = bluetooth_connected.
Proof.
  unfold connectFinish, afterDiscovery, connectCaught.
  destruct at_ as [g|g d].
  - destruct (device_connect env (device g)) as [d|e]; [|discriminate].
    destruct (device_discoverAllServicesAndCharacteristics env d); [discriminate|].
    simpl. intros H. injection H as <-. now split.
  - destruct (device_discoverAllServicesAndCharacteristics env d); [discriminate|].
    simpl. intros H. injection H as <-. now split.
Qed.

(** C8, as the code has it. When the adapter reports a power-off, the
    handler sets the status to [disconnected] and clears the Connected
    Device, whatever the state of the service was, in the middle of an
    operation or not; the scan flag and the directory are not touched, and
    any other adapter state changes nothing. Afterwards no callback, no
    other method and no [disconnect] in flight stores a device or changes
    the status, in whatever order they run. A [connectToDevice] is not
    cancelled by the event: one called later, or one that was in flight and
    goes on to a successful end, stores its device and sets the status to
    [bluetooth_connected]. *)
Theorem power_off_clears_connection (w : GoProBluetoothService) :
  let w' := onStateChange PoweredOff w in
  connectionStatus w' = disconnected /\
  connectedDevice w' = None /\
  getConnectedDevice w' = None /\
  isConnected w' = false /\
  isScanning w' = isScanning w /\
  discoveredDevices w' = discoveredDevices w /\
  (forall trace,
     forallb (fun ea => negb (isConnect ea.2)) trace = true ->
     connectedDevice (steps trace w') = None) /\
  (forall inFlight trace,
     forallb (fun c => negb (isConnecting c)) inFlight = true ->
     forallb (fun ee => negb (callsConnect ee.2)) trace = true ->
     let after := current (occurs trace {| current := w'; waiting := inFlight |}) in
     connectedDevice after = None /\ connectionStatus after = disconnected) /\
  (forall env at_ data,
     fst (connectFinish env at_ w') = Success data ->
     connectedDevice (snd (connectFinish env at_ w')) = Some data /\
     connectionStatus (snd (connectFinish env at_ w')) = bluetooth_connected) /\
  (forall state, state <> PoweredOff -> onStateChange state w = w).
Proof.
  cbv zeta. unfold onStateChange at 1 2 3 4 5 6.
  split; [reflexivity|]. split; [reflexivity|]. split; [reflexivity|].
  split; [reflexivity|]. split; [reflexivity|]. split; [reflexivity|].
  split; [|split; [|split]].
  - intros trace Ht. apply steps_keep_disconnected; [exact Ht | reflexivity].
  - intros inFlight trace Hq Ht. apply occurs_keep_disconnected; try reflexivity.
    + exact Ht.
    + simpl. apply Forall_forall. intros c Hc. apply list_elem_of_In in Hc.
      apply negb_true_iff. exact (proj1 (forallb_forall _ _) Hq c Hc).
  - intros env at_ data. apply connectFinish_stores.
  - intros state H. unfold onStateChange.
    destruct (decide (state = PoweredOff)); [contradiction | reflexivity].
Qed.

(** C8 as written fails: [connectToDevice] is in flight, waiting for the
    discovery of services, when the adapter reports the power-off. The
    handler clears the state; then the discovery is rejected, the rejection
    is swallowed, and the method goes on to store its device and to set the
    status to [bluetooth_connected]. *)
Lemma connect_in_flight_survives_power_off :
  let before :=
    occurs [(Sample.healthy, CallsConnectToDevice "D1"); (Sample.healthy, GoesOn 0%nat)]
      {| current := Sample.discovered; waiting := [] |} in
  let at_event := occur Sample.healthy (Runs (StateChanged PoweredOff)) before in
  let after := occur Sample.discoveryFails (GoesOn 0%nat) at_event in
  waiting before = [Connecting (AwaitingDiscovery Sample.hero11Entry Sample.hero11)] /\
  connectedDevice (current at_event) = None /\
  connectionStatus (current at_event) = disconnected /\
  connectedDevice (current after) = Some Sample.connectedHero11 /\
  connectionStatus (current after) = bluetooth_connected /\
  isConnected (current after) = true /\
  waiting after = [].
Proof. cbv zeta. repeat split. Qed.

Lemma power_off_clears_connection_witness :
  connectedDevice Sample.connected <> None /\
  connectedDevice (onStateChange PoweredOff Sample.connected) = None /\
  connectionStatus (onStateChange PoweredOff Sample.pairing) = disconnected /\
  connectedDevice
    (steps [(Sample.healthy, StartScanning);
            (Sample.healthy, DeviceScanned None (Some Sample.hero11));
            (Sample.cancelFails, Disconnect);
            (Sample.healthy, TimerFired)]
       (onStateChange PoweredOff Sample.connected)) = None /\
  connectedDevice
    (current (occurs [(Sample.healthy, Runs StartScanning);
                      (Sample.healthy, GoesOn 0%nat);
                      (Sample.healthy, CallsDisconnect);
                      (Sample.healthy, Runs TimerFired)]
                {| current := onStateChange PoweredOff Sample.connected;
                   waiting := [Disconnecting Sample.connectedHero11] |})) = None /\
  connectedDevice
    (snd (connectFinish Sample.discoveryFails
            (AwaitingDiscovery Sample.hero11Entry Sample.hero11)
            (onStateChange PoweredOff Sample.pairing)))
  = Some Sample.connectedHero11 /\
  onStateChange PoweredOn Sample.connected = Sample.connected.
Proof.
  split; [discriminate|]. split; [|split; [|split; [|split; [|split]]]].
  - apply (power_off_clears_connection Sample.connected).
  - apply (power_off_clears_connection Sample.pairing).
  - apply (power_off_clears_connection Sample.connected). reflexivity.
  - destruct (power_off_clears_connection Sample.connected)
      as [_ [_ [_ [_ [_ [_ [_ [H _]]]]]]]].
    apply (H [Disconnecting Sample.connectedHero11]); reflexivity.
  - destruct (power_off_clears_connection Sample.pairing)
      as [_ [_ [_ [_ [_ [_ [_ [_ [H _]]]]]]]]].
    apply (H Sample.discoveryFails (AwaitingDiscovery Sample.hero11Entry Sample.hero11)
             Sample.connectedHero11).
    reflexivity.
  - apply (power_off_clears_connection Sample.connected). discriminate.
Defined.

(** ** [GoProBluetoothService]: scanning *)

#[global] Instance supportCheckPasses_dec env : Decision (supportCheckPasses env).
Proof.
  unfold supportCheckPasses.
  destruct (manager_state env) as [st|e]; [destruct st|];
    first [ left; eexists; (split; [reflexivity|]);
            (split; [discriminate|]); split; discriminate
          | right; intros [st' [Hst [H1 [H2 H3]]]]; inversion Hst; congruence ].
Defined.

Lemma checkBluetoothSupport_passes env w :
  supportCheckPasses env ->
  exists b, checkBluetoothSupport env w = (Returned (Success b), w).
Proof.
  intros [st [Hst [H1 [H2 H3]]]].
  unfold checkBluetoothSupport, tryCatch, bind, await. rewrite Hst.
  destruct st; try congruence; eexists; reflexivity.
Qed.

Lemma checkBluetoothSupport_fails env w :
  ~ supportCheckPasses env ->
  exists e, checkBluetoothSupport env w = (Returned (Failure e), w).
Proof.
  intros Hn. unfold checkBluetoothSupport, tryCatch, bind, await.
  destruct (manager_state env) as [st|err] eqn:Hst; [|eexists; reflexivity].
  destruct st; try (eexists; reflexivity);
    destruct Hn; eexists; (split; [exact Hst|]); repeat split; discriminate.
Qed.

Lemma startScanning_running env w :
  isScanning w = true ->
  startScanning env w
  = (match fst (checkBluetoothSupport env w) with
     | Returned (Success _) => Returned (Success tt)
     | Returned (Failure e) => Returned (Failure e)
     | Thrown e => Thrown e
     end, w).
Proof.
  intros H. unfold startScanning, tryCatch. unfold bind at 1.
  destruct (decide (supportCheckPasses env)) as [Hp|Hp].
  - destruct (checkBluetoothSupport_passes env w Hp) as [b ->]. simpl.
    unfold bind, gets. now rewrite H.
  - destruct (checkBluetoothSupport_fails env w Hp) as [e ->]. reflexivity.
Qed.

Lemma startScanning_idle env w :
  isScanning w = false ->
  supportCheckPasses env ->
  startScanning env w
  = match manager_startDeviceScan env GOPRO_CONFIG.BLE_SERVICES.values with
    | Returned _ =>
      (Returned (Success tt),
       setTimeout 10000
         (set_deviceScan (Some GOPRO_CONFIG.BLE_SERVICES.values)
            (set_discoveredDevices ∅ (set_isScanning true w))))
    | Thrown e =>
      (Returned (Failure (createError env unknown "Failed to start scanning"
                            (Some (err_message e)))),
       set_isScanning false (set_discoveredDevices ∅ (set_isScanning true w)))
    end.
Proof.
  intros H Hp. unfold startScanning, tryCatch. unfold bind at 1.
  destruct (checkBluetoothSupport_passes env w Hp) as [b ->].
  unfold bind, gets, modify, await. rewrite H. cbv zeta.
  destruct (manager_startDeviceScan env _); reflexivity.
Qed.

Lemma startScanning_unsupported env w :
  ~ supportCheckPasses env ->
  exists e, checkBluetoothSupport env w = (Returned (Failure e), w) /\
            startScanning env w = (Returned (Failure e), w).
Proof.
  intros Hp. destruct (checkBluetoothSupport_fails env w Hp) as [e He].
  exists e. split; [exact He|].
  unfold startScanning, tryCatch. unfold bind at 1. now rewrite He.
Qed.

Lemma startScanning_fresh env w :
  isScanning w = false ->
  supportCheckPasses env ->
  manager_startDeviceScan env GOPRO_CONFIG.BLE_SERVICES.values = Returned tt ->
  startScanning env w
  = (Returned (Success tt),
     setTimeout 10000
       (set_deviceScan (Some GOPRO_CONFIG.BLE_SERVICES.values)
          (set_discoveredDevices ∅ (set_isScanning true w)))).
Proof.
  intros H Hp Hs. rewrite (startScanning_idle _ _ H Hp). now rewrite Hs.
Qed.

(** The directory after [startScanning] is the old one or the empty one. *)
Lemma startScanning_directory env w :
  discoveredDevices (snd (startScanning env w)) = discoveredDevices w \/
  (isScanning w = false /\ discoveredDevices (snd (startScanning env w)) = ∅).
Proof.
  destruct (isScanning w) eqn:H.
  - left. now rewrite (startScanning_running _ _ H).
  - destruct (decide (supportCheckPasses env)) as [Hp|Hp].
    + rewrite (startScanning_idle _ _ H Hp). right. split; [reflexivity|].
      destruct (manager_startDeviceScan env _); reflexivity.
    + destruct (startScanning_unsupported env w Hp) as [e [_ ->]]. now left.
Qed.

(** C6, as the code has it. Called while a scan runs, [startScanning] changes
    nothing: the discovered devices are not cleared, no timer is added, the
    native scan is not restarted. It returns success when the Bluetooth
    support check passes, and the failure of that check otherwise. Only
    when no scan runs does [startScanning] clear the discovered devices; it
    then also arms the timer of 10 000 ms. *)
Theorem startScanning_effects (env : BleEnv) (w : GoProBluetoothService) :
  let run := startScanning env w in
  (isScanning w = true ->
     snd run = w /\
     (supportCheckPasses env -> fst run = Returned (Success tt)) /\
     (~ supportCheckPasses env ->
      exists e, fst run = Returned (Failure e) /\
                fst (checkBluetoothSupport env w) = Returned (Failure e))) /\
  (discoveredDevices (snd run) <> discoveredDevices w -> isScanning w = false) /\
  (isScanning w = false ->
   supportCheckPasses env ->
   manager_startDeviceScan env GOPRO_CONFIG.BLE_SERVICES.values = Returned tt ->
     fst run = Returned (Success tt) /\
     discoveredDevices (snd run) = ∅ /\
     isScanning (snd run) = true /\
     timers (snd run) = timers w ++ [10000%N]).
Proof.
  cbv zeta. split; [|split].
  - intros H. rewrite (startScanning_running _ _ H). split; [reflexivity|]. split.
    + intros Hp. destruct (checkBluetoothSupport_passes env w Hp) as [b ->]. reflexivity.
    + intros Hp. destruct (checkBluetoothSupport_fails env w Hp) as [e ->].
      exists e. split; reflexivity.
  - intros Hne. destruct (startScanning_directory env w) as [Heq|[H _]];
      [contradiction | exact H].
  - intros H Hp Hs. rewrite (startScanning_fresh _ _ H Hp Hs). repeat split.
Qed.

(** C6 as written fails: a scan runs, the user switches Bluetooth off, and
    [startScanning] returns a failed result, not success. *)
Lemma startScanning_while_scanning_can_fail :
  let run := startScanning Sample.poweredOff Sample.scanning in
  isScanning Sample.scanning = true /\
  fst run = Returned (Failure {| type := bluetooth_permission_denied;
                                 message := "Bluetooth is turned off. Please enable Bluetooth in Settings.";
                                 details := None;
                                 timestamp := 1700000000000 |}) /\
  fst run <> Returned (Success tt).
Proof. cbv zeta. repeat split; try reflexivity; discriminate. Qed.

Lemma Sample_healthy_passes : supportCheckPasses Sample.healthy.
Proof. exists PoweredOn. repeat split; discriminate. Qed.

Lemma Sample_poweredOff_fails : ~ supportCheckPasses Sample.poweredOff.
Proof. intros [st [Hst [_ [H _]]]]. inversion Hst. congruence. Qed.

Lemma startScanning_effects_witness :
  (snd (startScanning Sample.healthy Sample.scanning) = Sample.scanning /\
   fst (startScanning Sample.healthy Sample.scanning) = Returned (Success tt)) /\
  (exists e, fst (startScanning Sample.poweredOff Sample.scanning) = Returned (Failure e)) /\
  (discoveredDevices (snd (startScanning Sample.healthy Sample.discovered)) = ∅ /\
   timers (snd (startScanning Sample.healthy Sample.discovered)) = [10000%N]).
Proof.
  split; [|split].
  - destruct (proj1 (startScanning_effects Sample.healthy Sample.scanning) eq_refl)
      as [Hs [Hok _]].
    split; [exact Hs | exact (Hok Sample_healthy_passes)].
  - destruct (proj1 (startScanning_effects Sample.poweredOff Sample.scanning) eq_refl)
      as [_ [_ Hfail]].
    destruct (Hfail Sample_poweredOff_fails) as [e [He _]]. exists e. exact He.
  - destruct (proj2 (proj2 (startScanning_effects Sample.healthy Sample.discovered))
                eq_refl Sample_healthy_passes eq_refl) as [_ [Hd [_ Ht]]].
    split; [exact Hd | exact Ht].
Defined.

(** ** [GoProBluetoothService]: WiFi credentials *)

Lemma find_None_iff {A} (f : A -> bool) (l : list A) :
  find f l = None <-> forall x, In x l -> f x = false.
Proof.
  induction l as [|y l IH]; simpl.
  - split; [intros _ x [] | reflexivity].
  - destruct (f y) eqn:E.
    + split; [discriminate|]. intros H. specialize (H y (or_introl eq_refl)). congruence.
    + rewrite IH. split.
      * intros H x [<-|Hx]; [exact E | now apply H].
      * intros H x Hx. apply H. now right.
Qed.

Lemma find_Some {A} (f : A -> bool) (l : list A) x :
  find f l = Some x -> In x l /\ f x = true.
Proof.
  induction l as [|y l IH]; simpl; [discriminate|].
  destruct (f y) eqn:E.
  - intros [= <-]. split; [now left | exact E].
  - intros H. destruct (IH H) as [Hin Hf]. split; [now right | exact Hf].
Qed.

(** [findByUuid] finds nothing exactly when the characteristic is missing. *)
Lemma findByUuid_None_iff g pattern :
  findByUuid uuid pattern (characteristics g) = None <-> ~ hasCharacteristic g pattern.
Proof.
  unfold findByUuid, hasCharacteristic. destruct (characteristics g) as [cs|].
  - rewrite find_None_iff. split.
    + intros H [cs' [c [[= <-] [Hin Hc]]]].
      apply JsStringFacts.includes_iff in Hc. rewrite (H c Hin) in Hc. discriminate.
    + intros H c Hin.
      destruct (JsString.includes (JsString.toLowerCase (uuid c)) pattern) eqn:E;
        [|reflexivity].
      destruct H. exists cs, c. split; [reflexivity|]. split; [exact Hin|].
      now apply JsStringFacts.includes_iff.
  - split; [|reflexivity]. intros _ [cs [c [H _]]]. discriminate.
Qed.

Lemma findByUuid_Some g pattern c :
  findByUuid uuid pattern (characteristics g) = Some c ->
  hasCharacteristic g pattern /\
  JsString.Contains (JsString.toLowerCase (uuid c)) pattern.
Proof.
  unfold findByUuid, hasCharacteristic.
  destruct (characteristics g) as [cs|]; [|discriminate].
  intros H. apply find_Some in H. destruct H as [Hin Hc].
  apply JsStringFacts.includes_iff in Hc.
  split; [exists cs, c; repeat split; assumption | exact Hc].
Qed.

Lemma getWiFiCredentials_idle env w :
  connectedDevice w = None ->
  getWiFiCredentials env w
  = (Returned (Failure (createError env connection_failed
                          "No GoPro device connected" None)), w).
Proof.
  intros H. unfold getWiFiCredentials, tryCatch, bind, gets. now rewrite H.
Qed.

Lemma getWiFiCredentials_missing env w g :
  connectedDevice w = Some g ->
  ~ hasCharacteristic g GOPRO_CONFIG.BLE_CHARACTERISTICS.WIFI_SSID \/
  ~ hasCharacteristic g GOPRO_CONFIG.BLE_CHARACTERISTICS.WIFI_PASSWORD ->
  getWiFiCredentials env w
  = (Returned (Failure (createError env connection_failed
                          "WiFi credentials characteristics not found" None)), w).
Proof.
  intros H Hm. unfold getWiFiCredentials, tryCatch, bind, gets. rewrite H. cbv zeta.
  destruct Hm as [Hm|Hm]; apply findByUuid_None_iff in Hm; rewrite Hm;
    [reflexivity|].
  destruct (findByUuid uuid GOPRO_CONFIG.BLE_CHARACTERISTICS.WIFI_SSID _); reflexivity.
Qed.

(** With both characteristics found: the two reads, in this order, then the
    decoding. *)
Lemma getWiFiCredentials_found env w g ssidC passwordC :
  connectedDevice w = Some g ->
  findByUuid uuid GOPRO_CONFIG.BLE_CHARACTERISTICS.WIFI_SSID (characteristics g)
    = Some ssidC ->
  findByUuid uuid GOPRO_CONFIG.BLE_CHARACTERISTICS.WIFI_PASSWORD (characteristics g)
    = Some passwordC ->
  getWiFiCredentials env w
  = (match characteristic_read env ssidC with
     | Returned ssidValue =>
       match characteristic_read env passwordC with
       | Returned passwordValue =>
         Returned (Success (decodeValue env ssidValue, decodeValue env passwordValue))
       | Thrown e =>
         Returned (Failure (createError env connection_failed
                              "Failed to get WiFi credentials" (Some (err_message e))))
       end
     | Thrown e =>
       Returned (Failure (createError env connection_failed
                            "Failed to get WiFi credentials" (Some (err_message e))))
     end, w).
Proof.
  intros H Hs Hp. unfold getWiFiCredentials, tryCatch, bind, gets, await.
  rewrite H. cbv zeta. rewrite Hs, Hp.
  destruct (characteristic_read env ssidC); [|reflexivity].
  destruct (characteristic_read env passwordC); reflexivity.
Qed.

(** What the code computes from a read is the text on the wire. *)
Lemma decodeValue_wireText env read : decodeValue env read = wireText env read.
Proof.
  unfold decodeValue, wireText. destruct (value read) as [[|c v]|]; reflexivity.
Qed.

(** C7. [getWiFiCredentials] fails with [connection_failed] when there is no
    Connected Device, and when the SSID characteristic or the password
    characteristic is missing from the characteristic set of the connected
    device. Otherwise both characteristics are found; it reads the two, and
    returns the pair of the SSID and the password, each the value that its
    read returned, decoded from base64 to text (an absent or empty value
    gives the empty text). A read that the transport rejects ends the
    operation with [connection_failed] as well. The state of the service is
    never changed. *)
Theorem getWiFiCredentials_outcomes (env : BleEnv) (w : GoProBluetoothService) :
  snd (getWiFiCredentials env w) = w /\
  (connectedDevice w = None ->
     exists r, fst (getWiFiCredentials env w) = Returned r /\
               failsWith r connection_failed) /\
  (forall g,
     connectedDevice w = Some g ->
     ~ hasCharacteristic g GOPRO_CONFIG.BLE_CHARACTERISTICS.WIFI_SSID \/
     ~ hasCharacteristic g GOPRO_CONFIG.BLE_CHARACTERISTICS.WIFI_PASSWORD ->
     exists r, fst (getWiFiCredentials env w) = Returned r /\
               failsWith r connection_failed) /\
  (forall g,
     connectedDevice w = Some g ->
     hasCharacteristic g GOPRO_CONFIG.BLE_CHARACTERISTICS.WIFI_SSID ->
     hasCharacteristic g GOPRO_CONFIG.BLE_CHARACTERISTICS.WIFI_PASSWORD ->
     exists ssidC passwordC,
       findByUuid uuid GOPRO_CONFIG.BLE_CHARACTERISTICS.WIFI_SSID (characteristics g)
         = Some ssidC /\
       findByUuid uuid GOPRO_CONFIG.BLE_CHARACTERISTICS.WIFI_PASSWORD (characteristics g)
         = Some passwordC /\
       (forall ssidValue passwordValue,
          characteristic_read env ssidC = Returned ssidValue ->
          characteristic_read env passwordC = Returned passwordValue ->
          fst (getWiFiCredentials env w)
          = Returned (Success (wireText env ssidValue, wireText env passwordValue))) /\
       (forall e,
          characteristic_read env ssidC = Thrown e \/
          characteristic_read env passwordC = Thrown e ->
          exists r, fst (getWiFiCredentials env w) = Returned r /\
                    failsWith r connection_failed)).
Proof.
  split; [|split; [|split]].
  - apply getWiFiCredentials_state.
  - intros H. rewrite (getWiFiCredentials_idle _ _ H).
    eexists. split; [reflexivity|]. eexists. split; reflexivity.
  - intros g H Hm. rewrite (getWiFiCredentials_missing _ _ _ H Hm).
    eexists. split; [reflexivity|]. eexists. split; reflexivity.
  - intros g H Hs Hp.
    destruct (findByUuid uuid GOPRO_CONFIG.BLE_CHARACTERISTICS.WIFI_SSID
                (characteristics g)) as [ssidC|] eqn:Es;
      [|apply findByUuid_None_iff in Es; contradiction].
    destruct (findByUuid uuid GOPRO_CONFIG.BLE_CHARACTERISTICS.WIFI_PASSWORD
                (characteristics g)) as [passwordC|] eqn:Ep;
      [|apply findByUuid_None_iff in Ep; contradiction].
    exists ssidC, passwordC. split; [reflexivity|]. split; [reflexivity|].
    rewrite (getWiFiCredentials_found _ _ _ _ _ H Es Ep). split.
    + intros sv pv -> ->. simpl. now rewrite !decodeValue_wireText.
    + intros e [He|He].
      * rewrite He. eexists. split; [reflexivity|]. eexists. split; reflexivity.
      * rewrite He. destruct (characteristic_read env ssidC);
          eexists; (split; [reflexivity|]); eexists; split; reflexivity.
Qed.

Lemma Sample_enumerated_has_ssid :
  hasCharacteristic Sample.enumeratedHero11 GOPRO_CONFIG.BLE_CHARACTERISTICS.WIFI_SSID.
Proof.
  exists [Sample.ssidCharacteristic; Sample.passwordCharacteristic], Sample.ssidCharacteristic.
  split; [reflexivity|]. split; [now left|].
  exists EmptyString, EmptyString. reflexivity.
Defined.

Lemma Sample_enumerated_has_password :
  hasCharacteristic Sample.enumeratedHero11 GOPRO_CONFIG.BLE_CHARACTERISTICS.WIFI_PASSWORD.
Proof.
  exists [Sample.ssidCharacteristic; Sample.passwordCharacteristic],
    Sample.passwordCharacteristic.
  split; [reflexivity|]. split; [right; now left|].
  exists EmptyString, EmptyString. reflexivity.
Defined.

Lemma getWiFiCredentials_outcomes_witness :
  fst (getWiFiCredentials Sample.healthy Sample.enumerated)
    = Returned (Success ("GP12345", "pass1234")) /\
  (exists r, fst (getWiFiCredentials Sample.readFails Sample.enumerated) = Returned r /\
             failsWith r connection_failed) /\
  (exists r, fst (getWiFiCredentials Sample.healthy Sample.connected) = Returned r /\
             failsWith r connection_failed) /\
  (exists r, fst (getWiFiCredentials Sample.healthy Sample.discovered) = Returned r /\
             failsWith r connection_failed).
Proof.
  split; [|split; [|split]].
  - destruct (proj2 (proj2 (proj2 (getWiFiCredentials_outcomes Sample.healthy
                                     Sample.enumerated)))
                Sample.enumeratedHero11 eq_refl
                Sample_enumerated_has_ssid Sample_enumerated_has_password)
      as [ssidC [passwordC [Es [Ep [Hok _]]]]].
    injection Es as <-. injection Ep as <-.
    exact (Hok _ _ eq_refl eq_refl).
  - destruct (proj2 (proj2 (proj2 (getWiFiCredentials_outcomes Sample.readFails
                                     Sample.enumerated)))
                Sample.enumeratedHero11 eq_refl
                Sample_enumerated_has_ssid Sample_enumerated_has_password)
      as [ssidC [passwordC [_ [_ [_ Hfail]]]]].
    exact (Hfail Sample.busy (or_introl eq_refl)).
  - apply (proj1 (proj2 (proj2 (getWiFiCredentials_outcomes Sample.healthy
                                   Sample.connected)))
             Sample.connectedHero11 eq_refl).
    left. intros [cs [c [Hcs [Hin _]]]]. injection Hcs as <-. destruct Hin.
  - exact (proj1 (proj2 (getWiFiCredentials_outcomes Sample.healthy Sample.discovered))
             eq_refl).
Defined.

(** ** [GoProService]: the request path and its timeout *)

Lemma awaitFetch_timeout {T} (f : Fetch T) ms :
  exceedsTimeout f ms -> awaitFetch ms f = Thrown AbortError.
Proof.
  unfold exceedsTimeout, awaitFetch. destruct (latency f) as [t|]; [|reflexivity].
  intros H. destruct (N.leb_spec t ms); [lia | reflexivity].
Qed.

Lemma awaitFetch_in_time {T} (f : Fetch T) ms t :
  latency f = Some t -> (t <= ms)%N -> awaitFetch ms f = settles f.
Proof.
  unfold awaitFetch. intros -> H. destruct (N.leb_spec t ms); [reflexivity | lia].
Qed.

(** The shared request path reports a timeout as [api_timeout]. *)
Lemma makeRequest_timeout env e options s :
  exceedsTimeout (fetch env e (getGoProUrl (GOPRO_CONFIG.ENDPOINTS e)) options) (timeout s) ->
  makeRequest env e options s
  = (Returned (Failure (httpError env api_timeout "Request timed out"
                          (Some ("Timeout after " +:+ pretty (timeout s) +:+ "ms")))), s).
Proof.
  intros H. unfold makeRequest, tryCatch, bind, gets, await. cbv zeta.
  rewrite (awaitFetch_timeout _ _ H). reflexivity.
Qed.

(** The probe of [pingCamera] reports a timeout as [network_error]. *)
Lemma pingCamera_timeout env s :
  exceedsTimeout (fetch env GOPRO_CONFIG.INFO Camera.infoUrl Camera.probe) 3000 ->
  pingCamera env s
  = (Returned (Failure (httpError env network_error "Cannot reach GoPro camera"
                          (Some "Aborted"))), s).
Proof.
  intros H. unfold pingCamera, tryCatch, bind, await.
  unfold Camera.infoUrl, Camera.probe in H. rewrite (awaitFetch_timeout _ _ H). reflexivity.
Qed.

(** No call of the shared request path throws or hangs: it returns a result,
    and the fields of the service stay as they are. *)
Lemma makeRequest_returns env e options s :
  exists r, makeRequest env e options s = (Returned r, s).
Proof.
  unfold makeRequest, tryCatch, bind, gets, await. cbv zeta.
  destruct (awaitFetch _ _) as [response|err].
  - destruct (ok response); simpl; [|eexists; reflexivity].
    destruct (json response) as [data|err]; [eexists; reflexivity|].
    destruct (decide (err_name err = "AbortError")); eexists; reflexivity.
  - destruct (decide (err_name err = "AbortError")); eexists; reflexivity.
Qed.

Lemma pingCamera_returns env s : exists r, pingCamera env s = (Returned r, s).
Proof.
  unfold pingCamera, tryCatch, bind, await.
  destruct (awaitFetch _ _); eexists; reflexivity.
Qed.

(** C2 at the failing input: a camera that takes 6 seconds to answer. Every
    call of the shared request path resolves with [api_timeout]; the probe
    of [pingCamera], aborted by its timer of 3 seconds, resolves with
    [network_error], not with [api_timeout]. *)
Theorem pingCamera_timeout_is_network_error :
  let camera := Camera.serve Camera.fullStatus Camera.files 6000 in
  exceedsTimeout (fetch camera GOPRO_CONFIG.INFO Camera.infoUrl Camera.probe) 3000 /\
  fst (pingCamera camera newGoProService)
    = Returned (Failure {| type := network_error;
                           message := "Cannot reach GoPro camera";
                           details := Some "Aborted";
                           timestamp := 1700000000000 |}) /\
  ~ (exists r, fst (pingCamera camera newGoProService) = Returned r /\
               failsWith r api_timeout) /\
  fst (getCameraInfo camera newGoProService)
    = Returned (Failure {| type := api_timeout;
                           message := "Request timed out";
                           details := Some "Timeout after 5000ms";
                           timestamp := 1700000000000 |}).
Proof.
  cbv zeta. split; [vm_compute; reflexivity|].
  rewrite pingCamera_timeout by (vm_compute; reflexivity).
  unfold getCameraInfo. rewrite makeRequest_timeout by (vm_compute; reflexivity).
  split; [reflexivity|]. split; [|reflexivity].
  intros [r [Hr [e [He Ht]]]]. simpl in Hr. injection Hr as <-. injection He as <-.
  discriminate Ht.
Qed.

(** ** [GoProService]: reads of one field of the status *)

Lemma getBatteryLevel_run env s s' data :
  getCameraStatus env s = (Returned (Success data), s') ->
  getBatteryLevel env s
  = (Returned match battery_level data with
              | Some batteryLevel => Success batteryLevel
              | None =>
                Failure (httpError env invalid_response "Battery level not available"
                           (Some "Camera status response missing battery information"))
              end, s').
Proof.
  intros H. unfold getBatteryLevel, bind. rewrite H.
  destruct (battery_level data); reflexivity.
Qed.

Lemma getCurrentMode_run env s s' data :
  getCameraStatus env s = (Returned (Success data), s') ->
  getCurrentMode env s
  = (Returned match mode data with
              | Some (String c m) => Success (String c m)
              | _ =>
                Failure (httpError env invalid_response "Camera mode not available"
                           (Some "Camera status response missing mode information"))
              end, s').
Proof.
  intros H. unfold getCurrentMode, bind. rewrite H.
  destruct (mode data) as [[|c m]|]; reflexivity.
Qed.

Lemma isRecording_run env s s' data :
  getCameraStatus env s = (Returned (Success data), s') ->
  isRecording env s = (Returned (Success (default false (recording data))), s').
Proof.
  intros H. unfold isRecording, bind. rewrite H.
  destruct (recording data) as [[]|]; reflexivity.
Qed.

(** C5, as the code has it. For every status payload: [getBatteryLevel]
    fails with [invalid_response] exactly when [battery_level] is absent;
    [getCurrentMode] fails with [invalid_response] exactly when [mode] is
    absent or is the empty string; [isRecording] does not fail, it returns
    the flag, and [false] when [recording] is absent. *)
Theorem status_field_reads (env : HttpEnv) (s s' : GoProService)
    (data : GoProCameraStatus) :
  getCameraStatus env s = (Returned (Success data), s') ->
  (exists r, fst (getBatteryLevel env s) = Returned r /\
     (failsWith r invalid_response <-> battery_level data = None) /\
     (success r = false <-> battery_level data = None)) /\
  (exists r, fst (getCurrentMode env s) = Returned r /\
     (failsWith r invalid_response <->
      mode data = None \/ mode data = Some EmptyString) /\
     (success r = false <-> mode data = None \/ mode data = Some EmptyString)) /\
  fst (isRecording env s) = Returned (Success (default false (recording data))) /\
  (recording data = None -> fst (isRecording env s) = Returned (Success false)).
Proof.
  intros H. split; [|split; [|split]].
  - rewrite (getBatteryLevel_run _ _ _ _ H). eexists. split; [reflexivity|].
    destruct (battery_level data) as [b|]; split; split; try discriminate; try reflexivity.
    + intros [e [He _]]. discriminate.
    + intros _. eexists. split; reflexivity.
  - rewrite (getCurrentMode_run _ _ _ _ H). eexists. split; [reflexivity|].
    destruct (mode data) as [[|c m]|]; split; split;
      try reflexivity; try (intros _; eexists; split; reflexivity);
      try (intros _; now left); try (intros _; now right).
    + intros [e [He _]]. discriminate.
    + intros [Hm|Hm]; discriminate.
    + discriminate.
    + intros [Hm|Hm]; discriminate.
  - now rewrite (isRecording_run _ _ _ _ H).
  - intros Hr. rewrite (isRecording_run _ _ _ _ H), Hr. reflexivity.
Qed.

(** C5 as written fails for [getCurrentMode]: the mode field is present, it
    is the empty string, and the read fails with [invalid_response]. *)
Lemma getCurrentMode_fails_on_empty_mode :
  let camera := Camera.serve Camera.emptyModeStatus [] 100 in
  fst (getCameraStatus camera newGoProService)
    = Returned (Success Camera.emptyModeStatus) /\
  mode Camera.emptyModeStatus <> None /\
  fst (getCurrentMode camera newGoProService)
    = Returned (Failure {| type := invalid_response;
                           message := "Camera mode not available";
                           details := Some "Camera status response missing mode information";
                           timestamp := 1700000000000 |}).
Proof. cbv zeta. split; [reflexivity|]. split; [discriminate | reflexivity]. Qed.

Lemma status_field_reads_witness :
  (exists r, fst (getBatteryLevel (Camera.serve Camera.bareStatus [] 100) newGoProService)
             = Returned r /\ failsWith r invalid_response) /\
  (exists r, fst (getCurrentMode (Camera.serve Camera.emptyModeStatus [] 100) newGoProService)
             = Returned r /\ failsWith r invalid_response) /\
  fst (isRecording (Camera.serve Camera.bareStatus [] 100) newGoProService)
    = Returned (Success false) /\
  fst (isRecording (Camera.serve Camera.fullStatus [] 100) newGoProService)
    = Returned (Success true).
Proof.
  split; [|split; [|split]].
  - destruct (status_field_reads (Camera.serve Camera.bareStatus [] 100)
                newGoProService newGoProService Camera.bareStatus eq_refl)
      as [[r [Hr [Hf _]]] _].
    exists r. split; [exact Hr | apply Hf; reflexivity].
  - destruct (status_field_reads (Camera.serve Camera.emptyModeStatus [] 100)
                newGoProService newGoProService Camera.emptyModeStatus eq_refl)
      as [_ [[r [Hr [Hf _]]] _]].
    exists r. split; [exact Hr | apply Hf; right; reflexivity].
  - destruct (status_field_reads (Camera.serve Camera.bareStatus [] 100)
                newGoProService newGoProService Camera.bareStatus eq_refl)
      as [_ [_ [_ Hn]]].
    apply Hn. reflexivity.
  - destruct (status_field_reads (Camera.serve Camera.fullStatus [] 100)
                newGoProService newGoProService Camera.fullStatus eq_refl)
      as [_ [_ [Hrec _]]].
    exact Hrec.
Defined.

(** ** Runs of the samples *)

Lemma getMediaFiles_filters_witness :
  getMediaFiles (Camera.serve Camera.fullStatus Camera.files 100) Camera.onlyVideos
    newGoProService
  = (Returned (Success [Camera.file "A.360" "video"; Camera.file "B.MP4" "VIDEO"]),
     newGoProService) /\
  getMediaFiles (Camera.serve Camera.fullStatus Camera.files 100) Camera.only360
    newGoProService
  = (Returned (Success [Camera.file "A.360" "video"; Camera.file "C.360" "photo"]),
     newGoProService).
Proof.
  split.
  - exact (proj1 (getMediaFiles_filters (Camera.serve Camera.fullStatus Camera.files 100)
                    Camera.onlyVideos newGoProService newGoProService Camera.files eq_refl)).
  - exact (proj1 (getMediaFiles_filters (Camera.serve Camera.fullStatus Camera.files 100)
                    Camera.only360 newGoProService newGoProService Camera.files eq_refl)).
Defined.

Lemma Sample_hero11_matches : MatchesGoProPattern Sample.hero11.
Proof.
  exists "gopro". split; [now left|]. left. exists "GoPro Hero11".
  split; [reflexivity|]. exists EmptyString, " hero11". reflexivity.
Defined.

Lemma Sample_speaker_no_match : ~ MatchesGoProPattern Sample.speaker.
Proof. intros H. apply isGoProDevice_iff in H. discriminate H. Defined.

Lemma isGoProDevice_classifies_witness :
  isGoProDevice Sample.hero11 = true /\
  isGoProDevice Sample.speaker = false /\
  isGoProDevice Sample.nameless = false.
Proof.
  split; [|split].
  - exact (proj1 (isGoProDevice_classifies Sample.hero11) Sample_hero11_matches).
  - exact (proj1 (proj2 (isGoProDevice_classifies Sample.speaker)) Sample_speaker_no_match).
  - exact (proj2 (proj2 (isGoProDevice_classifies Sample.nameless)) eq_refl eq_refl).
Defined.

(** * Further properties of the Bluetooth service *)

(** ** The support check *)

(** X1. [checkBluetoothSupport] does not throw and does not touch the service.
    It answers [true] exactly for a powered-on adapter, it answers at all
    exactly when the adapter is none of unsupported, powered off and
    unauthorized (so [false], not a failure, for an adapter that is
    resetting or in an unknown state), and it fails with
    [bluetooth_not_supported], [bluetooth_permission_denied] or, when the
    state cannot be read, [unknown]. *)
Theorem checkBluetoothSupport_outcomes (env : BleEnv) (w : GoProBluetoothService) :
  exists r,
    checkBluetoothSupport env w = (Returned r, w) /\
    (r = Success true <-> manager_state env = Returned PoweredOn) /\
    (success r = true <-> supportCheckPasses env) /\
    (failsWith r bluetooth_not_supported <-> manager_state env = Returned Unsupported) /\
    (failsWith r bluetooth_permission_denied <->
       manager_state env = Returned PoweredOff \/
       manager_state env = Returned Unauthorized) /\
    (failsWith r unknown <-> exists e, manager_state env = Thrown e).
Proof.
  unfold checkBluetoothSupport, supportCheckPasses, failsWith. async.
  destruct (manager_state env) as [[]|e]; simpl; eexists; (split; [reflexivity|]);
    repeat split; intros; simpl in *;
    repeat match goal with
    | H : exists _, _ |- _ => destruct H
    | H : _ /\ _ |- _ => destruct H
    | H : _ \/ _ |- _ => destruct H
    | H : Failure _ = Failure _ |- _ => injection H as <-; simpl in *
    end;
    try discriminate; try congruence;
    try (eexists; split; reflexivity);
    try (eexists; (split; [reflexivity|]); (split; [discriminate|]); split; discriminate);
    try (now left); try (now right); try (eexists; reflexivity).
Qed.

(** ** Scanning *)

(** X2. When the native side refuses to start the scan, [startScanning] fails
    with [unknown] and the flag is down again, but the devices discovered
    before are gone all the same; no timer is armed. *)
Theorem startScanning_native_failure (env : BleEnv) (w : GoProBluetoothService)
    (e : JsError) :
  isScanning w = false ->
  supportCheckPasses env ->
  manager_startDeviceScan env GOPRO_CONFIG.BLE_SERVICES.values = Thrown e ->
  let run := startScanning env w in
  (exists err, fst run = Returned (Failure err) /\
               type err = unknown /\ details err = Some (err_message e)) /\
  isScanning (snd run) = false /\
  discoveredDevices (snd run) = ∅ /\
  deviceScan (snd run) = deviceScan w /\
  timers (snd run) = timers w.
Proof.
  intros H Hp He run. subst run. rewrite (startScanning_idle _ _ H Hp), He.
  split; [eexists; repeat split|]; repeat split.
Qed.

Lemma onDeviceScanned_gopro d w :
  isGoProDevice d = true ->
  onDeviceScanned None (Some d) w
  = set_discoveredDevices (<[id d := scanEntry d]> (discoveredDevices w)) w.
Proof. intros H. unfold onDeviceScanned. now rewrite H. Qed.

(** X3. The scan callback records a recognised camera under its identifier, and
    only that: the other entries stay, a second report of the same camera
    replaces the first and does not add one, a device that is not a camera
    changes nothing, and a report with an error changes nothing even when
    it comes with a device. *)
Theorem onDeviceScanned_records (d : Device) (w : GoProBluetoothService) :
  (isGoProDevice d = true ->
     let w' := onDeviceScanned None (Some d) w in
     discoveredDevices w' !! id d = Some (scanEntry d) /\
     (forall k, k <> id d -> discoveredDevices w' !! k = discoveredDevices w !! k) /\
     In (scanEntry d) (getDiscoveredDevices w') /\
     onDeviceScanned None (Some d) w' = w' /\
     (is_Some (discoveredDevices w !! id d) ->
        length (getDiscoveredDevices w') = length (getDiscoveredDevices w))) /\
  (isGoProDevice d = false -> onDeviceScanned None (Some d) w = w) /\
  (forall e scanned, onDeviceScanned (Some e) scanned w = w) /\
  onDeviceScanned None None w = w.
Proof.
  split; [|split; [|split]]; try reflexivity.
  - intros H w'. subst w'. rewrite !(onDeviceScanned_gopro _ _ H).
    split; [apply lookup_insert_eq|]. split; [|split; [|split]].
    + intros k Hk. simpl. now apply lookup_insert_ne.
    + unfold getDiscoveredDevices. simpl. apply list_elem_of_In.
      apply list_elem_of_fmap. exists (id d, scanEntry d). split; [reflexivity|].
      apply elem_of_map_to_list. apply lookup_insert_eq.
    + unfold set_discoveredDevices. simpl. now rewrite insert_insert_eq.
    + intros [g Hg]. unfold getDiscoveredDevices. simpl.
      rewrite !length_fmap, !length_map_to_list.
      rewrite <- (insert_delete_id (discoveredDevices w) (id d) g Hg) at 2.
      rewrite <- (insert_delete_eq (discoveredDevices w)).
      rewrite !map_size_insert_None by apply lookup_delete_eq. reflexivity.
  - intros H. unfold onDeviceScanned. now rewrite H.
Qed.

(** ** What every run of the service keeps *)

(** The fields that [connectToDevice] never writes. *)
Lemma connectToDevice_frame env deviceId w :
  let w' := snd (connectToDevice env deviceId w) in
  isScanning w' = isScanning w /\ discoveredDevices w' = discoveredDevices w /\
  deviceScan w' = deviceScan w /\ timers w' = timers w.
Proof.
  cbv zeta. destruct (discoveredDevices w !! deviceId) as [g|] eqn:H.
  - destruct (device_connect env (device g)) as [d|e] eqn:Hd.
    + rewrite (connectToDevice_connected _ _ _ _ _ H Hd).
      destruct (device_discoverAllServicesAndCharacteristics env d); repeat split.
    + rewrite (connectToDevice_rejected _ _ _ _ _ H Hd). repeat split.
  - rewrite (connectToDevice_unknown _ _ _ H). repeat split.
Qed.

(** The fields that [disconnect] never writes. *)
Lemma disconnect_frame env w :
  let w' := snd (disconnect env w) in
  isScanning w' = isScanning w /\ discoveredDevices w' = discoveredDevices w /\
  deviceScan w' = deviceScan w /\ timers w' = timers w.
Proof.
  cbv zeta. destruct (connectedDevice w) as [g|] eqn:H.
  - destruct (device_cancelConnection env (device g)) as [d|e] eqn:Hd.
    + rewrite (disconnect_cancelled _ _ _ _ H Hd). repeat split.
    + rewrite (disconnect_rejected _ _ _ _ H Hd). repeat split.
  - rewrite (disconnect_idle _ _ H). repeat split.
Qed.

(** An invariant of every step is an invariant of every run. *)
Lemma steps_invariant (P : GoProBluetoothService -> Prop) :
  (forall env a w, P w -> P (step env a w)) ->
  forall trace w, P w -> P (steps trace w).
Proof.
  intros Hstep trace. induction trace as [|[env a] trace IH]; intros w H; [exact H|].
  apply IH. now apply Hstep.
Qed.

(** One step leaves the directory alone, empties it, or records a camera. *)
Lemma step_directory env a w :
  discoveredDevices (step env a w) = discoveredDevices w \/
  discoveredDevices (step env a w) = ∅ \/
  exists d, isGoProDevice d = true /\
    discoveredDevices (step env a w) = <[id d := scanEntry d]> (discoveredDevices w).
Proof.
  destruct a; simpl.
  - left. unfold onStateChange. now destruct (decide _).
  - destruct error as [e|]; [now left|]. destruct scanned as [d|]; [|now left].
    destruct (isGoProDevice d) eqn:Hd.
    + right. right. exists d. split; [exact Hd|].
      now rewrite (onDeviceScanned_gopro _ _ Hd).
    + left. unfold onDeviceScanned. now rewrite Hd.
  - left. unfold timerFired. destruct (timers w); [reflexivity|].
    unfold stopScanning. simpl. now destruct (isScanning w).
  - destruct (startScanning_directory env w) as [H|[_ H]]; [now left | right; now left].
  - left. unfold stopScanning. now destruct (isScanning w).
  - left. apply connectToDevice_frame.
  - left. apply disconnect_frame.
  - left. now rewrite enableWiFi_state.
  - left. now rewrite getWiFiCredentials_state.
Qed.

Lemma step_DirectoryOk env a w : DirectoryOk w -> DirectoryOk (step env a w).
Proof.
  intros Hw k g. destruct (step_directory env a w) as [->|[->|[d [Hd ->]]]].
  - apply Hw.
  - rewrite lookup_empty. discriminate.
  - destruct (decide (id d = k)) as [<-|Hk].
    + rewrite lookup_insert_eq. intros [= <-]. repeat split. exact Hd.
    + rewrite lookup_insert_ne by exact Hk. apply Hw.
Qed.

(** X4. Whatever callbacks and methods have run on a fresh service, with
    whatever answers of the native side: every entry of the directory sits
    under the identifier of its own device, that device is a recognised
    camera, and the entry is the one the scan callback builds (flag
    [isGoPro] set, no services, no characteristics). *)
Theorem directory_holds_only_scanned_cameras (trace : list (BleEnv * Action)) :
  let w := steps trace newBluetoothService in
  DirectoryOk w /\
  (forall g, In g (getDiscoveredDevices w) ->
     isGoPro g = true /\ isGoProDevice (device g) = true /\
     discoveredDevices w !! id (device g) = Some g /\
     services g = None /\ characteristics g = None).
Proof.
  cbv zeta.
  assert (H : DirectoryOk (steps trace newBluetoothService)).
  { apply steps_invariant; [apply step_DirectoryOk|].
    intros k g. simpl. rewrite lookup_empty. discriminate. }
  split; [exact H|]. intros g Hg. unfold getDiscoveredDevices in Hg.
  apply list_elem_of_In, list_elem_of_fmap in Hg. destruct Hg as [[k g'] [-> Hg]].
  apply elem_of_map_to_list in Hg. simpl. destruct (H k g' Hg) as [Hs [Hk Hd]].
  rewrite Hk. repeat split; try exact Hd; try exact Hg; rewrite Hs; reflexivity.
Qed.

Lemma step_ScanFlagOk env a w : ScanFlagOk w -> ScanFlagOk (step env a w).
Proof.
  unfold ScanFlagOk. intros Hw. destruct a; simpl.
  - unfold onStateChange. destruct (decide _); exact Hw.
  - unfold onDeviceScanned. destruct error; [exact Hw|].
    destruct scanned as [d|]; [|exact Hw]. destruct (isGoProDevice d); exact Hw.
  - unfold timerFired. destruct (timers w); [exact Hw|].
    unfold stopScanning. simpl. destruct (isScanning w) eqn:E; simpl.
    + split; [discriminate | congruence].
    + try rewrite E. exact Hw.
  - destruct (isScanning w) eqn:E.
    + rewrite (startScanning_running _ _ E). simpl. rewrite E. exact Hw.
    + destruct (decide (supportCheckPasses env)) as [Hp|Hp].
      * rewrite (startScanning_idle _ _ E Hp).
        destruct (manager_startDeviceScan env _); simpl.
        -- split; [discriminate | reflexivity].
        -- split; [discriminate|]. intros H. apply Hw in H. congruence.
      * destruct (startScanning_unsupported env w Hp) as [e [_ ->]]. simpl.
        try rewrite E. exact Hw.
  - unfold stopScanning. destruct (isScanning w) eqn:E; simpl.
    + split; [discriminate | congruence].
    + try rewrite E. exact Hw.
  - destruct (connectToDevice_frame env deviceId w) as [-> [_ [-> _]]]. exact Hw.
  - destruct (disconnect_frame env w) as [-> [_ [-> _]]]. exact Hw.
  - now rewrite enableWiFi_state.
  - now rewrite getWiFiCredentials_state.
Qed.

(** X5. In every run of a fresh service the flag [isScanning] is up exactly
    while the native side has a device scan running. *)
Theorem scan_flag_follows_native_scan (trace : list (BleEnv * Action)) :
  let w := steps trace newBluetoothService in
  (isCurrentlyScanning w = true <-> deviceScan w <> None) /\
  (isCurrentlyScanning w = true ->
     deviceScan w = Some GOPRO_CONFIG.BLE_SERVICES.values).
Proof.
  cbv zeta. unfold isCurrentlyScanning.
  apply (steps_invariant
           (fun w => (isScanning w = true <-> deviceScan w <> None) /\
                     (isScanning w = true ->
                      deviceScan w = Some GOPRO_CONFIG.BLE_SERVICES.values))).
  - intros env a w [Hw Hv]. split; [now apply step_ScanFlagOk|].
    destruct a; simpl.
    + unfold onStateChange. destruct (decide _); exact Hv.
    + unfold onDeviceScanned. destruct error; [exact Hv|].
      destruct scanned as [d|]; [|exact Hv]. destruct (isGoProDevice d); exact Hv.
    + unfold timerFired. destruct (timers w); [exact Hv|].
      unfold stopScanning. simpl. destruct (isScanning w) eqn:E; simpl;
        [discriminate | try rewrite E; discriminate].
    + destruct (isScanning w) eqn:E.
      * rewrite (startScanning_running _ _ E). simpl. rewrite E. exact Hv.
      * destruct (decide (supportCheckPasses env)) as [Hp|Hp].
        -- rewrite (startScanning_idle _ _ E Hp).
           destruct (manager_startDeviceScan env _); simpl; [reflexivity | discriminate].
        -- destruct (startScanning_unsupported env w Hp) as [e [_ ->]]. simpl.
           try rewrite E. discriminate.
    + unfold stopScanning. destruct (isScanning w) eqn:E; simpl;
        [discriminate | try rewrite E; discriminate].
    + destruct (connectToDevice_frame env deviceId w) as [-> [_ [-> _]]]. exact Hv.
    + destruct (disconnect_frame env w) as [-> [_ [-> _]]]. exact Hv.
    + now rewrite enableWiFi_state.
    + now rewrite getWiFiCredentials_state.
  - simpl. split; [split; [discriminate | congruence] | discriminate].
Qed.

Lemma step_StatusOk env a w : StatusOk w -> StatusOk (step env a w).
Proof.
  unfold StatusOk. intros [Hs Hc]. destruct a; simpl.
  - unfold onStateChange. destruct (decide _); [|now split].
    simpl. split; [now left | discriminate].
  - unfold onDeviceScanned. destruct error; [now split|].
    destruct scanned as [d|]; [|now split]. destruct (isGoProDevice d); now split.
  - unfold timerFired. destruct (timers w); [now split|].
    unfold stopScanning. simpl. destruct (isScanning w); now split.
  - rewrite startScanning_connectionStatus, startScanning_connectedDevice. now split.
  - unfold stopScanning. destruct (isScanning w); now split.
  - destruct (discoveredDevices w !! deviceId) as [g|] eqn:H.
    + destruct (device_connect env (device g)) as [d|e] eqn:Hd.
      * rewrite (connectToDevice_connected _ _ _ _ _ H Hd).
        destruct (device_discoverAllServicesAndCharacteristics env d); simpl.
        -- split; [now left | discriminate].
        -- split; [now right | discriminate].
      * rewrite (connectToDevice_rejected _ _ _ _ _ H Hd). simpl.
        split; [now left | discriminate].
    + rewrite (connectToDevice_unknown _ _ _ H). now split.
  - destruct (connectedDevice w) as [g|] eqn:H.
    + destruct (device_cancelConnection env (device g)) as [d|e] eqn:Hd.
      * rewrite (disconnect_cancelled _ _ _ _ H Hd). simpl.
        split; [now left | discriminate].
      * rewrite (disconnect_rejected _ _ _ _ H Hd). simpl. rewrite H. now split.
    + rewrite (disconnect_idle _ _ H). simpl. rewrite H. now split.
  - rewrite enableWiFi_state. now split.
  - rewrite getWiFiCredentials_state. now split.
Qed.

(** X6. In every run of a fresh service, between two actions: the status is
    [disconnected] or [bluetooth_connected] (the service itself never sets
    a WiFi status, and [bluetooth_pairing] only lasts while a connect is
    under way); with status [bluetooth_connected] a Connected Device is
    stored, so [isConnected] says exactly that the status is
    [bluetooth_connected]. *)
Theorem status_between_actions (trace : list (BleEnv * Action)) :
  let w := steps trace newBluetoothService in
  (getConnectionStatus w = disconnected \/ getConnectionStatus w = bluetooth_connected) /\
  (getConnectionStatus w = bluetooth_connected -> getConnectedDevice w <> None) /\
  (isConnected w = true <-> getConnectionStatus w = bluetooth_connected).
Proof.
  cbv zeta. unfold getConnectionStatus, getConnectedDevice.
  assert (H : StatusOk (steps trace newBluetoothService)).
  { apply steps_invariant; [apply step_StatusOk|].
    split; [now left | discriminate]. }
  destruct H as [Hs Hc]. split; [exact Hs|]. split; [exact Hc|].
  unfold isConnected. rewrite andb_true_iff, bool_decide_eq_true. split.
  - now intros [H _].
  - intros H. split; [exact H|]. specialize (Hc H).
    now destruct (connectedDevice _).
Qed.

(** ** Stopping a scan, and the timer that nobody cancels *)

(** X7. [stopScanning] may be called at any time and twice in a row: the second
    call changes nothing, a call without a running scan changes nothing.
    It clears the flag and the native scan, and nothing else: the directory
    and the connection stay, and the timer that [startScanning] armed stays
    pending. *)
Theorem stopScanning_idempotent (w : GoProBluetoothService) :
  stopScanning (stopScanning w) = stopScanning w /\
  isScanning (stopScanning w) = false /\
  (isScanning w = false -> stopScanning w = w) /\
  discoveredDevices (stopScanning w) = discoveredDevices w /\
  connectedDevice (stopScanning w) = connectedDevice w /\
  connectionStatus (stopScanning w) = connectionStatus w /\
  timers (stopScanning w) = timers w.
Proof.
  unfold stopScanning. destruct (isScanning w) eqn:E; simpl; rewrite ?E;
    repeat split; try reflexivity; discriminate.
Qed.

(** X8. A scan that is started while the timer of an earlier scan is still
    pending does not get its 10 seconds: when that earlier timer fires it
    stops the new scan, and the timer of the new scan remains. *)
Theorem stale_timer_stops_new_scan (env : BleEnv) (w : GoProBluetoothService)
    (t : N) (rest : list N) :
  isScanning w = false ->
  timers w = t :: rest ->
  supportCheckPasses env ->
  manager_startDeviceScan env GOPRO_CONFIG.BLE_SERVICES.values = Returned tt ->
  let started := snd (startScanning env w) in
  isScanning started = true /\
  isScanning (timerFired started) = false /\
  deviceScan (timerFired started) = None /\
  timers (timerFired started) = rest ++ [10000%N].
Proof.
  intros H Ht Hp Hs started. subst started.
  rewrite (startScanning_fresh _ _ H Hp Hs). unfold timerFired. simpl.
  rewrite Ht. simpl. repeat split.
Qed.

Lemma stale_timer_stops_new_scan_witness :
  let stopped := stopScanning Sample.scanning in
  let started := snd (startScanning Sample.healthy stopped) in
  isScanning started = true /\
  isScanning (timerFired started) = false /\
  timers (timerFired started) = [10000%N].
Proof.
  cbv zeta.
  destruct (stale_timer_stops_new_scan Sample.healthy (stopScanning Sample.scanning)
              10000%N [] eq_refl eq_refl Sample_healthy_passes eq_refl)
    as [H1 [H2 [_ H3]]].
  split; [exact H1|]. split; [exact H2 | exact H3].
Defined.

(** ** Connecting, and what later calls find *)

(** X9. A connect that succeeded, followed by a disconnect that the transport
    accepts, brings the service back: in between [isConnected] is true and
    the device that the connect returned is the Connected Device; afterwards
    there is no Connected Device, the status is [disconnected], and the
    directory, the scan and the timers are as before the connect. *)
Theorem connect_then_disconnect (env env' : BleEnv) (deviceId : string)
    (w : GoProBluetoothService) (data : GoProBluetoothDevice) (d' : Device) :
  fst (connectToDevice env deviceId w) = Returned (Success data) ->
  device_cancelConnection env' (device data) = Returned d' ->
  let w1 := snd (connectToDevice env deviceId w) in
  let w2 := snd (disconnect env' w1) in
  isConnected w1 = true /\
  getConnectedDevice w1 = Some data /\
  fst (disconnect env' w1) = Returned (Success tt) /\
  w2 = set_connectionStatus disconnected (set_connectedDevice None w) /\
  isConnected w2 = false.
Proof.
  intros Hr Hc w1 w2. subst w1 w2.
  destruct (connectToDevice_cases env deviceId w)
    as [[err [E _]]|[[err [E _]]|[data' [E _]]]]; rewrite E in *; simpl in Hr;
    try discriminate.
  injection Hr as ->. simpl.
  split; [reflexivity|]. split; [reflexivity|].
  erewrite disconnect_cancelled; [| reflexivity | exact Hc].
  repeat split.
Qed.

Lemma connect_then_disconnect_witness :
  isConnected (snd (connectToDevice Sample.discoveryFails "D1" Sample.discovered)) = true /\
  snd (disconnect Sample.healthy
         (snd (connectToDevice Sample.discoveryFails "D1" Sample.discovered)))
  = Sample.discovered.
Proof.
  destruct (connect_then_disconnect Sample.discoveryFails Sample.healthy "D1"
              Sample.discovered Sample.connectedHero11 Sample.hero11 eq_refl eq_refl)
    as [H1 [_ [_ [H _]]]].
  split; [exact H1 | exact H].
Defined.

(** X10. When the transport connect succeeds and the enumeration of services is
    rejected, [connectToDevice] reports success, and the failure shows up
    later: [enableWiFi] and [getWiFiCredentials] on that connection both
    fail with [connection_failed], whatever the native side answers then. *)
Theorem swallowed_discovery_fails_later (env env' : BleEnv) (deviceId : string)
    (w : GoProBluetoothService) (g : GoProBluetoothDevice) (d : Device) (e : JsError) :
  discoveredDevices w !! deviceId = Some g ->
  device_connect env (device g) = Returned d ->
  device_discoverAllServicesAndCharacteristics env d = Thrown e ->
  let run := connectToDevice env deviceId w in
  success_of run = Some true /\
  (exists r, fst (enableWiFi env' (snd run)) = Returned r /\
             failsWith r connection_failed) /\
  (exists r, fst (getWiFiCredentials env' (snd run)) = Returned r /\
             failsWith r connection_failed).
Proof.
  intros H Hd He run. subst run.
  rewrite (connectToDevice_swallowed _ _ _ _ _ _ H Hd He).
  unfold success_of, connectedFrom. simpl.
  split; [reflexivity|]. split.
  - unfold enableWiFi. async. simpl. eexists. split; [reflexivity|].
    eexists. split; reflexivity.
  - unfold getWiFiCredentials. async. simpl. eexists. split; [reflexivity|].
    eexists. split; reflexivity.
Qed.

Lemma swallowed_discovery_fails_later_witness :
  success_of (connectToDevice Sample.discoveryFails "D1" Sample.discovered) = Some true /\
  exists r,
    fst (getWiFiCredentials Sample.healthy
           (snd (connectToDevice Sample.discoveryFails "D1" Sample.discovered)))
    = Returned r /\ failsWith r connection_failed.
Proof.
  destruct (swallowed_discovery_fails_later Sample.discoveryFails Sample.healthy "D1"
              Sample.discovered Sample.hero11Entry Sample.hero11 Sample.busy
              eq_refl eq_refl eq_refl) as [H1 [_ H3]].
  split; [exact H1 | exact H3].
Defined.

Lemma stopScanning_connectedDevice w :
  connectedDevice (stopScanning w) = connectedDevice w.
Proof. unfold stopScanning. now destruct (isScanning w). Qed.

Lemma stopScanning_flag w : isScanning (stopScanning w) = false.
Proof. unfold stopScanning. destruct (isScanning w) eqn:E; [reflexivity | exact E]. Qed.

Lemma stopScanning_frame w :
  discoveredDevices (stopScanning w) = discoveredDevices w /\
  timers (stopScanning w) = timers w /\
  connectionStatus (stopScanning w) = connectionStatus w.
Proof. unfold stopScanning. destruct (isScanning w); repeat split. Qed.

(** ** [enableWiFi] *)

Lemma findByUuid_service_None_iff g pattern :
  findByUuid service_uuid pattern (services g) = None <-> ~ hasService g pattern.
Proof.
  unfold findByUuid, hasService. destruct (services g) as [ss|].
  - rewrite find_None_iff. split.
    + intros H [ss' [x [[= <-] [Hin Hx]]]].
      apply JsStringFacts.includes_iff in Hx. rewrite (H x Hin) in Hx. discriminate.
    + intros H x Hin.
      destruct (JsString.includes (JsString.toLowerCase (service_uuid x)) pattern) eqn:E;
        [|reflexivity].
      destruct H. exists ss, x. split; [reflexivity|]. split; [exact Hin|].
      now apply JsStringFacts.includes_iff.
  - split; [|reflexivity]. intros _ [ss [x [H _]]]. discriminate.
Qed.

(** X11. [enableWiFi] never changes the service. It fails with
    [connection_failed] without a Connected Device, without a WiFi service
    among the services of the device, and without a characteristic for the
    SSID. Otherwise it writes the one byte 1 to the first characteristic
    that matches the SSID pattern, succeeds when the transport acknowledges
    the write, and fails with [connection_failed], wrapping the transport
    message, when it does not. *)
Theorem enableWiFi_outcomes (env : BleEnv) (w : GoProBluetoothService) :
  snd (enableWiFi env w) = w /\
  (connectedDevice w = None ->
     exists r, fst (enableWiFi env w) = Returned r /\ failsWith r connection_failed) /\
  (forall g,
     connectedDevice w = Some g ->
     ~ hasService g GOPRO_CONFIG.BLE_SERVICES.WIFI_SERVICE \/
     ~ hasCharacteristic g GOPRO_CONFIG.BLE_CHARACTERISTICS.WIFI_SSID ->
     exists r, fst (enableWiFi env w) = Returned r /\ failsWith r connection_failed) /\
  (forall g c,
     connectedDevice w = Some g ->
     hasService g GOPRO_CONFIG.BLE_SERVICES.WIFI_SERVICE ->
     findByUuid uuid GOPRO_CONFIG.BLE_CHARACTERISTICS.WIFI_SSID (characteristics g) = Some c ->
     (forall c', characteristic_writeWithResponse env c [1%N] = Returned c' ->
                 fst (enableWiFi env w) = Returned (Success tt)) /\
     (forall e, characteristic_writeWithResponse env c [1%N] = Thrown e ->
                exists err, fst (enableWiFi env w) = Returned (Failure err) /\
                            type err = connection_failed /\
                            details err = Some (err_message e))).
Proof.
  split; [apply enableWiFi_state|]. split; [|split].
  - intros H. unfold enableWiFi. async. rewrite H. simpl.
    eexists. split; [reflexivity|]. eexists. split; reflexivity.
  - intros g H Hm. unfold enableWiFi. async. rewrite H.
    destruct (findByUuid service_uuid _ _) as [x|] eqn:Es.
    + destruct Hm as [Hm|Hm].
      * apply findByUuid_service_None_iff in Hm. congruence.
      * apply findByUuid_None_iff in Hm. rewrite Hm. simpl.
        eexists. split; [reflexivity|]. eexists. split; reflexivity.
    + simpl. eexists. split; [reflexivity|]. eexists. split; reflexivity.
  - intros g c H Hs Hc. unfold enableWiFi. async. rewrite H.
    destruct (findByUuid service_uuid _ _) as [x|] eqn:Es;
      [|apply findByUuid_service_None_iff in Es; contradiction].
    rewrite Hc. cbv zeta. split.
    + intros c' ->. reflexivity.
    + intros e ->. eexists. repeat split.
Qed.

Lemma Sample_enumerated_has_wifi_service :
  hasService Sample.enumeratedHero11 GOPRO_CONFIG.BLE_SERVICES.WIFI_SERVICE.
Proof.
  exists [Sample.wifiService], Sample.wifiService.
  split; [reflexivity|]. split; [now left|].
  exists "0000", "-0000-1000-8000-00805f9b34fb". reflexivity.
Defined.

Lemma enableWiFi_outcomes_witness :
  fst (enableWiFi Sample.healthy Sample.enumerated) = Returned (Success tt) /\
  (exists r, fst (enableWiFi Sample.healthy Sample.discovered) = Returned r /\
             failsWith r connection_failed).
Proof.
  split.
  - destruct (enableWiFi_outcomes Sample.healthy Sample.enumerated) as [_ [_ [_ H]]].
    destruct (H Sample.enumeratedHero11
                Sample.ssidCharacteristic eq_refl Sample_enumerated_has_wifi_service
                eq_refl) as [Hok _].
    exact (Hok Sample.ssidCharacteristic eq_refl).
  - destruct (enableWiFi_outcomes Sample.healthy Sample.discovered) as [_ [H _]].
    exact (H eq_refl).
Defined.

(** ** No exception leaves the service *)

(** X12. Each asynchronous method of the Bluetooth service resolves to a result,
    whatever the native side does: a transport error never leaves the
    method as an exception. *)
Theorem bluetooth_methods_never_throw (env : BleEnv) (w : GoProBluetoothService)
    (deviceId : string) :
  (exists r, fst (checkBluetoothSupport env w) = Returned r) /\
  (exists r, fst (startScanning env w) = Returned r) /\
  (exists r, fst (connectToDevice env deviceId w) = Returned r) /\
  (exists r, fst (disconnect env w) = Returned r) /\
  (exists r, fst (enableWiFi env w) = Returned r) /\
  (exists r, fst (getWiFiCredentials env w) = Returned r).
Proof.
  repeat split.
  - unfold checkBluetoothSupport. async.
    destruct (manager_state env) as [[]|e]; eexists; reflexivity.
  - unfold startScanning, checkBluetoothSupport. async.
    destruct (manager_state env) as [[]|e]; simpl; try (eexists; reflexivity);
      destruct (isScanning w); try (eexists; reflexivity);
      destruct (manager_startDeviceScan env _); eexists; reflexivity.
  - destruct (connectToDevice_cases env deviceId w)
      as [[err [E _]]|[[err [E _]]|[data [E _]]]]; rewrite E; eexists; reflexivity.
  - destruct (connectedDevice w) as [g|] eqn:H.
    + destruct (device_cancelConnection env (device g)) as [d|e] eqn:Hd.
      * rewrite (disconnect_cancelled _ _ _ _ H Hd). eexists; reflexivity.
      * rewrite (disconnect_rejected _ _ _ _ H Hd). eexists; reflexivity.
    + rewrite (disconnect_idle _ _ H). eexists; reflexivity.
  - unfold enableWiFi. async. destruct (connectedDevice w) as [g|]; [|eexists; reflexivity].
    destruct (findByUuid service_uuid _ _); [|eexists; reflexivity].
    destruct (findByUuid uuid _ _) as [c|]; [|eexists; reflexivity].
    destruct (characteristic_writeWithResponse env c _); eexists; reflexivity.
  - unfold getWiFiCredentials. async.
    destruct (connectedDevice w) as [g|]; [|eexists; reflexivity].
    cbv zeta. destruct (findByUuid uuid _ _) as [c1|]; [|eexists; reflexivity].
    destruct (findByUuid uuid _ _) as [c2|]; [|eexists; reflexivity].
    destruct (characteristic_read env c1); [|eexists; reflexivity].
    destruct (characteristic_read env c2); eexists; reflexivity.
Qed.

(** ** [destroy] *)

(** X13. After [destroy], once the promise of the [disconnect] it started has
    settled: no scan runs; the Connected Device is gone when the transport
    cancelled the connection, and is still stored, with the old status,
    when the transport refused, a failure that nobody sees since the result
    is dropped; the directory and the pending timers are left as they
    were. *)
Theorem destroy_effects (env : BleEnv) (w : GoProBluetoothService) :
  isScanning (destroy env w) = false /\
  discoveredDevices (destroy env w) = discoveredDevices w /\
  timers (destroy env w) = timers w /\
  (connectedDevice w = None -> destroy env w = stopScanning w) /\
  (forall g d,
     connectedDevice w = Some g ->
     device_cancelConnection env (device g) = Returned d ->
     connectedDevice (destroy env w) = None /\
     connectionStatus (destroy env w) = disconnected) /\
  (forall g e,
     connectedDevice w = Some g ->
     device_cancelConnection env (device g) = Thrown e ->
     connectedDevice (destroy env w) = Some g /\
     connectionStatus (destroy env w) = connectionStatus w).
Proof.
  assert (Hc : connectedDevice (stopScanning w) = connectedDevice w)
    by apply stopScanning_connectedDevice.
  unfold destroy. cbv zeta. rewrite Hc.
  destruct (connectedDevice w) as [g|] eqn:H.
  - destruct (disconnect_frame env (stopScanning w)) as [F1 [F2 [_ F4]]].
    rewrite F1, F2, F4. split; [apply stopScanning_flag|].
    split; [apply stopScanning_frame|]. split; [apply stopScanning_frame|].
    split; [discriminate|]. split.
    + intros g' d [= <-] Hd.
      rewrite (disconnect_cancelled env (stopScanning w) g d); [now split | | exact Hd].
      exact Hc.
    + intros g' e [= <-] He.
      rewrite (disconnect_rejected env (stopScanning w) g e); [| | exact He].
      * split; [exact Hc | apply stopScanning_frame].
      * exact Hc.
  - split; [apply stopScanning_flag|].
    split; [apply stopScanning_frame|]. split; [apply stopScanning_frame|].
    split; [reflexivity|]. split; intros; discriminate.
Qed.

Lemma destroy_effects_witness :
  connectedDevice (destroy Sample.healthy Sample.connected) = None /\
  connectedDevice (destroy Sample.cancelFails Sample.connected)
    = connectedDevice Sample.connected /\
  destroy Sample.healthy Sample.scanning = stopScanning Sample.scanning.
Proof.
  split; [|split].
  - destruct (destroy_effects Sample.healthy Sample.connected) as [_ [_ [_ [_ [H _]]]]].
    exact (proj1 (H Sample.connectedHero11 Sample.hero11 eq_refl eq_refl)).
  - destruct (destroy_effects Sample.cancelFails Sample.connected)
      as [_ [_ [_ [_ [_ H]]]]].
    exact (proj1 (H Sample.connectedHero11 Sample.busy eq_refl eq_refl)).
  - destruct (destroy_effects Sample.healthy Sample.scanning) as [_ [_ [_ [H _]]]].
    exact (H eq_refl).
Defined.

(** * Further properties of the HTTP camera client *)

(** ** What a request resolves to *)

Lemma makeRequest_in_time env e options s t :
  latency (fetch env e (getGoProUrl (GOPRO_CONFIG.ENDPOINTS e)) options) = Some t ->
  (t <= timeout s)%N ->
  makeRequest env e options s
  = (match settles (fetch env e (getGoProUrl (GOPRO_CONFIG.ENDPOINTS e)) options) with
     | Returned response =>
       if ok response then
         match json response with
         | Returned data => Returned (Success data)
         | Thrown error =>
           if decide (err_name error = "AbortError") then
             Returned (Failure (httpError env api_timeout "Request timed out"
                                  (Some ("Timeout after " +:+ pretty (timeout s) +:+ "ms"))))
           else
             Returned (Failure (httpError env network_error "Network request failed"
                                  (Some (err_message error))))
         end
       else
         Returned (Failure (httpError env invalid_response
                              ("HTTP " +:+ pretty (http_status response) +:+ ": "
                                 +:+ statusText response)
                              (Some ("Failed to fetch " +:+ GOPRO_CONFIG.ENDPOINTS e))))
     | Thrown error =>
       if decide (err_name error = "AbortError") then
         Returned (Failure (httpError env api_timeout "Request timed out"
                              (Some ("Timeout after " +:+ pretty (timeout s) +:+ "ms"))))
       else
         Returned (Failure (httpError env network_error "Network request failed"
                              (Some (err_message error))))
     end, s).
Proof.
  intros Hl Ht. unfold makeRequest. async. cbv zeta.
  rewrite (awaitFetch_in_time _ _ _ Hl Ht).
  destruct (settles _) as [response|error].
  - destruct (ok response); simpl; [|reflexivity].
    destruct (json response) as [data|error]; [reflexivity|].
    destruct (decide _); reflexivity.
  - destruct (decide _); reflexivity.
Qed.

(** X14. The shared request path, case by case. A request that outlives the
    timeout gives [api_timeout]. An answer in time with a status outside
    2xx gives [invalid_response], with the status in the message. An
    answer 2xx in time gives its parsed body; when the body cannot be
    parsed the error is [network_error], not [invalid_response]. A
    rejection in time gives [network_error] with the message of the
    rejection. No other kind of error comes out, and the fields of the
    client are never changed. *)
Theorem makeRequest_outcomes (env : HttpEnv) (e : GOPRO_CONFIG.Endpoint)
    (options : RequestInit) (s : GoProService) :
  let f := fetch env e (getGoProUrl (GOPRO_CONFIG.ENDPOINTS e)) options in
  let run := makeRequest env e options s in
  snd run = s /\
  (exceedsTimeout f (timeout s) ->
     exists r, fst run = Returned r /\ failsWith r api_timeout) /\
  (forall t response,
     latency f = Some t -> (t <= timeout s)%N -> settles f = Returned response ->
     (ok response = false ->
        exists err, fst run = Returned (Failure err) /\ type err = invalid_response /\
          message err = "HTTP " +:+ pretty (http_status response) +:+ ": "
                          +:+ statusText response) /\
     (forall data, ok response = true -> json response = Returned data ->
        fst run = Returned (Success data)) /\
     (forall error, ok response = true -> json response = Thrown error ->
        err_name error <> "AbortError" ->
        exists err, fst run = Returned (Failure err) /\ type err = network_error /\
          details err = Some (err_message error))) /\
  (forall t error,
     latency f = Some t -> (t <= timeout s)%N -> settles f = Thrown error ->
     err_name error <> "AbortError" ->
     exists err, fst run = Returned (Failure err) /\ type err = network_error /\
       details err = Some (err_message error)) /\
  (exists r, fst run = Returned r /\
     (success r = true \/ failsWith r api_timeout \/ failsWith r network_error \/
      failsWith r invalid_response)).
Proof.
  cbv zeta. split; [|split; [|split; [|split]]].
  - destruct (makeRequest_returns env e options s) as [r ->]. reflexivity.
  - intros H. rewrite (makeRequest_timeout _ _ _ _ H).
    eexists. split; [reflexivity|]. eexists. split; reflexivity.
  - intros t response Hl Ht Hs. rewrite (makeRequest_in_time _ _ _ _ _ Hl Ht), Hs.
    split; [|split].
    + intros ->. eexists. repeat split.
    + intros data -> ->. reflexivity.
    + intros error -> -> Hn. simpl. destruct (decide _); [contradiction|].
      eexists. repeat split.
  - intros t error Hl Ht Hs Hn. rewrite (makeRequest_in_time _ _ _ _ _ Hl Ht), Hs. simpl.
    destruct (decide _); [contradiction|]. eexists. repeat split.
  - destruct (decide (exceedsTimeout
                        (fetch env e (getGoProUrl (GOPRO_CONFIG.ENDPOINTS e)) options)
                        (timeout s))) as [H|H].
    + rewrite (makeRequest_timeout _ _ _ _ H). eexists. split; [reflexivity|].
      right. left. eexists. split; reflexivity.
    + unfold exceedsTimeout in H.
      destruct (latency _) as [t|] eqn:Hl; [|destruct H; exact I].
      rewrite (makeRequest_in_time _ _ _ _ t Hl) by lia.
      destruct (settles _) as [response|error].
      * destruct (ok response).
        -- destruct (json response) as [data|error].
           ++ eexists. split; [reflexivity|]. now left.
           ++ destruct (decide _); eexists; (split; [reflexivity|]);
                [right; left | right; right; left]; eexists; split; reflexivity.
        -- eexists. split; [reflexivity|]. right. right. right.
           eexists. split; reflexivity.
      * destruct (decide _); eexists; (split; [reflexivity|]);
          [right; left | right; right; left]; eexists; split; reflexivity.
Qed.

Lemma makeRequest_outcomes_witness :
  fst (getCameraStatus (Camera.serve Camera.fullStatus Camera.files 100) newGoProService)
    = Returned (Success Camera.fullStatus) /\
  exists r,
    fst (getCameraStatus (Camera.serve Camera.fullStatus Camera.files 5001) newGoProService)
      = Returned r /\ failsWith r api_timeout.
Proof.
  split.
  - destruct (makeRequest_outcomes (Camera.serve Camera.fullStatus Camera.files 100)
                GOPRO_CONFIG.STATUS defaultInit newGoProService) as [_ [_ [H _]]].
    destruct (H 100%N _ eq_refl ltac:(vm_compute; discriminate) eq_refl) as [_ [Hok _]].
    exact (Hok Camera.fullStatus eq_refl eq_refl).
  - destruct (makeRequest_outcomes (Camera.serve Camera.fullStatus Camera.files 5001)
                GOPRO_CONFIG.STATUS defaultInit newGoProService) as [_ [H _]].
    apply H. vm_compute. reflexivity.
Defined.

(** ** The two settings of the client *)

(** The result of a request depends on the client only through its timeout. *)
Lemma makeRequest_timeout_only env e options s1 s2 :
  timeout s1 = timeout s2 ->
  fst (makeRequest env e options s1) = fst (makeRequest env e options s2).
Proof.
  intros H. unfold makeRequest. async. cbv zeta. rewrite H.
  destruct (awaitFetch _ _) as [response|error].
  - destruct (ok response); simpl; [|reflexivity].
    destruct (json response) as [data|error]; [reflexivity|].
    destruct (decide _); simpl; rewrite ?H; reflexivity.
  - destruct (decide _); simpl; rewrite ?H; reflexivity.
Qed.

(** X15. [updateBaseUrl] changes the address that the client holds and nothing
    that the client does: every request still goes to the address of the
    configuration file, and resolves to what it resolved to before. *)
Theorem updateBaseUrl_changes_no_request (env : HttpEnv) (newUrl : string)
    (s : GoProService) :
  baseUrl (updateBaseUrl newUrl s) = newUrl /\
  (forall e options,
     fst (makeRequest env e options (updateBaseUrl newUrl s))
     = fst (makeRequest env e options s)) /\
  fst (pingCamera env (updateBaseUrl newUrl s)) = fst (pingCamera env s) /\
  fst (getCameraInfo env (updateBaseUrl newUrl s)) = fst (getCameraInfo env s) /\
  fst (getCameraStatus env (updateBaseUrl newUrl s)) = fst (getCameraStatus env s) /\
  fst (getMediaList env (updateBaseUrl newUrl s)) = fst (getMediaList env s) /\
  fst (startRecording env (updateBaseUrl newUrl s)) = fst (startRecording env s) /\
  fst (stopRecording env (updateBaseUrl newUrl s)) = fst (stopRecording env s).
Proof.
  assert (H : forall e options,
             fst (makeRequest env e options (updateBaseUrl newUrl s))
             = fst (makeRequest env e options s))
    by (intros; now apply makeRequest_timeout_only).
  assert (K : forall e options,
             exists r, makeRequest env e options (updateBaseUrl newUrl s)
                       = (Returned r, updateBaseUrl newUrl s) /\
                       makeRequest env e options s = (Returned r, s)).
  { intros e options.
    destruct (makeRequest_returns env e options (updateBaseUrl newUrl s)) as [r1 H1].
    destruct (makeRequest_returns env e options s) as [r2 H2].
    specialize (H e options). rewrite H1, H2 in H. simpl in H. injection H as ->.
    exists r2. now split. }
  split; [reflexivity|]. split; [exact H|].
  split; [unfold pingCamera; async; destruct (awaitFetch _ _); reflexivity|].
  split; [exact (H GOPRO_CONFIG.INFO defaultInit)|].
  split; [exact (H GOPRO_CONFIG.STATUS defaultInit)|].
  split; [|split].
  - unfold getMediaList, bind.
    destruct (K GOPRO_CONFIG.MEDIA_LIST defaultInit) as [r [-> ->]]. now destruct r.
  - unfold startRecording, bind.
    destruct (K GOPRO_CONFIG.SHUTTER (post GOPRO_CONFIG.SHUTTER_COMMANDS.START))
      as [r [-> ->]]. now destruct r.
  - unfold stopRecording, bind.
    destruct (K GOPRO_CONFIG.SHUTTER (post GOPRO_CONFIG.SHUTTER_COMMANDS.STOP))
      as [r [-> ->]]. now destruct r.
Qed.

(** X16. A longer timeout never spoils a request: whatever a request resolved to,
    other than [api_timeout], it resolves to the same with any longer
    timeout. *)
Theorem longer_timeout_keeps_result (env : HttpEnv) (e : GOPRO_CONFIG.Endpoint)
    (options : RequestInit) (s : GoProService) (longer : N) (r : Result (Payload e)) :
  (timeout s <= longer)%N ->
  fst (makeRequest env e options s) = Returned r ->
  ~ failsWith r api_timeout ->
  fst (makeRequest env e options (updateTimeout longer s)) = Returned r.
Proof.
  intros Hle Hr Hn.
  destruct (decide (exceedsTimeout
                      (fetch env e (getGoProUrl (GOPRO_CONFIG.ENDPOINTS e)) options)
                      (timeout s))) as [H|H].
  - rewrite (makeRequest_timeout _ _ _ _ H) in Hr. simpl in Hr. injection Hr as <-.
    destruct Hn. eexists. split; reflexivity.
  - unfold exceedsTimeout in H.
    destruct (latency _) as [t|] eqn:Hl; [|destruct H; exact I].
    rewrite (makeRequest_in_time _ _ _ _ t Hl) in Hr by lia.
    rewrite (makeRequest_in_time _ _ _ _ t Hl) by (simpl; lia).
    simpl in *. destruct (settles _) as [response|error].
    + destruct (ok response); [|exact Hr].
      destruct (json response) as [data|error]; [exact Hr|].
      destruct (decide _); [|exact Hr].
      injection Hr as <-. destruct Hn. eexists. split; reflexivity.
    + destruct (decide _); [|exact Hr].
      injection Hr as <-. destruct Hn. eexists. split; reflexivity.
Qed.

Lemma longer_timeout_keeps_result_witness :
  fst (getCameraStatus (Camera.serve Camera.fullStatus Camera.files 100)
         (updateTimeout 9000 newGoProService))
  = Returned (Success Camera.fullStatus).
Proof.
  apply (longer_timeout_keeps_result (Camera.serve Camera.fullStatus Camera.files 100)
           GOPRO_CONFIG.STATUS defaultInit newGoProService 9000
           (Success Camera.fullStatus)).
  - vm_compute. discriminate.
  - reflexivity.
  - intros [err [He _]]. discriminate He.
Defined.

(** ** The reachability probe *)

(** X17. [pingCamera], case by case. An answer within 3 seconds is a success
    whose value is [response.ok]: a camera that answers with an error
    status is reported as a successful probe with value [false], never as
    [invalid_response]. A rejection, and an answer that takes more than 3
    seconds, are [network_error]; no other kind of error comes out. The
    timeout configured with [updateTimeout] plays no role. *)
Theorem pingCamera_outcomes (env : HttpEnv) (s : GoProService) :
  let f := fetch env GOPRO_CONFIG.INFO Camera.infoUrl Camera.probe in
  snd (pingCamera env s) = s /\
  (forall t response,
     latency f = Some t -> (t <= 3000)%N -> settles f = Returned response ->
     fst (pingCamera env s) = Returned (Success (ok response))) /\
  (forall t error,
     latency f = Some t -> (t <= 3000)%N -> settles f = Thrown error ->
     exists err, fst (pingCamera env s) = Returned (Failure err) /\
       type err = network_error /\ details err = Some (err_message error)) /\
  (exceedsTimeout f 3000 ->
     exists r, fst (pingCamera env s) = Returned r /\ failsWith r network_error) /\
  (exists r, fst (pingCamera env s) = Returned r /\
     (success r = true \/ failsWith r network_error)) /\
  (forall newTimeout,
     fst (pingCamera env (updateTimeout newTimeout s)) = fst (pingCamera env s)).
Proof.
  cbv zeta. unfold Camera.infoUrl, Camera.probe.
  split; [|split; [|split; [|split; [|split]]]].
  - destruct (pingCamera_returns env s) as [r ->]. reflexivity.
  - intros t response Hl Ht Hs. unfold pingCamera. async.
    rewrite (awaitFetch_in_time _ _ _ Hl Ht), Hs. reflexivity.
  - intros t error Hl Ht Hs. unfold pingCamera. async.
    rewrite (awaitFetch_in_time _ _ _ Hl Ht), Hs. eexists. repeat split.
  - intros H. rewrite (pingCamera_timeout _ _ H).
    eexists. split; [reflexivity|]. eexists. split; reflexivity.
  - unfold pingCamera. async. destruct (awaitFetch _ _) as [response|error].
    + eexists. split; [reflexivity|]. now left.
    + eexists. split; [reflexivity|]. right. eexists. split; reflexivity.
  - intros newTimeout. unfold pingCamera. async.
    destruct (awaitFetch _ _); reflexivity.
Qed.

Lemma pingCamera_outcomes_witness :
  fst (pingCamera (Camera.serve Camera.fullStatus Camera.files 2500)
         (updateTimeout 1000 newGoProService))
  = Returned (Success true).
Proof.
  destruct (pingCamera_outcomes (Camera.serve Camera.fullStatus Camera.files 2500)
              (updateTimeout 1000 newGoProService)) as [_ [H _]].
  exact (H 2500%N _ eq_refl ltac:(vm_compute; discriminate) eq_refl).
Defined.

(** ** Every operation on the shared path *)

(** X18. With a camera that is too slow for the configured timeout on every
    endpoint, every operation of the client that goes through the shared
    request path fails with [api_timeout], the derived reads and the media
    filters included. *)
Theorem slow_camera_times_out_everywhere (env : HttpEnv) (s : GoProService) :
  (forall e options,
     exceedsTimeout (fetch env e (getGoProUrl (GOPRO_CONFIG.ENDPOINTS e)) options)
       (timeout s)) ->
  (exists r, fst (getCameraInfo env s) = Returned r /\ failsWith r api_timeout) /\
  (exists r, fst (getCameraStatus env s) = Returned r /\ failsWith r api_timeout) /\
  (exists r, fst (startRecording env s) = Returned r /\ failsWith r api_timeout) /\
  (exists r, fst (stopRecording env s) = Returned r /\ failsWith r api_timeout) /\
  (forall m, exists r, fst (setCameraMode env m s) = Returned r /\ failsWith r api_timeout) /\
  (exists r, fst (getMediaList env s) = Returned r /\ failsWith r api_timeout) /\
  (forall flt,
     exists r, fst (getMediaFiles env flt s) = Returned r /\ failsWith r api_timeout) /\
  (exists r, fst (getBatteryLevel env s) = Returned r /\ failsWith r api_timeout) /\
  (exists r, fst (isRecording env s) = Returned r /\ failsWith r api_timeout) /\
  (exists r, fst (getCurrentMode env s) = Returned r /\ failsWith r api_timeout).
Proof.
  intros H.
  assert (L : getMediaList env s
              = (Returned (Failure (httpError env api_timeout "Request timed out"
                   (Some ("Timeout after " +:+ pretty (timeout s) +:+ "ms")))), s)).
  { unfold getMediaList, bind. now rewrite (makeRequest_timeout _ _ _ _ (H _ _)). }
  repeat split; intros;
    unfold getCameraInfo, getCameraStatus, startRecording, stopRecording, setCameraMode,
      getBatteryLevel, isRecording, getCurrentMode, getCameraStatus, getMediaFiles, bind;
    rewrite ?L; rewrite ?(makeRequest_timeout _ _ _ _ (H _ _));
    eexists; (split; [reflexivity|]); eexists; split; reflexivity.
Qed.

Lemma slow_camera_times_out_everywhere_witness :
  exists r,
    fst (getBatteryLevel (Camera.serve Camera.fullStatus Camera.files 6000) newGoProService)
      = Returned r /\ failsWith r api_timeout.
Proof.
  assert (H : forall e options,
             exceedsTimeout
               (fetch (Camera.serve Camera.fullStatus Camera.files 6000) e
                  (getGoProUrl (GOPRO_CONFIG.ENDPOINTS e)) options)
               (timeout newGoProService)).
  { intros [] options; vm_compute; reflexivity. }
  destruct (slow_camera_times_out_everywhere
              (Camera.serve Camera.fullStatus Camera.files 6000) newGoProService H)
    as [_ [_ [_ [_ [_ [_ [_ [Hb _]]]]]]]].
  exact Hb.
Defined.

(** X19. No operation of the client throws, and none changes the address or the
    timeout that the client holds. *)
Theorem camera_methods_never_throw (env : HttpEnv) (s : GoProService) :
  (forall e options, exists r, makeRequest env e options s = (Returned r, s)) /\
  (exists r, pingCamera env s = (Returned r, s)) /\
  (exists r, startRecording env s = (Returned r, s)) /\
  (exists r, stopRecording env s = (Returned r, s)) /\
  (forall m, exists r, setCameraMode env m s = (Returned r, s)) /\
  (exists r, getMediaList env s = (Returned r, s)) /\
  (forall flt, exists r, getMediaFiles env flt s = (Returned r, s)) /\
  (exists r, getBatteryLevel env s = (Returned r, s)) /\
  (exists r, isRecording env s = (Returned r, s)) /\
  (exists r, getCurrentMode env s = (Returned r, s)).
Proof.
  assert (L : exists r, getMediaList env s = (Returned r, s)).
  { unfold getMediaList, bind.
    destruct (makeRequest_returns env GOPRO_CONFIG.MEDIA_LIST defaultInit s) as [r ->].
    destruct r; eexists; reflexivity. }
  split; [intros; apply makeRequest_returns|].
  split; [apply pingCamera_returns|].
  split; [|split; [|split; [|split; [exact L|split; [|split; [|split]]]]]].
  - unfold startRecording, bind.
    destruct (makeRequest_returns env GOPRO_CONFIG.SHUTTER
                (post GOPRO_CONFIG.SHUTTER_COMMANDS.START) s) as [r ->].
    destruct r; eexists; reflexivity.
  - unfold stopRecording, bind.
    destruct (makeRequest_returns env GOPRO_CONFIG.SHUTTER
                (post GOPRO_CONFIG.SHUTTER_COMMANDS.STOP) s) as [r ->].
    destruct r; eexists; reflexivity.
  - intros m. unfold setCameraMode, bind.
    destruct (makeRequest_returns env GOPRO_CONFIG.MODE (post m) s) as [r ->].
    destruct r; eexists; reflexivity.
  - intros flt. destruct L as [[files|e] L].
    + rewrite (getMediaFiles_body _ flt _ _ _ L). eexists; reflexivity.
    + rewrite (getMediaFiles_failure _ flt _ _ _ L). eexists; reflexivity.
  - unfold getBatteryLevel, getCameraStatus, bind.
    destruct (makeRequest_returns env GOPRO_CONFIG.STATUS defaultInit s) as [r ->].
    destruct r as [data|e]; [destruct (battery_level data)|]; eexists; reflexivity.
  - unfold isRecording, getCameraStatus, bind.
    destruct (makeRequest_returns env GOPRO_CONFIG.STATUS defaultInit s) as [r ->].
    destruct r; eexists; reflexivity.
  - unfold getCurrentMode, getCameraStatus, bind.
    destruct (makeRequest_returns env GOPRO_CONFIG.STATUS defaultInit s) as [r ->].
    destruct r as [data|e]; [destruct (mode data) as [[|c m]|]|]; eexists; reflexivity.
Qed.

(** ** Media lists *)

(** X20. Without a filter, with the type [all] and with an empty format string,
    [getMediaFiles] returns the media list as [getMediaList] gave it. *)
Theorem getMediaFiles_without_filter (env : HttpEnv) (flt : option MediaFilter)
    (s s' : GoProService) (files : list GoProMediaFile) :
  getMediaList env s = (Returned (Success files), s') ->
  (flt ≫= filter_type = None \/ flt ≫= filter_type = Some all) ->
  (flt ≫= filter_format = None \/ flt ≫= filter_format = Some EmptyString) ->
  getMediaFiles env flt s = (Returned (Success files), s').
Proof.
  intros H Ht Hf. rewrite (getMediaFiles_body _ flt _ _ _ H). do 2 f_equal. f_equal.
  apply filter_true. intros file. unfold keeps.
  destruct Ht as [-> | ->], Hf as [-> | ->]; simpl; try reflexivity;
    apply JsStringFacts.includes_empty_pattern.
Qed.

Lemma getMediaFiles_without_filter_witness :
  getMediaFiles (Camera.serve Camera.fullStatus Camera.files 100)
    (Some {| filter_type := Some all; filter_format := Some EmptyString |}) newGoProService
  = (Returned (Success Camera.files), newGoProService).
Proof.
  apply (getMediaFiles_without_filter (Camera.serve Camera.fullStatus Camera.files 100)
           _ newGoProService newGoProService Camera.files eq_refl).
  - right. reflexivity.
  - right. reflexivity.
Defined.

(** X21. [getVideoFiles] and [getPhotoFiles] split the media list by the type
    word: the videos are exactly the entries of the list whose type, in
    lower case, is the word video, the photos exactly those whose type is
    the word photo, each in the order of the list; no entry is in both, and
    the entries in neither are exactly those whose type is neither word. *)
Theorem videos_and_photos_are_disjoint (env : HttpEnv) (s s' : GoProService)
    (files : list GoProMediaFile) :
  getMediaList env s = (Returned (Success files), s') ->
  exists videos photos,
    getVideoFiles env s = (Returned (Success videos), s') /\
    getPhotoFiles env s = (Returned (Success photos), s') /\
    (forall file, In file videos <->
       In file files /\ JsString.toLowerCase (media_type file) = "video") /\
    (forall file, In file photos <->
       In file files /\ JsString.toLowerCase (media_type file) = "photo") /\
    videos `sublist_of` files /\ photos `sublist_of` files /\
    (forall file, In file videos -> ~ In file photos) /\
    (length videos + length photos <= length files)%nat /\
    (forall file, In file files ->
       In file videos \/ In file photos \/
       (JsString.toLowerCase (media_type file) <> "video" /\
        JsString.toLowerCase (media_type file) <> "photo")) /\
    (forall file, In file files ->
       (~ In file videos /\ ~ In file photos <->
        JsString.toLowerCase (media_type file) <> "video" /\
        JsString.toLowerCase (media_type file) <> "photo")).
Proof.
  intros H. unfold getVideoFiles, getPhotoFiles.
  rewrite !(getMediaFiles_body _ _ _ _ _ H).
  eexists. eexists. split; [reflexivity|]. split; [reflexivity|].
  unfold keeps, typeCallback. simpl.
  assert (Hv : forall file,
             In file (List.filter
                        (fun file0 => bool_decide
                           (JsString.toLowerCase (media_type file0) = "video") && true)
                        files)
             <-> In file files /\ JsString.toLowerCase (media_type file) = "video").
  { intros file. rewrite filter_In, andb_true_r, bool_decide_eq_true. reflexivity. }
  assert (Hp : forall file,
             In file (List.filter
                        (fun file0 => bool_decide
                           (JsString.toLowerCase (media_type file0) = "photo") && true)
                        files)
             <-> In file files /\ JsString.toLowerCase (media_type file) = "photo").
  { intros file. rewrite filter_In, andb_true_r, bool_decide_eq_true. reflexivity. }
  split; [exact Hv|]. split; [exact Hp|].
  split; [|split; [|split; [|split; [|split]]]].
  - rewrite <- (filter_KeptBy (Some {| filter_type := Some video; filter_format := None |})).
    apply sublist_filter.
  - rewrite <- (filter_KeptBy (Some {| filter_type := Some photo; filter_format := None |})).
    apply sublist_filter.
  - intros file Hiv Hip. apply Hv in Hiv. apply Hp in Hip.
    destruct Hiv as [_ Hiv], Hip as [_ Hip]. congruence.
  - clear H Hv Hp. induction files as [|file files IH]; simpl; [lia|].
    repeat case_bool_decide; simpl; try lia. congruence.
  - intros file Hin.
    destruct (decide (JsString.toLowerCase (media_type file) = "video")) as [Ev|Ev].
    + left. apply Hv. now split.
    + destruct (decide (JsString.toLowerCase (media_type file) = "photo")) as [Ep|Ep].
      * right. left. apply Hp. now split.
      * right. right. now split.
  - intros file Hin. rewrite Hv, Hp. split.
    + intros [Nv Np]. split; intros E; [apply Nv | apply Np]; now split.
    + intros [Nv Np]. split; intros [_ E]; contradiction.
Qed.

Lemma videos_and_photos_are_disjoint_witness :
  exists videos photos,
    getVideoFiles (Camera.serve Camera.fullStatus Camera.files 100) newGoProService
      = (Returned (Success videos), newGoProService) /\
    getPhotoFiles (Camera.serve Camera.fullStatus Camera.files 100) newGoProService
      = (Returned (Success photos), newGoProService) /\
    In (Camera.file "B.MP4" "VIDEO") videos /\
    ~ In (Camera.file "B.MP4" "VIDEO") photos /\
    ~ In (Camera.file "P1.JPG" "photo") videos /\
    (length videos + length photos <= 5)%nat.
Proof.
  destruct (videos_and_photos_are_disjoint
              (Camera.serve Camera.fullStatus Camera.files 100)
              newGoProService newGoProService Camera.files eq_refl)
    as [videos [photos [Hv [Hp [Iv [Ip [_ [_ [_ [Hl _]]]]]]]]]].
  exists videos, photos. split; [exact Hv|]. split; [exact Hp|].
  split; [|split; [|split; [|exact Hl]]].
  - apply Iv. split; [|reflexivity]. right. right. right. now left.
  - intros Hin. apply Ip in Hin. destruct Hin as [_ E]. discriminate E.
  - intros Hin. apply Iv in Hin. destruct Hin as [_ E]. discriminate E.
Defined.

(** * Properties of the handlers of [GoProApp] *)

Lemma app_camera_run {A} (m : Async GoProService A) u w s r :
  m s = (Returned r, s) ->
  GoProApp.camera m
    {| GoProApp.hooks := u; GoProApp.goProBluetoothService := w;
       GoProApp.goProService := s |}
  = (Returned r,
     {| GoProApp.hooks := u; GoProApp.goProBluetoothService := w;
        GoProApp.goProService := s |}).
Proof. intros H. unfold GoProApp.camera. simpl. now rewrite H. Qed.

Lemma app_bluetooth_run {A} (m : Async GoProBluetoothService A) u w s r w' :
  m w = (Returned r, w') ->
  GoProApp.bluetooth m
    {| GoProApp.hooks := u; GoProApp.goProBluetoothService := w;
       GoProApp.goProService := s |}
  = (Returned r,
     {| GoProApp.hooks := u; GoProApp.goProBluetoothService := w';
        GoProApp.goProService := s |}).
Proof. intros H. unfold GoProApp.bluetooth. simpl. now rewrite H. Qed.

Lemma updateCameraStatus_run http u w s :
  GoProApp.updateCameraStatus http
    {| GoProApp.hooks := u; GoProApp.goProBluetoothService := w;
       GoProApp.goProService := s |}
  = (Returned tt,
     {| GoProApp.hooks := afterStatusUpdate http s u;
        GoProApp.goProBluetoothService := w; GoProApp.goProService := s |}).
Proof.
  unfold GoProApp.updateCameraStatus, afterStatusUpdate, getCameraStatus.
  destruct (makeRequest_returns http GOPRO_CONFIG.STATUS defaultInit s) as [r Hr].
  unfold tryCatch. unfold bind at 1.
  rewrite (app_camera_run _ _ _ _ _ Hr), Hr. simpl.
  destruct r as [data|e]; [|reflexivity].
  destruct (recording data) as [[]|]; reflexivity.
Qed.

Lemma getMediaList_returns http s : exists r, getMediaList http s = (Returned r, s).
Proof.
  unfold getMediaList, bind.
  destruct (makeRequest_returns http GOPRO_CONFIG.MEDIA_LIST defaultInit s) as [r ->].
  destruct r; eexists; reflexivity.
Qed.

Lemma updateMediaFiles_run http u w s :
  GoProApp.updateMediaFiles http
    {| GoProApp.hooks := u; GoProApp.goProBluetoothService := w;
       GoProApp.goProService := s |}
  = (Returned tt,
     {| GoProApp.hooks := afterMediaUpdate http s u;
        GoProApp.goProBluetoothService := w; GoProApp.goProService := s |}).
Proof.
  unfold GoProApp.updateMediaFiles, afterMediaUpdate.
  destruct (getMediaList_returns http s) as [r Hr].
  unfold tryCatch. unfold bind at 1.
  rewrite (app_camera_run _ _ _ _ _ Hr), Hr. simpl.
  destruct r as [data|e]; reflexivity.
Qed.

(** X22. The periodic refreshes are lenient: a failed fetch of the status, or of
    the media list, leaves every hook as it was (no error message, no
    change of the connection status, the stale values stay), and the
    handler does not throw. A fetch that succeeds stores its payload; the
    recording flag then follows the camera, [false] when the payload has
    no such field. *)
Theorem refresh_failures_are_silent (http : HttpEnv) (a : GoProApp.App) :
  (forall e,
     fst (getCameraStatus http (GoProApp.goProService a)) = Returned (Failure e) ->
     GoProApp.updateCameraStatus http a = (Returned tt, a)) /\
  (forall e,
     fst (getMediaList http (GoProApp.goProService a)) = Returned (Failure e) ->
     GoProApp.updateMediaFiles http a = (Returned tt, a)) /\
  (forall data,
     fst (getCameraStatus http (GoProApp.goProService a)) = Returned (Success data) ->
     let u := GoProApp.hooks (snd (GoProApp.updateCameraStatus http a)) in
     GoProApp.cameraStatus u = Some data /\
     GoProApp.isRecording u = default false (recording data) /\
     GoProApp.errorMessage u = GoProApp.errorMessage (GoProApp.hooks a)) /\
  (forall files,
     fst (getMediaList http (GoProApp.goProService a)) = Returned (Success files) ->
     GoProApp.mediaFiles (GoProApp.hooks (snd (GoProApp.updateMediaFiles http a))) = files).
Proof.
  destruct a as [u w s]. simpl. repeat split; intros.
  - rewrite updateCameraStatus_run. unfold afterStatusUpdate. now rewrite H.
  - rewrite updateMediaFiles_run. unfold afterMediaUpdate. now rewrite H.
  - rewrite updateCameraStatus_run. unfold afterStatusUpdate. now rewrite H.
  - rewrite updateCameraStatus_run. unfold afterStatusUpdate. now rewrite H.
  - rewrite updateCameraStatus_run. unfold afterStatusUpdate. now rewrite H.
  - rewrite updateMediaFiles_run. unfold afterMediaUpdate. now rewrite H.
Qed.

Lemma connectToGoProWiFi_run http u w s :
  GoProApp.connectToGoProWiFi http
    {| GoProApp.hooks := u; GoProApp.goProBluetoothService := w;
       GoProApp.goProService := s |}
  = (Returned tt,
     {| GoProApp.hooks := afterWiFiConnect http s u;
        GoProApp.goProBluetoothService := w; GoProApp.goProService := s |}).
Proof.
  unfold GoProApp.connectToGoProWiFi, afterWiFiConnect, GoProApp.finally, tryCatch.
  destruct (pingCamera_returns http s) as [p Hp].
  destruct (makeRequest_returns http GOPRO_CONFIG.INFO defaultInit s) as [i Hi].
  unfold bind at 1. unfold GoProApp.set at 1, modify at 1.
  unfold bind at 1. unfold GoProApp.set at 1, modify at 1. simpl GoProApp.hooks.
  unfold bind at 1. rewrite (app_camera_run _ _ _ _ _ Hp), Hp. simpl fst.
  destruct p as [[]|e]; try reflexivity.
  unfold bind at 1. unfold getCameraInfo. rewrite (app_camera_run _ _ _ _ _ Hi), Hi.
  simpl fst. destruct i as [data|e]; [|reflexivity].
  unfold bind at 1. unfold GoProApp.set at 1, modify at 1.
  unfold bind at 1. unfold GoProApp.set at 1, modify at 1. simpl GoProApp.hooks.
  unfold bind at 1. rewrite updateCameraStatus_run, updateMediaFiles_run. reflexivity.
Qed.

Lemma afterStatusUpdate_frame http s u :
  GoProApp.connectionStatus (afterStatusUpdate http s u) = GoProApp.connectionStatus u /\
  GoProApp.cameraInfo (afterStatusUpdate http s u) = GoProApp.cameraInfo u /\
  GoProApp.errorMessage (afterStatusUpdate http s u) = GoProApp.errorMessage u /\
  GoProApp.isLoading (afterStatusUpdate http s u) = GoProApp.isLoading u /\
  GoProApp.connectedBluetoothDevice (afterStatusUpdate http s u)
    = GoProApp.connectedBluetoothDevice u.
Proof.
  unfold afterStatusUpdate.
  destruct (fst (getCameraStatus http s)) as [[data|e]|e]; repeat split.
Qed.

Lemma afterMediaUpdate_frame http s u :
  GoProApp.connectionStatus (afterMediaUpdate http s u) = GoProApp.connectionStatus u /\
  GoProApp.cameraInfo (afterMediaUpdate http s u) = GoProApp.cameraInfo u /\
  GoProApp.errorMessage (afterMediaUpdate http s u) = GoProApp.errorMessage u /\
  GoProApp.isLoading (afterMediaUpdate http s u) = GoProApp.isLoading u /\
  GoProApp.connectedBluetoothDevice (afterMediaUpdate http s u)
    = GoProApp.connectedBluetoothDevice u /\
  GoProApp.isRecording (afterMediaUpdate http s u) = GoProApp.isRecording u /\
  GoProApp.cameraStatus (afterMediaUpdate http s u) = GoProApp.cameraStatus u.
Proof.
  unfold afterMediaUpdate.
  destruct (fst (getMediaList http s)) as [[data|e]|e]; repeat split.
Qed.

(** X23. [connectToGoProWiFi] ends in [wifi_connected] exactly when the probe
    answers [true] and the camera information arrives; the status and media
    fetches that follow cannot undo it. In every other case it ends in
    [disconnected] with an error message. It never throws, it leaves the
    loading flag down, and it does not touch the Bluetooth service. *)
Theorem connectToGoProWiFi_outcome (http : HttpEnv) (a : GoProApp.App) :
  let run := GoProApp.connectToGoProWiFi http a in
  let u := GoProApp.hooks (snd run) in
  let s := GoProApp.goProService a in
  fst run = Returned tt /\
  GoProApp.isLoading u = false /\
  GoProApp.goProBluetoothService (snd run) = GoProApp.goProBluetoothService a /\
  (GoProApp.connectionStatus u = wifi_connected <->
     fst (pingCamera http s) = Returned (Success true) /\
     exists data, fst (getCameraInfo http s) = Returned (Success data)) /\
  (forall data,
     fst (pingCamera http s) = Returned (Success true) ->
     fst (getCameraInfo http s) = Returned (Success data) ->
     GoProApp.cameraInfo u = Some data /\ GoProApp.errorMessage u = None) /\
  (GoProApp.connectionStatus u <> wifi_connected ->
     GoProApp.connectionStatus u = disconnected /\ GoProApp.errorMessage u <> None).
Proof.
  destruct a as [u0 w s]. cbv zeta. rewrite connectToGoProWiFi_run. simpl.
  unfold afterWiFiConnect.
  destruct (pingCamera_returns http s) as [p Hp].
  destruct (makeRequest_returns http GOPRO_CONFIG.INFO defaultInit s) as [i Hi].
  unfold getCameraInfo. rewrite Hp, Hi. simpl fst.
  split; [reflexivity|]. split; [reflexivity|]. split; [reflexivity|].
  destruct p as [[]|e]; [destruct i as [data|e]| |]; simpl.
  - rewrite !(proj1 (afterMediaUpdate_frame _ _ _)),
      !(proj1 (proj2 (afterMediaUpdate_frame _ _ _))),
      !(proj1 (proj2 (proj2 (afterMediaUpdate_frame _ _ _)))),
      !(proj1 (afterStatusUpdate_frame _ _ _)),
      !(proj1 (proj2 (afterStatusUpdate_frame _ _ _))),
      !(proj1 (proj2 (proj2 (afterStatusUpdate_frame _ _ _)))).
    simpl. split; [|split].
    + split; [intros _; split; [reflexivity | now exists data] | reflexivity].
    + intros data' _ [= <-]. split; reflexivity.
    + intros H. now destruct H.
  - split; [|split].
    + split; [discriminate|]. intros [_ [data H]]. discriminate.
    + intros data _ H. discriminate.
    + intros _. split; [reflexivity | discriminate].
  - split; [|split].
    + split; [discriminate|]. intros [H _]. discriminate.
    + intros data H. discriminate.
    + intros _. split; [reflexivity | discriminate].
  - split; [|split].
    + split; [discriminate|]. intros [H _]. discriminate.
    + intros data H. discriminate.
    + intros _. split; [reflexivity | discriminate].
Qed.

Lemma disconnect_returns env w : exists r, fst (disconnect env w) = Returned r.
Proof.
  destruct (connectedDevice w) as [g|] eqn:H.
  - destruct (device_cancelConnection env (device g)) as [d|e] eqn:Hd.
    + rewrite (disconnect_cancelled _ _ _ _ H Hd). eexists; reflexivity.
    + rewrite (disconnect_rejected _ _ _ _ H Hd). eexists; reflexivity.
  - rewrite (disconnect_idle _ _ H). eexists; reflexivity.
Qed.

Lemma enableWiFi_returns env w : exists r, enableWiFi env w = (Returned r, w).
Proof.
  unfold enableWiFi. async. destruct (connectedDevice w) as [g|]; [|eexists; reflexivity].
  destruct (findByUuid service_uuid _ _); [|eexists; reflexivity].
  destruct (findByUuid uuid _ _) as [c|]; [|eexists; reflexivity].
  destruct (characteristic_writeWithResponse env c _); eexists; reflexivity.
Qed.

Lemma getWiFiCredentials_returns env w :
  exists r, getWiFiCredentials env w = (Returned r, w).
Proof.
  unfold getWiFiCredentials. async.
  destruct (connectedDevice w) as [g|]; [|eexists; reflexivity].
  cbv zeta. destruct (findByUuid uuid _ _) as [c1|]; [|eexists; reflexivity].
  destruct (findByUuid uuid _ _) as [c2|]; [|eexists; reflexivity].
  destruct (characteristic_read env c1); [|eexists; reflexivity].
  destruct (characteristic_read env c2); eexists; reflexivity.
Qed.

Lemma connectToDevice_returns env deviceId w :
  exists r, fst (connectToDevice env deviceId w) = Returned r.
Proof.
  destruct (connectToDevice_cases env deviceId w)
    as [[err [E _]]|[[err [E _]]|[data [E _]]]]; rewrite E; eexists; reflexivity.
Qed.

(** X24. [disconnectFromGoPro] resets the hooks whatever [disconnect] returned:
    the result of the service is not looked at. When the transport refuses
    to cancel the connection, the component shows [disconnected] without
    any error message while the service still holds the Connected Device
    with its old status. *)
Theorem disconnectFromGoPro_always_resets (ble : BleEnv) (a : GoProApp.App) :
  let run := GoProApp.disconnectFromGoPro ble a in
  fst run = Returned tt /\
  GoProApp.hooks (snd run) = afterReset (GoProApp.hooks a) /\
  GoProApp.goProBluetoothService (snd run)
    = snd (disconnect ble (GoProApp.goProBluetoothService a)) /\
  GoProApp.goProService (snd run) = GoProApp.goProService a /\
  (forall g e,
     connectedDevice (GoProApp.goProBluetoothService a) = Some g ->
     device_cancelConnection ble (device g) = Thrown e ->
     GoProApp.connectionStatus (GoProApp.hooks (snd run)) = disconnected /\
     GoProApp.errorMessage (GoProApp.hooks (snd run)) = None /\
     connectedDevice (GoProApp.goProBluetoothService (snd run)) = Some g /\
     connectionStatus (GoProApp.goProBluetoothService (snd run))
       = connectionStatus (GoProApp.goProBluetoothService a)).
Proof.
  destruct a as [u w s]. cbv zeta. simpl.
  assert (R : GoProApp.disconnectFromGoPro ble
                {| GoProApp.hooks := u; GoProApp.goProBluetoothService := w;
                   GoProApp.goProService := s |}
              = (Returned tt,
                 {| GoProApp.hooks := afterReset u;
                    GoProApp.goProBluetoothService := snd (disconnect ble w);
                    GoProApp.goProService := s |})).
  { destruct (disconnect_returns ble w) as [r Hr].
    unfold GoProApp.disconnectFromGoPro, tryCatch. unfold bind at 1.
    unfold GoProApp.bluetooth. simpl.
    destruct (disconnect ble w) as [c w'] eqn:E. simpl in Hr. subst c. reflexivity. }
  rewrite R. simpl. repeat split.
  - rewrite (disconnect_rejected _ _ _ _ H H0). exact H.
  - now rewrite (disconnect_rejected _ _ _ _ H H0).
Qed.

Lemma disconnectFromGoPro_always_resets_witness :
  let a := {| GoProApp.hooks :=
                GoProApp.setConnectionStatus wifi_connected GoProApp.initialState;
              GoProApp.goProBluetoothService := Sample.connected;
              GoProApp.goProService := newGoProService |} in
  let run := GoProApp.disconnectFromGoPro Sample.cancelFails a in
  GoProApp.connectionStatus (GoProApp.hooks (snd run)) = disconnected /\
  connectedDevice (GoProApp.goProBluetoothService (snd run))
    = connectedDevice Sample.connected.
Proof.
  cbv zeta.
  destruct (disconnectFromGoPro_always_resets Sample.cancelFails
              {| GoProApp.hooks :=
                   GoProApp.setConnectionStatus wifi_connected GoProApp.initialState;
                 GoProApp.goProBluetoothService := Sample.connected;
                 GoProApp.goProService := newGoProService |})
    as [_ [_ [_ [_ H]]]].
  destruct (H Sample.connectedHero11
              Sample.busy eq_refl eq_refl) as [H1 [_ [H3 _]]].
  split; [exact H1 | exact H3].
Defined.

Lemma enableGoProWiFi_run ble http u w s :
  GoProApp.enableGoProWiFi ble http
    {| GoProApp.hooks := u; GoProApp.goProBluetoothService := w;
       GoProApp.goProService := s |}
  = (Returned tt,
     {| GoProApp.hooks := afterEnableWiFi ble http w s u;
        GoProApp.goProBluetoothService := w; GoProApp.goProService := s |}).
Proof.
  unfold GoProApp.enableGoProWiFi, afterEnableWiFi, tryCatch.
  destruct (enableWiFi_returns ble w) as [r Hr].
  destruct (getWiFiCredentials_returns ble w) as [c Hc].
  unfold bind at 1. rewrite (app_bluetooth_run _ _ _ _ _ _ Hr), Hr. simpl fst.
  destruct r as [[]|e]; [|reflexivity].
  unfold bind at 1. rewrite (app_bluetooth_run _ _ _ _ _ _ Hc), Hc. simpl fst.
  destruct c as [p|e]; [|reflexivity].
  unfold bind at 1. unfold GoProApp.set at 1, modify at 1. simpl GoProApp.hooks.
  cbn [GoProApp.goProBluetoothService GoProApp.goProService].
  now rewrite connectToGoProWiFi_run.
Qed.

Lemma connectToBluetoothDevice_run ble http picked u w s :
  GoProApp.connectToBluetoothDevice ble http picked
    {| GoProApp.hooks := u; GoProApp.goProBluetoothService := w;
       GoProApp.goProService := s |}
  = (Returned tt,
     {| GoProApp.hooks := afterBluetoothConnect ble http (id (device picked)) w s u;
        GoProApp.goProBluetoothService := snd (connectToDevice ble (id (device picked)) w);
        GoProApp.goProService := s |}).
Proof.
  unfold GoProApp.connectToBluetoothDevice, afterBluetoothConnect, GoProApp.finally,
    tryCatch.
  destruct (connectToDevice_returns ble (id (device picked)) w) as [r Hr].
  destruct (connectToDevice ble (id (device picked)) w) as [c w1] eqn:E.
  simpl in Hr. subst c.
  unfold bind at 1. unfold GoProApp.set at 1, modify at 1.
  unfold bind at 1. unfold GoProApp.set at 1, modify at 1. simpl GoProApp.hooks.
  unfold bind at 1. rewrite (app_bluetooth_run _ _ _ _ _ _ E). simpl fst. simpl snd.
  destruct r as [data|e]; [|reflexivity].
  unfold bind at 1. unfold GoProApp.set at 1, modify at 1.
  unfold bind at 1. unfold GoProApp.set at 1, modify at 1. simpl GoProApp.hooks.
  cbn [GoProApp.goProBluetoothService GoProApp.goProService].
  now rewrite enableGoProWiFi_run.
Qed.



(** X25. [connectToBluetoothDevice] never throws and leaves the loading flag
    down. When the Bluetooth connect fails, the message of the error is
    shown and nothing else changes in the hooks. When the connect succeeds
    and then [enableWiFi] or [getWiFiCredentials] fails, the handler stops
    without a word: the component stays in [bluetooth_connected] with the
    device stored and no error message. *)
Theorem connectToBluetoothDevice_stops_quietly (ble : BleEnv) (http : HttpEnv)
    (picked : GoProBluetoothDevice) (a : GoProApp.App) :
  let w := GoProApp.goProBluetoothService a in
  let connect := connectToDevice ble (id (device picked)) w in
  let run := GoProApp.connectToBluetoothDevice ble http picked a in
  let u' := GoProApp.hooks (snd run) in
  fst run = Returned tt /\
  GoProApp.isLoading u' = false /\
  GoProApp.goProBluetoothService (snd run) = snd connect /\
  (forall e,
     fst connect = Returned (Failure e) ->
     u' = GoProApp.setIsLoading false
            (GoProApp.setErrorMessage (Some (message e)) (GoProApp.hooks a))) /\
  (forall data,
     fst connect = Returned (Success data) ->
     (exists e, fst (enableWiFi ble (snd connect)) = Returned (Failure e)) \/
     (exists e, fst (getWiFiCredentials ble (snd connect)) = Returned (Failure e)) ->
     GoProApp.connectionStatus u' = bluetooth_connected /\
     GoProApp.connectedBluetoothDevice u' = Some data /\
     GoProApp.errorMessage u' = None).
Proof.
  destruct a as [u w s]. cbv zeta. rewrite connectToBluetoothDevice_run.
  cbn [fst snd GoProApp.hooks GoProApp.goProBluetoothService].
  unfold afterBluetoothConnect. cbv zeta.
  split; [reflexivity|]. split; [reflexivity|]. split; [reflexivity|]. split.
  - intros e ->. reflexivity.
  - intros data -> Hfail. unfold afterEnableWiFi.
    destruct (enableWiFi_returns ble (snd (connectToDevice ble (id (device picked)) w)))
      as [r Hr].
    destruct (getWiFiCredentials_returns ble
                (snd (connectToDevice ble (id (device picked)) w))) as [c Hc].
    rewrite Hr, Hc in *. simpl fst in *.
    destruct r as [[]|e]; [|repeat split].
    destruct c as [p|e]; [|repeat split].
    destruct Hfail as [[e H]|[e H]]; discriminate.
Qed.

Lemma connectToBluetoothDevice_stops_quietly_witness :
  let a := {| GoProApp.hooks := GoProApp.initialState;
              GoProApp.goProBluetoothService := Sample.discovered;
              GoProApp.goProService := newGoProService |} in
  let run := GoProApp.connectToBluetoothDevice Sample.discoveryFails
               (Camera.serve Camera.fullStatus Camera.files 100) Sample.hero11Entry a in
  GoProApp.connectionStatus (GoProApp.hooks (snd run)) = bluetooth_connected /\
  GoProApp.errorMessage (GoProApp.hooks (snd run)) = None.
Proof.
  cbv zeta.
  destruct (connectToBluetoothDevice_stops_quietly Sample.discoveryFails
              (Camera.serve Camera.fullStatus Camera.files 100) Sample.hero11Entry
              {| GoProApp.hooks := GoProApp.initialState;
                 GoProApp.goProBluetoothService := Sample.discovered;
                 GoProApp.goProService := newGoProService |})
    as [_ [_ [_ [_ H]]]].
  destruct (H _ eq_refl (or_introl (ex_intro _ _ eq_refl))) as [H1 [_ H3]].
  split; [exact H1 | exact H3].
Defined.






Lemma startRecording_returns http s : exists r, startRecording http s = (Returned r, s).
Proof.
  unfold startRecording, bind.
  destruct (makeRequest_returns http GOPRO_CONFIG.SHUTTER
              (post GOPRO_CONFIG.SHUTTER_COMMANDS.START) s) as [r ->].
  destruct r; eexists; reflexivity.
Qed.

Lemma stopRecording_returns http s : exists r, stopRecording http s = (Returned r, s).
Proof.
  unfold stopRecording, bind.
  destruct (makeRequest_returns http GOPRO_CONFIG.SHUTTER
              (post GOPRO_CONFIG.SHUTTER_COMMANDS.STOP) s) as [r ->].
  destruct r; eexists; reflexivity.
Qed.

Lemma app_startRecording_run http u w s :
  GoProApp.startRecording http
    {| GoProApp.hooks := u; GoProApp.goProBluetoothService := w;
       GoProApp.goProService := s |}
  = (Returned tt,
     {| GoProApp.hooks := afterStartRecording http s u;
        GoProApp.goProBluetoothService := w; GoProApp.goProService := s |}).
Proof.
  unfold GoProApp.startRecording, afterStartRecording, GoProApp.finally, tryCatch.
  destruct (startRecording_returns http s) as [r Hr].
  unfold bind at 1. unfold GoProApp.set at 1, modify at 1.
  unfold bind at 1. unfold GoProApp.set at 1, modify at 1. simpl GoProApp.hooks.
  unfold bind at 1. rewrite (app_camera_run _ _ _ _ _ Hr), Hr. simpl fst.
  destruct r as [[]|e]; [|reflexivity].
  unfold bind at 1. unfold GoProApp.set at 1, modify at 1. simpl GoProApp.hooks.
  now rewrite updateCameraStatus_run.
Qed.

Lemma app_stopRecording_run http u w s :
  GoProApp.stopRecording http
    {| GoProApp.hooks := u; GoProApp.goProBluetoothService := w;
       GoProApp.goProService := s |}
  = (Returned tt,
     {| GoProApp.hooks := afterStopRecording http s u;
        GoProApp.goProBluetoothService := w; GoProApp.goProService := s |}).
Proof.
  unfold GoProApp.stopRecording, afterStopRecording, GoProApp.finally, tryCatch.
  destruct (stopRecording_returns http s) as [r Hr].
  unfold bind at 1. unfold GoProApp.set at 1, modify at 1.
  unfold bind at 1. unfold GoProApp.set at 1, modify at 1. simpl GoProApp.hooks.
  unfold bind at 1. rewrite (app_camera_run _ _ _ _ _ Hr), Hr. simpl fst.
  destruct r as [[]|e]; [|reflexivity].
  unfold bind at 1. unfold GoProApp.set at 1, modify at 1. simpl GoProApp.hooks.
  unfold bind at 1. now rewrite updateCameraStatus_run, updateMediaFiles_run.
Qed.

(** X27. The recording handlers. A shutter command that fails shows the message
    of the error and leaves the recording flag as it was. After a shutter
    command that succeeds, the flag is what the status fetch that follows
    says ([false] when the payload has no recording field); only when that
    fetch fails does the flag follow the command, [true] after a start and
    [false] after a stop. Both handlers lower the loading flag and never
    throw. *)
Theorem recording_flag_follows_status (http : HttpEnv) (a : GoProApp.App) :
  let s := GoProApp.goProService a in
  let started := GoProApp.startRecording http a in
  let stopped := GoProApp.stopRecording http a in
  fst started = Returned tt /\ fst stopped = Returned tt /\
  GoProApp.isLoading (GoProApp.hooks (snd started)) = false /\
  GoProApp.isLoading (GoProApp.hooks (snd stopped)) = false /\
  (forall e,
     fst (startRecording http s) = Returned (Failure e) ->
     GoProApp.hooks (snd started)
     = GoProApp.setIsLoading false
         (GoProApp.setErrorMessage (Some (message e)) (GoProApp.hooks a))) /\
  (forall e,
     fst (stopRecording http s) = Returned (Failure e) ->
     GoProApp.hooks (snd stopped)
     = GoProApp.setIsLoading false
         (GoProApp.setErrorMessage (Some (message e)) (GoProApp.hooks a))) /\
  (fst (startRecording http s) = Returned (Success tt) ->
     GoProApp.errorMessage (GoProApp.hooks (snd started)) = None /\
     GoProApp.isRecording (GoProApp.hooks (snd started))
     = match fst (getCameraStatus http s) with
       | Returned (Success data) => default false (recording data)
       | _ => true
       end) /\
  (fst (stopRecording http s) = Returned (Success tt) ->
     GoProApp.errorMessage (GoProApp.hooks (snd stopped)) = None /\
     GoProApp.isRecording (GoProApp.hooks (snd stopped))
     = match fst (getCameraStatus http s) with
       | Returned (Success data) => default false (recording data)
       | _ => false
       end).
Proof.
  destruct a as [u w s]. cbv zeta.
  rewrite app_startRecording_run, app_stopRecording_run.
  cbn [fst snd GoProApp.hooks GoProApp.goProService].
  unfold afterStartRecording, afterStopRecording. cbv zeta.
  split; [reflexivity|]. split; [reflexivity|]. split; [reflexivity|].
  split; [reflexivity|]. split; [|split; [|split]].
  - intros e ->. reflexivity.
  - intros e ->. reflexivity.
  - intros ->.
    cbn [GoProApp.errorMessage GoProApp.isRecording GoProApp.setIsLoading].
    rewrite (proj1 (proj2 (proj2 (afterStatusUpdate_frame _ _ _)))).
    split; [reflexivity|]. unfold afterStatusUpdate.
    destruct (fst (getCameraStatus http s)) as [[data|e]|e]; reflexivity.
  - intros ->.
    cbn [GoProApp.errorMessage GoProApp.isRecording GoProApp.setIsLoading].
    rewrite (proj1 (proj2 (proj2 (afterMediaUpdate_frame _ _ _)))),
      (proj1 (proj2 (proj2 (afterStatusUpdate_frame _ _ _)))),
      (proj1 (proj2 (proj2 (proj2 (proj2 (proj2 (afterMediaUpdate_frame _ _ _))))))).
    split; [reflexivity|]. unfold afterStatusUpdate.
    destruct (fst (getCameraStatus http s)) as [[data|e]|e]; reflexivity.
Qed.

Lemma recording_flag_follows_status_witness :
  let idle := {| status := 0; battery_level := Some 87; recording := Some false;
                 mode := Some "0" |} in
  let a := {| GoProApp.hooks := GoProApp.initialState;
              GoProApp.goProBluetoothService := Sample.connected;
              GoProApp.goProService := newGoProService |} in
  GoProApp.isRecording
    (GoProApp.hooks (snd (GoProApp.startRecording (Camera.serve idle [] 100) a)))
  = false.
Proof.
  cbv zeta.
  destruct (recording_flag_follows_status
              (Camera.serve {| status := 0; battery_level := Some 87;
                               recording := Some false; mode := Some "0" |} [] 100)
              {| GoProApp.hooks := GoProApp.initialState;
                 GoProApp.goProBluetoothService := Sample.connected;
                 GoProApp.goProService := newGoProService |})
    as [_ [_ [_ [_ [_ [_ [H _]]]]]]].
  exact (proj2 (H eq_refl)).
Defined.

Lemma refresh_failures_are_silent_witness :
  let a := {| GoProApp.hooks :=
                GoProApp.setConnectionStatus wifi_connected GoProApp.initialState;
              GoProApp.goProBluetoothService := Sample.connected;
              GoProApp.goProService := newGoProService |} in
  GoProApp.updateCameraStatus (Camera.serve Camera.fullStatus Camera.files 6000) a
  = (Returned tt, a).
Proof.
  cbv zeta.
  apply (proj1 (refresh_failures_are_silent
                  (Camera.serve Camera.fullStatus Camera.files 6000)
                  {| GoProApp.hooks :=
                       GoProApp.setConnectionStatus wifi_connected GoProApp.initialState;
                     GoProApp.goProBluetoothService := Sample.connected;
                     GoProApp.goProService := newGoProService |})
           {| type := api_timeout; message := "Request timed out";
              details := Some "Timeout after 5000ms"; timestamp := 1700000000000 |}).
  reflexivity.
Defined.

(** ** Runs of the samples, continued *)

Lemma MoreSamples_scanRefused_passes : supportCheckPasses MoreSamples.scanRefused.
Proof. exists PoweredOn. repeat split; discriminate. Qed.

Lemma startScanning_native_failure_witness :
  let run := startScanning MoreSamples.scanRefused Sample.discovered in
  success_of run = Some false /\
  isScanning (snd run) = false /\
  discoveredDevices (snd run) = ∅.
Proof.
  cbv zeta.
  destruct (startScanning_native_failure MoreSamples.scanRefused Sample.discovered
              Sample.busy eq_refl MoreSamples_scanRefused_passes eq_refl)
    as [[err [Hr _]] [H1 [H2 _]]].
  split; [|split; [exact H1 | exact H2]].
  unfold success_of. now rewrite Hr.
Defined.

Lemma onDeviceScanned_records_witness :
  discoveredDevices (onDeviceScanned None (Some Sample.hero11) newBluetoothService)
    !! "D1" = Some Sample.hero11Entry /\
  onDeviceScanned None (Some Sample.speaker) newBluetoothService = newBluetoothService.
Proof.
  split.
  - exact (proj1 (proj1 (onDeviceScanned_records Sample.hero11 newBluetoothService)
                    eq_refl)).
  - exact (proj1 (proj2 (onDeviceScanned_records Sample.speaker newBluetoothService))
             eq_refl).
Defined.

Lemma stopScanning_idempotent_witness :
  stopScanning Sample.discovered = Sample.discovered /\
  isScanning (stopScanning Sample.scanning) = false.
Proof.
  split.
  - exact (proj1 (proj2 (proj2 (stopScanning_idempotent Sample.discovered))) eq_refl).
  - exact (proj1 (proj2 (stopScanning_idempotent Sample.scanning))).
Defined.

Lemma connectToGoProWiFi_outcome_witness :
  GoProApp.connectionStatus
    (GoProApp.hooks
       (snd (GoProApp.connectToGoProWiFi (Camera.serve Camera.fullStatus Camera.files 3500)
               MoreSamples.fresh)))
  = disconnected.
Proof.
  destruct (connectToGoProWiFi_outcome (Camera.serve Camera.fullStatus Camera.files 3500)
              MoreSamples.fresh) as [_ [_ [_ [Hiff [_ Hno]]]]].
  apply Hno. intros H. apply Hiff in H. destruct H as [H _]. discriminate H.
Defined.
